(** * IP valuation platform: the valuation engine and the assumption estimator

    A shallow embedding of [src/ip_valuation_engine.py] and
    [src/auto_assumptions.py].

    Numbers.  The amounts and rates of the code are Python [float]s; they
    are modelled by the exact rationals [Q], and equality of computed amounts
    is [Qeq] ([==]).  The [int]s mixed with them (year counts, lengths,
    patent lives) are integers that fit a float.  The rounding of binary64,
    and the infinities and NaN its [+], [-], [*] and [/] produce without
    raising, are outside this model.  What the model keeps of the float
    arithmetic is the ways it raises: a true division whose divisor is zero
    raises [ZeroDivisionError]; a power [x ** n] whose value leaves the range
    of binary64 raises [OverflowError], and one too small for binary64 is
    [0.0] (and then a zero divisor); indexing an empty list raises
    [IndexError].  Module [Binary64] below evaluates Relief from Royalty in
    binary64 itself, where a statement depends on the rounding.

    Strings are ASCII strings: Python's Unicode-aware case mappings of other
    characters are outside the model.

    Exceptions.  A computation that may raise returns a [result]; the
    engine's methods, which also read and fill [self.cache], take the cache
    and return the outcome together with the cache they leave behind. *)

From Stdlib Require Import QArith Qpower Qround Qabs Qminmax ZArith List String Ascii Bool.
From Stdlib Require Import Lia Lqa DecimalString.
From Stdlib Require Floats.
Import ListNotations.

Local Open Scope string_scope.
Local Open Scope Q_scope.

(** ** Python values, exceptions and partial operations *)

Module Py.

(** The messages of the [ValueError]s the engine raises. *)
Inductive ValueErrorMsg : Type :=
| UnableToFetch (ticker : string)
| SegmentNotFound (segment_name ticker : string) (available_segments : list string)
| UnknownValuationMethod (valuation_method : string).

Inductive PyError : Type :=
| ZeroDivisionError
| IndexError
| OverflowError
| ValueError (msg : ValueErrorMsg).

Inductive result (A : Type) : Type :=
| Ok (a : A)
| Raise (e : PyError).

Arguments Ok {A} a.
Arguments Raise {A} e.

Definition bind {A B : Type} (m : result A) (k : A -> result B) : result B :=
  match m with
  | Ok a => k a
  | Raise e => Raise e
  end.

Definition returns {A : Type} (m : result A) : bool :=
  match m with Ok _ => true | Raise _ => false end.

(** [x / y] *)
Definition pydiv (x y : Q) : result Q :=
  if Qeq_bool y 0 then Raise ZeroDivisionError else Ok (x / y).

(** The range of binary64 under rounding to nearest: a magnitude of
    [2^1024 - 2^970] or more rounds to infinity, one of [2^-1075] or less
    rounds to zero. *)
Definition float_overflow : Q := inject_Z (2 ^ 1024 - 2 ^ 970).
Definition float_underflow : Q := 1 / inject_Z (2 ^ 1075).

(** [p] is the value of a finite binary64 number (it does not overflow);
    [p] is moreover not rounded to zero. *)
Definition is_finite (p : Q) : bool := negb (Qle_bool float_overflow (Qabs p)).
Definition in_float_range (p : Q) : bool :=
  is_finite p && negb (Qle_bool (Qabs p) float_underflow).

(** [x ** n] for a float [x] and an int [n]: [float.__pow__] raises
    [ZeroDivisionError] on [0.0] to a negative power and [OverflowError] when
    the result is out of range; a result that underflows is [0.0]. *)
Definition pypow (x : Q) (n : Z) : result Q :=
  if Qeq_bool x 0 && (n <? 0)%Z then Raise ZeroDivisionError
  else
    let p := x ^ n in
    if negb (is_finite p) then Raise OverflowError
    else if in_float_range p then Ok p
    else Ok 0.

(** [l[-1]] *)
Fixpoint py_last {A : Type} (l : list A) : result A :=
  match l with
  | [] => Raise IndexError
  | [x] => Ok x
  | _ :: t => py_last t
  end.

(** [l[i]], a negative [i] counting from the end *)
Definition py_index {A : Type} (l : list A) (i : Z) : result A :=
  let j := if (i <? 0)%Z then (Z.of_nat (List.length l) + i)%Z else i in
  if (j <? 0)%Z then Raise IndexError
  else match nth_error l (Z.to_nat j) with
       | Some x => Ok x
       | None => Raise IndexError
       end.

(** [len(l)] *)
Definition len {A : Type} (l : list A) : Z := Z.of_nat (List.length l).

(** [sum(l)] *)
Definition pysum (l : list Q) : Q := fold_left Qplus l 0.

(** [x > 0] and the other comparisons, as booleans *)
Definition Qgtb (x y : Q) : bool := negb (Qle_bool x y).
Definition Qltb (x y : Q) : bool := negb (Qle_bool y x).
Definition Qgeb (x y : Q) : bool := Qle_bool y x.

(** [max(x, y)] and [min(x, y)] on floats *)
Definition pymax (x y : Q) : Q := if Qgtb y x then y else x.
Definition pymin (x y : Q) : Q := if Qltb y x then y else x.

End Py.

Import Py.

Notation "x <- m ;; k" := (bind m (fun x => k))
  (at level 61, m at next level, right associativity).
Notation "' p <- m ;; k" := (bind m (fun p => k))
  (at level 61, p pattern, m at next level, right associativity).

(** ** The valuation engine ([ip_valuation_engine.py]) *)

Module Engine.

(** One entry of [yearly_details]; each method has its own keys. *)
Inductive YearlyDetail : Type :=
| RoyaltyYear (year : Z) (revenue royalty_savings discount_factor present_value : Q)
| ExcessYear (year : Z)
    (revenue operating_income contributory_asset_charges excess_earnings
       ip_earnings ip_cash_flow present_value : Q)
| TechYear (year : Z) (revenue decay_factor royalty_savings present_value : Q).

(** The ['assumptions'] entry of a method's result. *)
Inductive Assumptions : Type :=
| RoyaltyAssumptions (royalty_rate tax_rate wacc attribution_pct terminal_growth : Q)
| ExcessAssumptions (operating_margin : Q) (contributory_assets : list (string * Q))
    (ip_contribution_pct wacc tax_rate terminal_growth : Q)
| TechAssumptions (base_royalty_rate adjusted_royalty_rate technology_factor
    innovation_score commercial_score legal_strength_score : Q)
    (remaining_life_years : Z) (tax_rate wacc : Q).

(** The dictionary a valuation method returns.  The Technology Factor method
    returns no ['pv_explicit_period'] and no ['pv_terminal_value'] key. *)
Record MethodResult : Type := mkMethodResult {
  method : string;
  pv_explicit_period : option Q;
  pv_terminal_value : option Q;
  total_value : Q;
  yearly_details : list YearlyDetail;
  assumptions : Assumptions
}.

(** *** [relief_from_royalty] *)

(** The loop [for year, revenue in enumerate(segment_revenues, start=1)],
    from year [year] on, with the accumulators [pv_royalties] and
    [yearly_details]. *)
Fixpoint rfr_years (royalty_rate tax_rate wacc attribution_pct : Q)
    (segment_revenues : list Q) (year : Z)
    (pv_royalties : Q) (yearly_details : list YearlyDetail)
  : result (Q * list YearlyDetail) :=
  match segment_revenues with
  | [] => Ok (pv_royalties, yearly_details)
  | revenue :: rest =>
      let annual_royalty_savings :=
        revenue * royalty_rate * (1 - tax_rate) * attribution_pct in
      discount_factor <- pypow (1 + wacc) year ;;
      pv <- pydiv annual_royalty_savings discount_factor ;;
      rfr_years royalty_rate tax_rate wacc attribution_pct rest (year + 1)
        (pv_royalties + pv)
        (yearly_details ++
           [RoyaltyYear year revenue annual_royalty_savings discount_factor pv])
  end.

Definition relief_from_royalty (segment_revenues : list Q)
    (royalty_rate tax_rate wacc attribution_pct terminal_growth : Q)
  : result MethodResult :=
  '(pv_royalties, yearly_details) <-
     rfr_years royalty_rate tax_rate wacc attribution_pct segment_revenues 1 0 [] ;;
  last_revenue <- py_last segment_revenues ;;
  let terminal_revenue := last_revenue * (1 + terminal_growth) in
  let terminal_royalty :=
    terminal_revenue * royalty_rate * (1 - tax_rate) * attribution_pct in
  terminal_value <- pydiv terminal_royalty (wacc - terminal_growth) ;;
  discount_factor <- pypow (1 + wacc) (len segment_revenues) ;;
  pv_terminal <- pydiv terminal_value discount_factor ;;
  let total_value := pv_royalties + pv_terminal in
  Ok {| method := "Relief from Royalty";
        pv_explicit_period := Some pv_royalties;
        pv_terminal_value := Some pv_terminal;
        total_value := total_value;
        yearly_details := yearly_details;
        assumptions := RoyaltyAssumptions royalty_rate tax_rate wacc
                         attribution_pct terminal_growth |}.

(** *** [multi_period_excess_earnings] *)

(** [for asset_type, return_rate in contributory_assets.items()], with the
    accumulator [total_cac]; the dictionary is the list of its items in
    insertion order. *)
Fixpoint cac_loop (contributory_assets : list (string * Q)) (revenue total_cac : Q) : Q :=
  match contributory_assets with
  | [] => total_cac
  | (asset_type, return_rate) :: rest =>
      let asset_value_proxy := revenue * 0.5 in
      let charge := asset_value_proxy * return_rate in
      cac_loop rest revenue (total_cac + charge)
  end.

Fixpoint mpee_years (operating_margin : Q) (contributory_assets : list (string * Q))
    (ip_contribution_pct wacc tax_rate : Q)
    (segment_revenues : list Q) (year : Z)
    (pv_excess_earnings : Q) (yearly_details : list YearlyDetail)
  : result (Q * list YearlyDetail) :=
  match segment_revenues with
  | [] => Ok (pv_excess_earnings, yearly_details)
  | revenue :: rest =>
      let operating_income := revenue * operating_margin in
      let total_cac := cac_loop contributory_assets revenue 0 in
      let excess_earnings := operating_income - total_cac in
      let ip_earnings := excess_earnings * ip_contribution_pct in
      let ip_cash_flow := ip_earnings * (1 - tax_rate) in
      discount_factor <- pypow (1 + wacc) year ;;
      pv <- pydiv ip_cash_flow discount_factor ;;
      mpee_years operating_margin contributory_assets ip_contribution_pct wacc tax_rate
        rest (year + 1) (pv_excess_earnings + pv)
        (yearly_details ++
           [ExcessYear year revenue operating_income total_cac excess_earnings
              ip_earnings ip_cash_flow pv])
  end.

Definition multi_period_excess_earnings (segment_revenues : list Q)
    (operating_margin : Q) (contributory_assets : list (string * Q))
    (ip_contribution_pct wacc tax_rate terminal_growth : Q)
  : result MethodResult :=
  '(pv_excess_earnings, yearly_details) <-
     mpee_years operating_margin contributory_assets ip_contribution_pct wacc tax_rate
       segment_revenues 1 0 [] ;;
  last_revenue <- py_last segment_revenues ;;
  let terminal_revenue := last_revenue * (1 + terminal_growth) in
  let terminal_operating_income := terminal_revenue * operating_margin in
  let terminal_cac := pysum (map snd contributory_assets) * terminal_revenue * 0.5 in
  let terminal_excess := terminal_operating_income - terminal_cac in
  let terminal_ip_cf := terminal_excess * ip_contribution_pct * (1 - tax_rate) in
  terminal_value <- pydiv terminal_ip_cf (wacc - terminal_growth) ;;
  discount_factor <- pypow (1 + wacc) (len segment_revenues) ;;
  pv_terminal <- pydiv terminal_value discount_factor ;;
  let total_value := pv_excess_earnings + pv_terminal in
  Ok {| method := "Multi-Period Excess Earnings";
        pv_explicit_period := Some pv_excess_earnings;
        pv_terminal_value := Some pv_terminal;
        total_value := total_value;
        yearly_details := yearly_details;
        assumptions := ExcessAssumptions operating_margin contributory_assets
                         ip_contribution_pct wacc tax_rate terminal_growth |}.

(** *** [technology_factor_valuation] *)

(** The body of [for year in range(1, projection_years + 1)]; [remaining]
    counts the iterations still to run. *)
Fixpoint tf_years (segment_revenues : list Q) (adjusted_royalty_rate : Q)
    (remaining_life_years : Z) (tax_rate wacc : Q)
    (remaining : nat) (year : Z)
    (pv_royalties : Q) (yearly_details : list YearlyDetail)
  : result (Q * list YearlyDetail) :=
  match remaining with
  | O => Ok (pv_royalties, yearly_details)
  | S remaining' =>
      revenue <- (if (year <=? len segment_revenues)%Z
                  then py_index segment_revenues (year - 1)
                  else py_last segment_revenues) ;;
      decay <- (q <- pydiv (inject_Z year) (inject_Z remaining_life_years * 1.5) ;;
                Ok (1 - q)) ;;
      let decay := pymax decay 0.3 in
      let annual_royalty_savings :=
        revenue * adjusted_royalty_rate * (1 - tax_rate) * decay in
      discount_factor <- pypow (1 + wacc) year ;;
      pv <- pydiv annual_royalty_savings discount_factor ;;
      tf_years segment_revenues adjusted_royalty_rate remaining_life_years tax_rate wacc
        remaining' (year + 1) (pv_royalties + pv)
        (yearly_details ++ [TechYear year revenue decay annual_royalty_savings pv])
  end.

Definition technology_factor_valuation (segment_revenues : list Q)
    (base_royalty_rate innovation_score commercial_score legal_strength_score : Q)
    (remaining_life_years total_patent_life : Z) (tax_rate wacc : Q)
  : result MethodResult :=
  life_ratio <- pydiv (inject_Z remaining_life_years) (inject_Z total_patent_life) ;;
  let tech_factor :=
    innovation_score * 0.30 + commercial_score * 0.35 +
    legal_strength_score * 0.25 + life_ratio * 0.10 in
  let adjusted_royalty_rate := base_royalty_rate * (1 + tech_factor) in
  let projection_years := Z.min (len segment_revenues) remaining_life_years in
  '(pv_royalties, yearly_details) <-
     tf_years segment_revenues adjusted_royalty_rate remaining_life_years tax_rate wacc
       (Z.to_nat projection_years) 1 0 [] ;;
  Ok {| method := "Technology Factor";
        pv_explicit_period := None;
        pv_terminal_value := None;
        total_value := pv_royalties;
        yearly_details := yearly_details;
        assumptions := TechAssumptions base_royalty_rate adjusted_royalty_rate
                         tech_factor innovation_score commercial_score
                         legal_strength_score remaining_life_years tax_rate wacc |}.

(** *** The data source and [prepare_segment_financials] *)

(** A JSON object the client returns, as far as one key of it is read: the
    empty dictionary (falsy), a dictionary without the key, or one with it. *)
Inductive Response (A : Type) : Type :=
| EmptyDict
| WithoutKey
| WithKey (v : A).

Arguments EmptyDict {A}.
Arguments WithoutKey {A}.
Arguments WithKey {A} v.

(** [not d] *)
Definition falsy {A : Type} (d : Response A) : bool :=
  match d with EmptyDict => true | _ => false end.

(** [d.get(key, [])] *)
Definition get_list {A : Type} (d : Response (list A)) : list A :=
  match d with WithKey v => v | _ => [] end.

(** [d.get(key, default)] on an entry that may be absent *)
Definition get {A : Type} (entry : option A) (default : A) : A :=
  match entry with Some v => v | None => default end.

Record SegmentInfo : Type := { label : option string }.
Record RevenueItem : Type := {
  amount : option Q;
  segments : option (list SegmentInfo)
}.
Record PeriodData : Type := { items : option (list RevenueItem) }.
Record IncomeStatement : Type := {
  revenue : option Q;
  gross_profit : option Q;
  research_and_development : option Q;
  operating_income : option Q
}.

(** [FinancialDatasetsClient], seen from the engine: what a fetch returns for
    a ticker and a limit. *)
Record Client : Type := {
  get_segmented_revenues : string -> Z -> Response (list PeriodData);
  get_income_statement : string -> Z -> Response (list IncomeStatement)
}.

(** [str.lower()] and [str.replace(c, '')] on ASCII strings: [lower] maps
    the letters A-Z and leaves every other character as it is.  Python's
    case mappings of non-ASCII characters are not modelled. *)
Definition lower_ascii (c : ascii) : ascii :=
  let n := nat_of_ascii c in
  if ((65 <=? n) && (n <=? 90))%nat then ascii_of_nat (n + 32) else c.

Fixpoint lower (s : string) : string :=
  match s with
  | EmptyString => EmptyString
  | String c rest => String (lower_ascii c) (lower rest)
  end.

Fixpoint remove_char (c : ascii) (s : string) : string :=
  match s with
  | EmptyString => EmptyString
  | String d rest =>
      if Ascii.eqb c d then remove_char c rest else String d (remove_char c rest)
  end.

(** [s.lower().replace(' ', '').replace('-', '')] *)
Definition normalize (s : string) : string :=
  remove_char "-" (remove_char " " (lower s)).

(** The two inner loops over one period: the amount of the first item one
    of whose segments carries the wanted label. *)
Fixpoint find_item (items : list RevenueItem) (segment_name_lower : string) : option Q :=
  match items with
  | [] => None
  | item :: rest =>
      if existsb
           (fun seg_info => String.eqb (normalize (get (label seg_info) EmptyString)) segment_name_lower)
           (get (segments item) [])
      then Some (get (amount item) 0)
      else find_item rest segment_name_lower
  end.

(** The loop over the periods, which appends to [segment_revenues]. *)
Fixpoint scan_periods (periods : list PeriodData) (segment_name_lower : string) : list Q :=
  match periods with
  | [] => []
  | period_data :: rest =>
      match find_item (get (items period_data) []) segment_name_lower with
      | Some a => a :: scan_periods rest segment_name_lower
      | None => scan_periods rest segment_name_lower
      end
  end.

(** The labels collected for the message of the error, in the order the
    loops meet them (the message prints them as a sorted set). *)
Definition available_segments (periods : list PeriodData) : list string :=
  flat_map (fun period_data =>
    flat_map (fun item => map (fun seg_info => get (label seg_info) EmptyString)
                            (get (segments item) []))
             (get (items period_data) []))
    periods.

(** [for seg_rev, total_rev in zip(segment_revenues, total_revenues)] *)
Fixpoint segment_allocation_loop (segment_revenues total_revenues : list Q)
  : result (list Q) :=
  match segment_revenues, total_revenues with
  | seg_rev :: srest, total_rev :: trest =>
      alloc <- (if Qgtb total_rev 0 then pydiv seg_rev total_rev else Ok 0) ;;
      rest <- segment_allocation_loop srest trest ;;
      Ok (alloc :: rest)
  | _, _ => Ok []
  end.

(** [for x, rev, seg_rev in zip(xs, total_revenues, segment_revenues)], for
    gross profit and for operating income: the margins and the segment's
    share. *)
Fixpoint margin_loop (xs total_revenues segment_revenues : list Q)
  : result (list Q * list Q) :=
  match xs, total_revenues, segment_revenues with
  | x :: xrest, rev :: trest, seg_rev :: srest =>
      '(margin, share) <-
         (if Qgtb rev 0
          then margin <- pydiv x rev ;; Ok (margin, seg_rev * margin)
          else Ok (0, 0)) ;;
      '(margins, shares) <- margin_loop xrest trest srest ;;
      Ok (margin :: margins, share :: shares)
  | _, _, _ => Ok ([], [])
  end.

(** [[rd * alloc for rd, alloc in zip(rd_expenses, segment_allocation)]] *)
Fixpoint zip_mult (rd_expenses segment_allocation : list Q) : list Q :=
  match rd_expenses, segment_allocation with
  | rd :: rrest, alloc :: arest => rd * alloc :: zip_mult rrest arest
  | _, _ => []
  end.

Record SegmentData : Type := {
  ticker : string;
  segment_name : string;
  revenues : list Q;
  gross_profits : list Q;
  gp_margins : list Q;
  rd_expenses : list Q;
  operating_incomes : list Q;
  operating_margins : list Q;
  allocation_pct : list Q;
  years : Z
}.

(** [self.cache], a dictionary from the key string to the stored result. *)
Definition Cache : Type := list (string * SegmentData).

Fixpoint cache_get (cache : Cache) (cache_key : string) : option SegmentData :=
  match cache with
  | [] => None
  | (k, v) :: rest => if String.eqb k cache_key then Some v else cache_get rest cache_key
  end.

Fixpoint cache_remove (cache : Cache) (cache_key : string) : Cache :=
  match cache with
  | [] => []
  | (k, v) :: rest =>
      if String.eqb k cache_key then cache_remove rest cache_key
      else (k, v) :: cache_remove rest cache_key
  end.

(** [self.cache[cache_key] = result] *)
Definition cache_set (cache : Cache) (cache_key : string) (v : SegmentData) : Cache :=
  (cache_key, v) :: cache_remove cache cache_key.

(** [f"{ticker}_{segment_name}_{years}"] *)
Definition make_cache_key (ticker segment_name : string) (years : Z) : string :=
  (ticker ++ "_" ++ segment_name ++ "_" ++ NilZero.string_of_int (Z.to_int years))%string.

(** *** IP assets and the results of the orchestrator *)

(** One entry of [related_segments]:
    [{'name': 'iPhone', 'attribution_pct': 0.6}]. *)
Record RelatedSegment : Type := {
  name : string;
  attribution_pct : Q
}.

Record IPAsset : Type := {
  id : string;
  type : string;
  description : string;
  related_segments : list RelatedSegment;
  royalty_rate : Q;
  valuation_method : string;
  innovation_score : option Q;
  commercial_score : option Q;
  legal_strength_score : option Q;
  remaining_life_years : option Z;
  total_patent_life : Z
}.

(** A method's result with the segment context [value_ip_asset] adds to it. *)
Record SegmentValuation : Type := {
  valuation : MethodResult;
  segment : string;
  segment_attribution : Q;
  segment_data : SegmentData
}.

(** What [value_ip_asset] returns; [asset_total_value] is its ['total_value']
    and [asset_ticker] its ['ticker']. *)
Record AssetValuation : Type := {
  ip_asset_id : string;
  ip_type : string;
  asset_description : string;
  asset_ticker : string;
  asset_total_value : Q;
  segment_valuations : list SegmentValuation;
  valuation_date : string
}.

(** What [value_ip_portfolio] returns. *)
Record PortfolioValuation : Type := {
  portfolio_ticker : string;
  total_portfolio_value : Q;
  asset_count : Z;
  asset_valuations : list AssetValuation;
  portfolio_assumptions : Q * Q * Q
}.

(** [score or default] on an optional float, and on an optional int *)
Definition or_default (score : option Q) (default : Q) : Q :=
  match score with
  | Some x => if Qeq_bool x 0 then default else x
  | None => default
  end.

Definition or_default_int (n : option Z) (default : Z) : Z :=
  match n with
  | Some x => if (x =? 0)%Z then default else x
  | None => default
  end.

(** The [if]/[elif] chain of [value_ip_asset] that selects the method and
    calls it on the attributed revenues. *)
Definition select_valuation_method (ip_asset : IPAsset) (segment_data : SegmentData)
    (attributed_revenues : list Q) (wacc tax_rate terminal_growth : Q)
  : result MethodResult :=
  if String.eqb (valuation_method ip_asset) "relief_from_royalty" then
    relief_from_royalty attributed_revenues (royalty_rate ip_asset) tax_rate wacc
      1 terminal_growth
  else if String.eqb (valuation_method ip_asset) "excess_earnings" then
    avg_op_margin <- pydiv (pysum (operating_margins segment_data))
                       (inject_Z (len (operating_margins segment_data))) ;;
    multi_period_excess_earnings attributed_revenues avg_op_margin
      [("working_capital", 0.02); ("fixed_assets", 0.10); ("other_intangibles", 0.12)]
      0.50 wacc tax_rate terminal_growth
  else if String.eqb (valuation_method ip_asset) "technology_factor" then
    technology_factor_valuation attributed_revenues (royalty_rate ip_asset)
      (or_default (innovation_score ip_asset) 0.7)
      (or_default (commercial_score ip_asset) 0.7)
      (or_default (legal_strength_score ip_asset) 0.7)
      (or_default_int (remaining_life_years ip_asset) 10)
      (total_patent_life ip_asset) tax_rate wacc
  else Raise (ValueError (UnknownValuationMethod (valuation_method ip_asset))).

Section WithClient.

Variable client : Client.

(** The part of [prepare_segment_financials] after the cache lookup. *)
Definition compute_segment_financials (ticker segment_name : string) (years : Z)
  : result SegmentData :=
  let seg_data := get_segmented_revenues client ticker years in
  let income_data := get_income_statement client ticker years in
  if falsy seg_data || falsy income_data
  then Raise (ValueError (UnableToFetch ticker))
  else
    let segment_name_lower := normalize segment_name in
    let segment_revenues := scan_periods (get_list seg_data) segment_name_lower in
    match segment_revenues with
    | [] => Raise (ValueError (SegmentNotFound segment_name ticker
                                 (available_segments (get_list seg_data))))
    | _ =>
        let statements := get_list income_data in
        let total_revenues := map (fun period => get (revenue period) 0) statements in
        let gross_profits := map (fun period => get (gross_profit period) 0) statements in
        let rd_expenses :=
          map (fun period => get (research_and_development period) 0) statements in
        let operating_incomes :=
          map (fun period => get (operating_income period) 0) statements in
        segment_allocation <- segment_allocation_loop segment_revenues total_revenues ;;
        let segment_rd := zip_mult rd_expenses segment_allocation in
        '(gp_margins, segment_gp) <-
           margin_loop gross_profits total_revenues segment_revenues ;;
        '(op_margins, segment_op_income) <-
           margin_loop operating_incomes total_revenues segment_revenues ;;
        Ok {| ticker := ticker;
              segment_name := segment_name;
              revenues := segment_revenues;
              gross_profits := segment_gp;
              gp_margins := gp_margins;
              rd_expenses := segment_rd;
              operating_incomes := segment_op_income;
              operating_margins := op_margins;
              allocation_pct := segment_allocation;
              years := len segment_revenues |}
    end.

Definition prepare_segment_financials (ticker segment_name : string) (years : Z)
    (cache : Cache) : result SegmentData * Cache :=
  let cache_key := make_cache_key ticker segment_name years in
  match cache_get cache cache_key with
  | Some cached => (Ok cached, cache)
  | None =>
      match compute_segment_financials ticker segment_name years with
      | Ok result => (Ok result, cache_set cache cache_key result)
      | Raise e => (Raise e, cache)
      end
  end.

(** [for segment_info in ip_asset.related_segments], with the accumulators
    [total_value] and [segment_valuations]; a segment whose preparation
    raises is skipped ([except Exception: ... continue]), an exception of the
    valuation method leaves the loop. *)
Fixpoint value_segments (ticker : string) (ip_asset : IPAsset)
    (wacc tax_rate terminal_growth : Q) (years : Z)
    (segs : list RelatedSegment)
    (total_value : Q) (segment_valuations : list SegmentValuation)
    (cache : Cache) : result (Q * list SegmentValuation) * Cache :=
  match segs with
  | [] => (Ok (total_value, segment_valuations), cache)
  | segment_info :: rest =>
      let segment_name := name segment_info in
      let segment_attribution := attribution_pct segment_info in
      match prepare_segment_financials ticker segment_name years cache with
      | (Raise _, cache') =>
          value_segments ticker ip_asset wacc tax_rate terminal_growth years rest
            total_value segment_valuations cache'
      | (Ok segment_data, cache') =>
          let attributed_revenues :=
            map (fun rev => rev * segment_attribution) (revenues segment_data) in
          match select_valuation_method ip_asset segment_data attributed_revenues
                  wacc tax_rate terminal_growth with
          | Raise e => (Raise e, cache')
          | Ok result =>
              value_segments ticker ip_asset wacc tax_rate terminal_growth years rest
                (total_value + Engine.total_value result)
                (segment_valuations ++
                   [{| valuation := result;
                       segment := segment_name;
                       segment_attribution := segment_attribution;
                       segment_data := segment_data |}])
                cache'
          end
      end
  end.

Definition value_ip_asset (ticker : string) (ip_asset : IPAsset)
    (wacc tax_rate terminal_growth : Q) (years : Z) (cache : Cache)
  : result AssetValuation * Cache :=
  match value_segments ticker ip_asset wacc tax_rate terminal_growth years
          (related_segments ip_asset) 0 [] cache with
  | (Raise e, cache') => (Raise e, cache')
  | (Ok (total_value, segment_valuations), cache') =>
      (Ok {| ip_asset_id := id ip_asset;
             ip_type := type ip_asset;
             asset_description := description ip_asset;
             asset_ticker := ticker;
             asset_total_value := total_value;
             segment_valuations := segment_valuations;
             valuation_date := "latest_available" |},
       cache')
  end.

(** [for ip_asset in ip_portfolio], with the accumulators [portfolio_value]
    and [asset_valuations]; any exception of [value_ip_asset] is caught and
    the asset skipped.  [value_ip_asset] runs with its default [years=5]. *)
Fixpoint value_assets (ticker : string) (wacc tax_rate terminal_growth : Q)
    (ip_portfolio : list IPAsset)
    (portfolio_value : Q) (asset_valuations : list AssetValuation)
    (cache : Cache) : (Q * list AssetValuation) * Cache :=
  match ip_portfolio with
  | [] => ((portfolio_value, asset_valuations), cache)
  | ip_asset :: rest =>
      match value_ip_asset ticker ip_asset wacc tax_rate terminal_growth 5 cache with
      | (Ok valuation, cache') =>
          value_assets ticker wacc tax_rate terminal_growth rest
            (portfolio_value + asset_total_value valuation)
            (asset_valuations ++ [valuation]) cache'
      | (Raise _, cache') =>
          value_assets ticker wacc tax_rate terminal_growth rest
            portfolio_value asset_valuations cache'
      end
  end.

Definition value_ip_portfolio (ticker : string) (ip_portfolio : list IPAsset)
    (wacc tax_rate terminal_growth : Q) (cache : Cache)
  : result PortfolioValuation * Cache :=
  let '((portfolio_value, asset_valuations), cache') :=
    value_assets ticker wacc tax_rate terminal_growth ip_portfolio 0 [] cache in
  (Ok {| portfolio_ticker := ticker;
         total_portfolio_value := portfolio_value;
         asset_count := len asset_valuations;
         asset_valuations := asset_valuations;
         portfolio_assumptions := (wacc, tax_rate, terminal_growth) |},
   cache').

End WithClient.

End Engine.

(** ** The assumption estimator ([auto_assumptions.py]) *)

Module Estimator.

Import Engine.

(** A period of the income statement, with the keys the estimator reads. *)
Record IncomeStatement : Type := {
  income_tax_expense : option Q;
  net_income : option Q;
  interest_expense : option Q;
  revenue : option Q
}.

Record BalanceSheet : Type := {
  total_debt : option Q;
  shareholders_equity : option Q;
  outstanding_shares : option Q
}.

(** The price snapshot: [price_data.get('snapshot', {}).get('price', 0)]. *)
Record Snapshot : Type := { price : option Q }.

(** [round(x, 4)]: to four decimals, a tie going to the even digit. *)
Definition round4 (x : Q) : Q :=
  let y := x * 10000 in
  let f := Qfloor y in
  let d := y - inject_Z f in
  let n := if Qltb d (1 # 2) then f
           else if Qltb (1 # 2) d then (f + 1)%Z
           else if Z.even f then f else (f + 1)%Z in
  inject_Z n / 10000.

(** [statistics.mean(l)] on a list the caller has found non-empty *)
Definition mean (l : list Q) : result Q :=
  pydiv (pysum l) (inject_Z (len l)).

(** [l[:n]] *)
Definition take {A : Type} (n : nat) (l : list A) : list A := firstn n l.

Record TaxRateInfo : Type := {
  effective_tax_rate : Q;
  tax_method : string;
  tax_note : string;
  yearly_rates : option (list Q)
}.

Record WaccComponents : Type := {
  cost_of_equity : Q;
  cost_of_debt : Q;
  equity_weight : Q;
  debt_weight : Q;
  market_cap : Q;
  components_total_debt : Q
}.

Record WaccInfo : Type := {
  wacc : Q;
  wacc_method : string;
  components : option WaccComponents;
  wacc_note : string
}.

Record GrowthInfo : Type := {
  terminal_growth : Q;
  growth_method : string;
  growth_note : string;
  historical_avg_growth : option Q;
  yearly_growth_rates : option (list Q)
}.

Definition str_of_len {A : Type} (l : list A) : string :=
  NilZero.string_of_int (Z.to_int (len l)).

(** The loop [for stmt in statements[:3]], which appends to [tax_rates]. *)
Fixpoint tax_rates_loop (statements : list IncomeStatement) (tax_rates : list Q)
  : result (list Q) :=
  match statements with
  | [] => Ok tax_rates
  | stmt :: rest =>
      let tax_expense := get (income_tax_expense stmt) 0 in
      let net_income := get (net_income stmt) 0 in
      let pretax_income := net_income + tax_expense in
      if Qgtb pretax_income 0 && Qgeb tax_expense 0 then
        tax_rate <- pydiv tax_expense pretax_income ;;
        if Qle_bool 0 tax_rate && Qle_bool tax_rate 0.50
        then tax_rates_loop rest (tax_rates ++ [tax_rate])
        else tax_rates_loop rest tax_rates
      else tax_rates_loop rest tax_rates
  end.

Definition _calculate_effective_tax_rate (income_stmt : Response (list IncomeStatement))
  : result TaxRateInfo :=
  let statements := get_list income_stmt in
  match statements with
  | [] =>
      Ok {| effective_tax_rate := 0.21;
            tax_method := "default";
            tax_note := "Using default US corporate tax rate (21%)";
            yearly_rates := None |}
  | _ =>
      tax_rates <- tax_rates_loop (take 3 statements) [] ;;
      match tax_rates with
      | _ :: _ =>
          avg_tax_rate <- mean tax_rates ;;
          Ok {| effective_tax_rate := round4 avg_tax_rate;
                tax_method := "calculated";
                tax_note := "Average effective tax rate from last "
                              ++ str_of_len tax_rates ++ " years";
                yearly_rates := Some tax_rates |}
      | [] =>
          Ok {| effective_tax_rate := 0.21;
                tax_method := "default";
                tax_note := "Insufficient data, using default US corporate tax rate (21%)";
                yearly_rates := None |}
      end
  end.

Definition _default_wacc (ticker : string) : WaccInfo :=
  {| wacc := 0.10;
     wacc_method := "default";
     components := None;
     wacc_note := "Using default WACC (10%) - insufficient data for calculation" |}.

Definition _calculate_cost_of_debt (income_stmt : Response (list IncomeStatement))
    (total_debt : Q) : result Q :=
  let statements := get_list income_stmt in
  match statements with
  | [] => Ok 0.04
  | latest :: _ =>
      if Qle_bool total_debt 0 then Ok 0.04
      else
        let interest_expense := get (interest_expense latest) 0 in
        if Qgtb interest_expense 0 && Qgtb total_debt 0 then
          cost_of_debt <- pydiv interest_expense total_debt ;;
          Ok (pymin cost_of_debt 0.15)
        else Ok 0.04
  end.

Definition _calculate_cost_of_equity (ticker : string) (market_cap : Q) : Q :=
  let risk_free_rate := 0.045 in
  let market_risk_premium := 0.06 in
  let beta :=
    if Qgtb market_cap 500e9 then 1.0
    else if Qgtb market_cap 100e9 then 1.1
    else if Qgtb market_cap 10e9 then 1.2
    else 1.3 in
  risk_free_rate + beta * market_risk_premium.

Definition _calculate_wacc (ticker : string)
    (income_stmt : Response (list IncomeStatement))
    (balance_sheet : Response (list BalanceSheet))
    (price_data : Response Snapshot) (tax_rate_info : TaxRateInfo)
  : result WaccInfo :=
  let balance_sheets := get_list balance_sheet in
  match balance_sheets with
  | [] => Ok (_default_wacc ticker)
  | latest_bs :: _ =>
      let total_debt := get (total_debt latest_bs) 0 in
      let shareholders_equity := get (shareholders_equity latest_bs) 0 in
      let shares_outstanding := get (outstanding_shares latest_bs) 0 in
      let current_price :=
        match price_data with
        | WithKey snapshot => get (price snapshot) 0
        | _ => 0
        end in
      let market_cap :=
        if Qgtb shares_outstanding 0 && Qgtb current_price 0
        then shares_outstanding * current_price
        else shareholders_equity in
      cost_of_debt <- _calculate_cost_of_debt income_stmt total_debt ;;
      let cost_of_equity := _calculate_cost_of_equity ticker market_cap in
      let total_value := market_cap + total_debt in
      if Qgtb total_value 0 then
        equity_weight <- pydiv market_cap total_value ;;
        debt_weight <- pydiv total_debt total_value ;;
        let tax_rate := effective_tax_rate tax_rate_info in
        let wacc := (equity_weight * cost_of_equity) +
                    (debt_weight * cost_of_debt * (1 - tax_rate)) in
        Ok {| wacc := round4 wacc;
              wacc_method := "calculated";
              components :=
                Some {| cost_of_equity := round4 cost_of_equity;
                        cost_of_debt := round4 cost_of_debt;
                        equity_weight := round4 equity_weight;
                        debt_weight := round4 debt_weight;
                        market_cap := market_cap;
                        components_total_debt := total_debt |};
              wacc_note := "Calculated using CAPM and market data" |}
      else Ok (_default_wacc ticker)
  end.

(** [for i in range(len(statements) - 1)], reading [statements[i]] and
    [statements[i + 1]]; appends to [growth_rates]. *)
Fixpoint growth_rates_loop (statements : list IncomeStatement) (growth_rates : list Q)
  : result (list Q) :=
  match statements with
  | current :: ((prior :: _) as rest) =>
      let current_rev := get (revenue current) 0 in
      let prior_rev := get (revenue prior) 0 in
      if Qgtb prior_rev 0 then
        growth <- pydiv (current_rev - prior_rev) prior_rev ;;
        if Qltb (-0.5) growth && Qltb growth 0.5
        then growth_rates_loop rest (growth_rates ++ [growth])
        else growth_rates_loop rest growth_rates
      else growth_rates_loop rest growth_rates
  | _ => Ok growth_rates
  end.

Definition default_growth : GrowthInfo :=
  {| terminal_growth := 0.025;
     growth_method := "default";
     growth_note := "Using default GDP growth rate (2.5%)";
     historical_avg_growth := None;
     yearly_growth_rates := None |}.

Definition _calculate_terminal_growth (income_stmt : Response (list IncomeStatement))
    (ticker : string) : result GrowthInfo :=
  let statements := get_list income_stmt in
  if (len statements <? 3)%Z then Ok default_growth
  else
    growth_rates <- growth_rates_loop statements [] ;;
    match growth_rates with
    | _ :: _ =>
        avg_growth <- mean growth_rates ;;
        let capped_growth := pymin avg_growth 0.04 in
        let terminal_growth := pymax capped_growth 0.01 in
        Ok {| terminal_growth := round4 terminal_growth;
              growth_method := "calculated";
              growth_note := "Based on " ++ str_of_len growth_rates
                               ++ "-year avg growth, capped at GDP+inflation";
              historical_avg_growth := Some (round4 avg_growth);
              yearly_growth_rates := Some (map round4 growth_rates) |}
    | [] => Ok default_growth
    end.

(** The four fetches of [calculate_all_assumptions]; each returns the
    empty dictionary when the request fails. *)
Record DataSource : Type := {
  _get_income_statement : string -> Z -> Response (list IncomeStatement);
  _get_balance_sheet : string -> Z -> Response (list BalanceSheet);
  _get_cash_flow : string -> Z -> Response (list Q);
  _get_price_snapshot : string -> Response Snapshot
}.

Record AllAssumptions : Type := {
  all_wacc : Q;
  all_tax_rate : Q;
  all_terminal_growth : Q;
  wacc_details : WaccInfo;
  tax_details : TaxRateInfo;
  growth_details : GrowthInfo
}.

Definition calculate_all_assumptions (source : DataSource) (ticker : string)
  : result AllAssumptions :=
  let income_stmt := _get_income_statement source ticker 5 in
  let balance_sheet := _get_balance_sheet source ticker 2 in
  let cash_flow := _get_cash_flow source ticker 5 in
  let price_data := _get_price_snapshot source ticker in
  tax_rate <- _calculate_effective_tax_rate income_stmt ;;
  wacc <- _calculate_wacc ticker income_stmt balance_sheet price_data tax_rate ;;
  terminal_growth <- _calculate_terminal_growth income_stmt ticker ;;
  Ok {| all_wacc := Estimator.wacc wacc;
        all_tax_rate := effective_tax_rate tax_rate;
        all_terminal_growth := Estimator.terminal_growth terminal_growth;
        wacc_details := wacc;
        tax_details := tax_rate;
        growth_details := terminal_growth |}.

End Estimator.

(** ** Relief from Royalty in binary64

    The same method on Rocq's primitive floats, which are the binary64
    numbers of Python's [float] with the same rounding (to nearest, ties to
    even) of [+], [-], [*] and [/].  The power is the exact power rounded to
    nearest, which is what the C library's [pow] returns on the inputs met
    below.  Years are counted by [nat]; of the result the three amounts are
    kept (the ledger and the echoed assumptions carry no arithmetic of their
    own). *)

Module Binary64.

Import Floats.
#[local] Set Warnings "-inexact-float".
Local Open Scope float_scope.

(** [x ** n] for an int [n >= 0]: [OverflowError] when the rounded power is
    infinite, [0.0] when it underflows. *)
Definition pypow (x : float) (n : nat) : result float :=
  match n with
  | O => Ok 1
  | S _ =>
      match Prim2SF x with
      | S754_finite s m e =>
          let power := (Z.pos m ^ Z.of_nat n)%Z in
          match binary_normalize prec emax
                  (if (s && Nat.odd n)%bool then (- power)%Z else power)
                  (e * Z.of_nat n)%Z false with
          | S754_infinity _ => Raise OverflowError
          | p => Ok (SF2Prim p)
          end
      | S754_zero s => Ok (SF2Prim (S754_zero (s && Nat.odd n)))
      | S754_infinity s => Ok (SF2Prim (S754_infinity (s && Nat.odd n)))
      | S754_nan => Ok x
      end
  end.

(** [x / y] *)
Definition pydiv (x y : float) : result float :=
  if y =? 0 then Raise ZeroDivisionError else Ok (x / y).

(** The three amounts of the result. *)
Record Amounts : Type := {
  pv_explicit_period : float;
  pv_terminal_value : float;
  total_value : float
}.

Fixpoint rfr_years (royalty_rate tax_rate wacc attribution_pct : float)
    (segment_revenues : list float) (year : nat) (pv_royalties : float)
  : result float :=
  match segment_revenues with
  | [] => Ok pv_royalties
  | revenue :: rest =>
      let annual_royalty_savings :=
        revenue * royalty_rate * (1 - tax_rate) * attribution_pct in
      discount_factor <- pypow (1 + wacc) year ;;
      pv <- pydiv annual_royalty_savings discount_factor ;;
      rfr_years royalty_rate tax_rate wacc attribution_pct rest (S year)
        (pv_royalties + pv)
  end.

Definition relief_from_royalty (segment_revenues : list float)
    (royalty_rate tax_rate wacc attribution_pct terminal_growth : float)
  : result Amounts :=
  pv_royalties <-
    rfr_years royalty_rate tax_rate wacc attribution_pct segment_revenues 1 0 ;;
  last_revenue <- py_last segment_revenues ;;
  let terminal_revenue := last_revenue * (1 + terminal_growth) in
  let terminal_royalty :=
    terminal_revenue * royalty_rate * (1 - tax_rate) * attribution_pct in
  terminal_value <- pydiv terminal_royalty (wacc - terminal_growth) ;;
  discount_factor <- pypow (1 + wacc) (List.length segment_revenues) ;;
  pv_terminal <- pydiv terminal_value discount_factor ;;
  let total_value := pv_royalties + pv_terminal in
  Ok {| pv_explicit_period := pv_royalties;
        pv_terminal_value := pv_terminal;
        total_value := total_value |}.

(** [[rev * segment_attribution for rev in segment_data['revenues']]], the
    revenues [value_ip_asset] passes on together with [attribution_pct=1.0] *)
Definition attributed_revenues (revenues : list float) (segment_attribution : float)
  : list float :=
  map (fun rev => rev * segment_attribution) revenues.

End Binary64.

(** ** The formulas of the specification, and auxiliary notions *)

Module Spec.

Import Engine.

(** The sum of [f year] over the years [1..N]. *)
Fixpoint sum_years (N : nat) (f : nat -> Q) : Q :=
  match N with
  | O => 0
  | S n => sum_years n f + f (S n)
  end.

(** Every power [(1 + rate) ** year] of the years [1..years] is a finite
    binary64 number (none overflows); none is moreover rounded to zero. *)
Definition powers_finite (rate : Q) (years : nat) : bool :=
  forallb (fun year => is_finite ((1 + rate) ^ Z.of_nat year)) (seq 1 years).

Definition powers_in_range (rate : Q) (years : nat) : bool :=
  forallb (fun year => in_float_range ((1 + rate) ^ Z.of_nat year)) (seq 1 years).

(** No royalty amount overflows in binary64: the product of each revenue
    with the growth factor [1 + terminal_growth] and with [1 + royalty_rate]
    is a finite number, and with it every amount [relief_from_royalty] forms
    from non-negative revenues, a tax rate and an attribution in [0,1]. *)
Definition royalties_finite (revs : list Q) (royalty_rate terminal_growth : Q) : bool :=
  forallb (fun rev => is_finite (rev * (1 + terminal_growth) * (1 + royalty_rate))) revs.

(** Relief from Royalty as the specification words it: the discounted
    after-tax royalties of the years [1..N], plus the Gordon-growth terminal
    value discounted back [N] years. *)
Definition rfr_explicit_value (revs : list Q) (royalty_rate tax_rate attribution w : Q) : Q :=
  sum_years (List.length revs) (fun year =>
    nth (year - 1) revs 0 * royalty_rate * (1 - tax_rate) * attribution
    / (1 + w) ^ Z.of_nat year).

Definition rfr_terminal_value (revs : list Q)
    (royalty_rate tax_rate attribution w g : Q) : Q :=
  (last revs 0 * (1 + g) * royalty_rate * (1 - tax_rate) * attribution / (w - g))
  / (1 + w) ^ Z.of_nat (List.length revs).

Definition rfr_value (revs : list Q) (royalty_rate tax_rate attribution w g : Q) : Q :=
  rfr_explicit_value revs royalty_rate tax_rate attribution w
  + rfr_terminal_value revs royalty_rate tax_rate attribution w g.

(** The cash flows [cf rev] of a revenue sequence, discounted at [w], the
    first one falling in year [year]. *)
Fixpoint discounted (w : Q) (cf : Q -> Q) (revs : list Q) (year : Z) : Q :=
  match revs with
  | [] => 0
  | rev :: rest => cf rev / (1 + w) ^ year + discounted w cf rest (year + 1)
  end.

(** Two outcomes of a valuation method, the amounts of the first being [k]
    times those of the second: both return, or both raise the same
    exception. *)
Definition amount_scaled (k : Q) (x y : option Q) : Prop :=
  match x, y with
  | Some a, Some b => a == k * b
  | None, None => True
  | _, _ => False
  end.

Definition result_scaled (k : Q) (m1 m2 : result MethodResult) : Prop :=
  match m1, m2 with
  | Ok res1, Ok res2 =>
      total_value res1 == k * total_value res2
      /\ amount_scaled k (pv_explicit_period res1) (pv_explicit_period res2)
      /\ amount_scaled k (pv_terminal_value res1) (pv_terminal_value res2)
  | Raise e1, Raise e2 => e1 = e2
  | _, _ => False
  end.

(** Two runs that both return, the value of the first at most that of the
    second. *)
Definition total_le (m1 m2 : result MethodResult) : Prop :=
  exists res1 res2,
    m1 = Ok res1 /\ m2 = Ok res2 /\ total_value res1 <= total_value res2.

(** Technology Factor as the specification words it. *)
Definition technology_factor (innovation commercial legal_strength : Q)
    (remaining_life total_legal_life : Z) : Q :=
  0.30 * innovation + 0.35 * commercial + 0.25 * legal_strength
  + 0.10 * (inject_Z remaining_life / inject_Z total_legal_life).

Definition decay_factor (year : nat) (remaining_life : Z) : Q :=
  Qmax (1 - inject_Z (Z.of_nat year) / (inject_Z remaining_life * 1.5)) 0.3.


(** A related segment resolves, in a state of the cache, when
    [prepare_segment_financials] returns for it; [resolved_data] is what it
    returns. *)
Definition resolved_data (client : Client) (ticker : string) (years : Z)
    (cache : Cache) (s : RelatedSegment) : option SegmentData :=
  match fst (prepare_segment_financials client ticker (name s) years cache) with
  | Ok data => Some data
  | Raise _ => None
  end.

Definition resolves (client : Client) (ticker : string) (years : Z)
    (cache : Cache) (s : RelatedSegment) : bool :=
  match resolved_data client ticker years cache s with
  | Some _ => true
  | None => false
  end.

(** The selectors [value_ip_asset] knows. *)
Definition recognized (valuation_method : string) : bool :=
  String.eqb valuation_method "relief_from_royalty"
  || String.eqb valuation_method "excess_earnings"
  || String.eqb valuation_method "technology_factor".

(** What [value_ip_asset] hands to the method for a segment, and the
    method's outcome on it. *)
Definition segment_method_result (ip_asset : IPAsset) (s : RelatedSegment)
    (data : SegmentData) (wacc tax_rate terminal_growth : Q) : result MethodResult :=
  select_valuation_method ip_asset data
    (map (fun rev => rev * attribution_pct s) (revenues data))
    wacc tax_rate terminal_growth.

(** The cache [c] holds, beyond what [c0] holds for the segments of a
    ticker, only results computed for them. *)
Definition cache_extends (client : Client) (ticker : string) (years : Z)
    (c0 c : Cache) : Prop :=
  forall segment_name,
    let key := make_cache_key ticker segment_name years in
    cache_get c key = cache_get c0 key
    \/ (cache_get c0 key = None
        /\ exists data,
             compute_segment_financials client ticker segment_name years = Ok data
             /\ cache_get c key = Some data).

(** A valuation in the result of [value_ip_asset] is the method's outcome
    on the data of a related segment that resolves. *)
Definition valued_from (client : Client) (ticker : string) (ip_asset : IPAsset)
    (wacc tax_rate terminal_growth : Q) (years : Z) (cache : Cache)
    (segs : list RelatedSegment) (sv : SegmentValuation) : Prop :=
  exists s,
    In s segs
    /\ segment sv = name s
    /\ segment_attribution sv = attribution_pct s
    /\ resolved_data client ticker years cache s = Some (segment_data sv)
    /\ segment_method_result ip_asset s (segment_data sv) wacc tax_rate terminal_growth
       = Ok (valuation sv).

(** What the allocation loop is to compute for one period: the ratio when
    the consolidated revenue is positive, 0 otherwise. *)
Definition fraction_of (seg_rev total_rev : Q) (alloc : Q) : Prop :=
  (0 < total_rev -> alloc = seg_rev / total_rev
                    /\ (0 <= alloc <= 1 <-> 0 <= seg_rev <= total_rev))
  /\ (total_rev <= 0 -> alloc = 0).

End Spec.

(** ** A data source for the examples *)

Module Fixture.

Import Engine.

Definition item (a : Q) (l : string) : RevenueItem :=
  {| amount := Some a; segments := Some [ {| label := Some l |} ] |}.

(** One period with the segments "Cloud Services" (150) and "Devices" (50). *)
Definition acme_segments : list PeriodData :=
  [ {| items := Some [item 150 "Cloud Services"; item 50 "Devices"] |} ].

Definition acme_income : list IncomeStatement :=
  [ {| revenue := Some 100; gross_profit := Some 40;
       research_and_development := Some 10; operating_income := Some 20 |} ].

(** The ticker "ACME" has segments and an income statement, "BARE" has
    segments and an empty list of income statements; any other fetch
    fails and returns the empty dictionary. *)
Definition client : Client :=
  {| get_segmented_revenues := fun ticker _ =>
       if String.eqb ticker "ACME" || String.eqb ticker "BARE"
       then WithKey acme_segments else EmptyDict;
     get_income_statement := fun ticker _ =>
       if String.eqb ticker "ACME" then WithKey acme_income
       else if String.eqb ticker "BARE" then WithKey []
       else EmptyDict |}.

Definition asset (segs : list RelatedSegment) (method : string) : IPAsset :=
  {| id := "PAT-001"; type := "patent"; description := "example patent";
     related_segments := segs;
     royalty_rate := 0.05;
     valuation_method := method;
     innovation_score := None; commercial_score := None;
     legal_strength_score := None; remaining_life_years := None;
     total_patent_life := 20 |}.

(** A segment that resolves and one the data does not know. *)
Definition mixed_segments : list RelatedSegment :=
  [ {| name := "cloud-services"; attribution_pct := 0.2 |};
    {| name := "Robotics"; attribution_pct := 0.3 |} ].

End Fixture.

(** ** IP asset discovery ([ip_discovery.py]) *)

Module Discovery.

Import Engine.

(** [x in s] on strings: [x] occurs in [s] as a substring. *)
Fixpoint contains (x s : string) : bool :=
  if String.prefix x s then true
  else match s with
       | EmptyString => false
       | String _ rest => contains x rest
       end.

(** [any(x in s for x in needles)] *)
Definition any_in (needles : list string) (s : string) : bool :=
  existsb (fun x => contains x s) needles.

(** [str.upper()] on ASCII strings: the letters a-z are mapped, every other
    character is left as it is *)
Definition upper_ascii (c : ascii) : ascii :=
  let n := nat_of_ascii c in
  if ((97 <=? n) && (n <=? 122))%nat then ascii_of_nat (n - 32) else c.

Fixpoint upper (s : string) : string :=
  match s with
  | EmptyString => EmptyString
  | String c rest => String (upper_ascii c) (upper rest)
  end.

(** [d.get(key, default)] on a dictionary of rates *)
Fixpoint dict_get (d : list (string * Q)) (key : string) (default : Q) : Q :=
  match d with
  | [] => default
  | (k, v) :: rest => if String.eqb k key then v else dict_get rest key default
  end.

(** [self.royalty_rates] *)
Definition royalty_rates : list (string * Q) :=
  [("software", 0.08); ("hardware", 0.04); ("pharmaceutical", 0.12);
   ("consumer_brand", 0.06); ("technology", 0.05); ("services", 0.07);
   ("biotech", 0.15); ("semiconductor", 0.05); ("telecommunications", 0.04);
   ("automotive", 0.03)].

(** The constructor [IPAsset(...)] with the defaults of the dataclass for
    the fields a call leaves out. *)
Definition one_segment (segment_name : string) (attribution : Q) : list RelatedSegment :=
  [ {| name := segment_name; attribution_pct := attribution |} ].

Definition _create_trademark (ticker segment_name segment_lower : string) : IPAsset :=
  let attribution :=
    if contains "iphone" segment_lower then 0.25
    else if contains "ipad" segment_lower || contains "mac" segment_lower then 0.20
    else if contains "watch" segment_lower || contains "wearable" segment_lower then 0.15
    else 0.12 in
  {| id := "TM-" ++ upper segment_name ++ "-001";
     type := "trademark";
     description := segment_name ++ " brand and trademark";
     related_segments := one_segment segment_name attribution;
     royalty_rate := dict_get royalty_rates "consumer_brand" 0.06;
     valuation_method := "relief_from_royalty";
     innovation_score := None;
     commercial_score := None;
     legal_strength_score := None;
     remaining_life_years := None;
     total_patent_life := 20 |}.

Definition _create_technology_patents (ticker segment_name segment_lower : string)
  : list IPAsset :=
  let is_hardware := any_in ["phone"; "pad"; "mac"; "watch"; "pod"] segment_lower in
  if is_hardware then
    [ {| id := "PAT-" ++ upper segment_name ++ "-CORE-001";
         type := "patent";
         description := segment_name ++ " core technology patents";
         related_segments := one_segment segment_name 0.15;
         royalty_rate := dict_get royalty_rates "technology" 0.05;
         valuation_method := "technology_factor";
         innovation_score := Some 0.80;
         commercial_score := Some 0.85;
         legal_strength_score := Some 0.80;
         remaining_life_years := Some 10%Z;
         total_patent_life := 20 |};
      {| id := "PAT-" ++ upper segment_name ++ "-DESIGN-001";
         type := "patent";
         description := segment_name ++ " industrial design patents";
         related_segments := one_segment segment_name 0.08;
         royalty_rate := 0.03;
         valuation_method := "technology_factor";
         innovation_score := Some 0.85;
         commercial_score := Some 0.90;
         legal_strength_score := Some 0.75;
         remaining_life_years := Some 12%Z;
         total_patent_life := 20 |} ]
  else [].

Definition _create_trade_secrets (ticker segment_name segment_lower : string)
  : list IPAsset :=
  if any_in ["service"; "cloud"; "software"; "platform"] segment_lower then
    [ {| id := "TS-" ++ upper segment_name ++ "-001";
         type := "trade_secret";
         description := segment_name ++ " proprietary algorithms and software";
         related_segments := one_segment segment_name 0.30;
         royalty_rate := dict_get royalty_rates "software" 0.08;
         valuation_method := "relief_from_royalty";
         innovation_score := None;
         commercial_score := None;
         legal_strength_score := None;
         remaining_life_years := None;
         total_patent_life := 20 |} ]
  else [].

(** An [IPAsset] is truthy, so [if trademark:] always appends. *)
Definition _generate_segment_ip (ticker segment_name segment_lower : string)
  : list IPAsset :=
  let assets : list IPAsset := [] in
  let assets :=
    if negb (any_in ["service"; "other"; "corporate"] segment_lower)
    then (assets ++ [_create_trademark ticker segment_name segment_lower])%list
    else assets in
  let assets :=
    if any_in ["phone"; "pad"; "mac"; "watch"; "technology"; "hardware"] segment_lower
    then (assets ++ _create_technology_patents ticker segment_name segment_lower)%list
    else assets in
  let assets :=
    if any_in ["service"; "software"; "cloud"; "platform"] segment_lower
    then (assets ++ _create_trade_secrets ticker segment_name segment_lower)%list
    else assets in
  assets.

Definition discover_ip_assets (ticker : string) (segments : list string) : list IPAsset :=
  flat_map (fun segment =>
              let segment_lower := normalize segment in
              _generate_segment_ip ticker segment segment_lower)
           segments.

Definition suggest_shared_ip (segments : list string) : list IPAsset :=
  let hardware_segments :=
    filter (fun s => any_in ["phone"; "pad"; "mac"; "watch"] (lower s)) segments in
  if (2 <=? len hardware_segments)%Z then
    let chip_segments :=
      map (fun seg => {| name := seg; attribution_pct := 0.12 |}) hardware_segments in
    let os_segments :=
      map (fun seg => {| name := seg; attribution_pct := 0.10 |}) hardware_segments in
    [ {| id := "PAT-CHIP-SHARED-001";
         type := "patent";
         description := "Proprietary processor/chip architecture";
         related_segments := chip_segments;
         royalty_rate := 0.05;
         valuation_method := "technology_factor";
         innovation_score := Some 0.92;
         commercial_score := Some 0.88;
         legal_strength_score := Some 0.90;
         remaining_life_years := Some 12%Z;
         total_patent_life := 20 |};
      {| id := "TS-OS-SHARED-001";
         type := "trade_secret";
         description := "Operating system and software platform";
         related_segments := os_segments;
         royalty_rate := 0.08;
         valuation_method := "relief_from_royalty";
         innovation_score := None;
         commercial_score := None;
         legal_strength_score := None;
         remaining_life_years := None;
         total_patent_life := 20 |} ]
  else [].

Definition estimate_attribution (segment_name ip_type : string) : Q :=
  let segment_lower := lower segment_name in
  if String.eqb ip_type "trademark" then
    if contains "iphone" segment_lower then 0.25
    else if any_in ["ipad"; "mac"] segment_lower then 0.20
    else 0.15
  else if String.eqb ip_type "patent" then
    if contains "chip" segment_lower || contains "processor" segment_lower then 0.15
    else 0.10
  else if String.eqb ip_type "trade_secret" then
    if contains "service" segment_lower || contains "cloud" segment_lower then 0.30
    else 0.15
  else if String.eqb ip_type "copyright" then 0.20
  else 0.10.

(** [industry] is [None] or a string; the empty string is falsy. *)
Definition suggest_royalty_rate (ip_type : string) (industry : option string) : Q :=
  let base_rates :=
    [("patent", 0.05); ("trademark", 0.06); ("copyright", 0.08);
     ("trade_secret", 0.08); ("design", 0.03)] in
  let base_rate := dict_get base_rates ip_type 0.05 in
  match industry with
  | None => base_rate
  | Some EmptyString => base_rate
  | Some industry =>
      let industry_lower := lower industry in
      if contains "pharma" industry_lower || contains "biotech" industry_lower
      then base_rate * 2.0
      else if contains "software" industry_lower then base_rate * 1.3
      else if contains "consumer" industry_lower then base_rate * 1.2
      else base_rate
  end.

End Discovery.

(** ** The fair-value cross-check ([fair_value_calculator.py]) *)

Module FairValue.

Import Engine.

Record IncomeStatement : Type := {
  revenue : option Q;
  net_income : option Q;
  operating_income : option Q
}.

Record BalanceSheet : Type := {
  total_debt : option Q;
  cash_and_equivalents : option Q;
  outstanding_shares : option Q
}.

Record CashFlow : Type := {
  operating_cash_flow : option Q;
  capital_expenditures : option Q
}.

(** The metrics snapshot; a missing or null ratio is [None]. *)
Record Metrics : Type := { price_to_earnings_ratio : option Q }.

Record Snapshot : Type := { price : option Q }.

(** [financial_data], with its four entries as [_get_financial_data]
    fills them (the empty dictionary when a fetch fails). *)
Record FinancialData : Type := {
  income : Response (list IncomeStatement);
  balance : Response (list BalanceSheet);
  cashflow : Response (list CashFlow);
  metrics : Response Metrics
}.

(** The dictionary one valuation method returns. *)
Inductive Valuation : Type :=
| Failed (method error : string)
| DCF (enterprise_value equity_value fair_value_per_share
         pv_cash_flows pv_terminal_value : Q) (projected_fcf : list Q)
| PEMultiple (eps fair_pe_ratio fair_value_per_share : Q)
| PSMultiple (revenue_per_share fair_ps_ratio fair_value_per_share : Q)
| EVEBITDA (ebitda fair_ev_ebitda_multiple enterprise_value fair_value_per_share : Q).

(** [v.get('fair_value_per_share', 0)] *)
Definition fair_value_of (v : Valuation) : Q :=
  match v with
  | Failed _ _ => 0
  | DCF _ _ fv _ _ _ => fv
  | PEMultiple _ _ fv => fv
  | PSMultiple _ _ fv => fv
  | EVEBITDA _ _ _ fv => fv
  end.

Definition _estimate_wacc (ticker : string) (financial_data : FinancialData) : Q := 0.10.

(** [for i in range(len(income_data) - 1)], which appends to [growth_rates]. *)
Fixpoint growth_loop (income_data : list IncomeStatement) (growth_rates : list Q)
  : result (list Q) :=
  match income_data with
  | current_stmt :: ((prior_stmt :: _) as rest) =>
      let current := get (revenue current_stmt) 0 in
      let prior := get (revenue prior_stmt) 0 in
      if Qgtb prior 0 then
        growth <- pydiv (current - prior) prior ;;
        if Qltb (-0.5) growth && Qltb growth 2.0
        then growth_loop rest (growth_rates ++ [growth])
        else growth_loop rest growth_rates
      else growth_loop rest growth_rates
  | _ => Ok growth_rates
  end.

Definition _estimate_growth_rate (financial_data : FinancialData) : result Q :=
  let income_data := get_list (income financial_data) in
  if (len income_data <? 2)%Z then Ok 0.05
  else
    growth_rates <- growth_loop income_data [] ;;
    match growth_rates with
    | _ :: _ =>
        avg_growth <- pydiv (pysum growth_rates) (inject_Z (len growth_rates)) ;;
        Ok (pymin (pymax avg_growth (-0.20)) 0.50)
    | [] => Ok 0.05
    end.

(** [for year in range(1, 6)], over the years still to come, which appends
    to [projected_fcf]. *)
Fixpoint projection_loop (fcf growth_rate : Q) (years : list Z) (projected_fcf : list Q)
  : result (list Q) :=
  match years with
  | [] => Ok projected_fcf
  | year :: rest =>
      growth <- pypow (1 + growth_rate) year ;;
      let projected := fcf * growth in
      projection_loop fcf growth_rate rest (projected_fcf ++ [projected])
  end.

(** [for year, cf in enumerate(projected_fcf, 1)], with the accumulator
    [pv_fcf]. *)
Fixpoint pv_loop (wacc : Q) (projected_fcf : list Q) (year : Z) (pv_fcf : Q) : result Q :=
  match projected_fcf with
  | [] => Ok pv_fcf
  | cf :: rest =>
      discount_factor <- pypow (1 + wacc) year ;;
      pv <- pydiv cf discount_factor ;;
      pv_loop wacc rest (year + 1) (pv_fcf + pv)
  end.

Definition _dcf_valuation (financial_data : FinancialData)
    (growth_rate terminal_growth wacc : Q) : result Valuation :=
  let cashflow_data := get_list (cashflow financial_data) in
  let balance_data := get_list (balance financial_data) in
  match cashflow_data, balance_data with
  | latest_cf :: _, latest_bs :: _ =>
      let operating_cf := get (operating_cash_flow latest_cf) 0 in
      let capex := get (capital_expenditures latest_cf) 0 in
      let fcf := operating_cf + capex in
      if Qle_bool fcf 0 then Ok (Failed "DCF" "Negative free cash flow")
      else
        projected_fcf <- projection_loop fcf growth_rate [1; 2; 3; 4; 5]%Z [] ;;
        pv_fcf <- pv_loop wacc projected_fcf 1 0 ;;
        last_fcf <- py_last projected_fcf ;;
        let terminal_fcf := last_fcf * (1 + terminal_growth) in
        terminal_value <- pydiv terminal_fcf (wacc - terminal_growth) ;;
        discount_factor <- pypow (1 + wacc) 5 ;;
        pv_terminal <- pydiv terminal_value discount_factor ;;
        let enterprise_value := pv_fcf + pv_terminal in
        let total_debt := get (total_debt latest_bs) 0 in
        let cash := get (cash_and_equivalents latest_bs) 0 in
        let equity_value := enterprise_value - total_debt + cash in
        let shares := get (outstanding_shares latest_bs) 0 in
        fair_value_per_share <-
          (if Qgtb shares 0 then pydiv equity_value shares else Ok 0) ;;
        Ok (DCF enterprise_value equity_value fair_value_per_share
              pv_fcf pv_terminal projected_fcf)
  | _, _ => Ok (Failed "DCF" "Insufficient data")
  end.

Definition _pe_valuation (financial_data : FinancialData) (ticker : string)
  : result Valuation :=
  let income_data := get_list (income financial_data) in
  let balance_data := get_list (balance financial_data) in
  match income_data, balance_data with
  | latest_income :: _, latest_bs :: _ =>
      let net_income := get (net_income latest_income) 0 in
      let shares := get (outstanding_shares latest_bs) 0 in
      if Qle_bool shares 0 || Qle_bool net_income 0
      then Ok (Failed "P/E Multiple" "Negative or zero earnings")
      else
        eps <- pydiv net_income shares ;;
        let current_pe :=
          match metrics financial_data with
          | WithKey snapshot => price_to_earnings_ratio snapshot
          | _ => None
          end in
        let fair_pe :=
          match current_pe with
          | Some pe =>
              if negb (Qeq_bool pe 0) && (Qltb 0 pe && Qltb pe 100)
              then pe * 1.0 else 20
          | None => 20
          end in
        let fair_value_per_share := eps * fair_pe in
        Ok (PEMultiple eps fair_pe fair_value_per_share)
  | _, _ => Ok (Failed "P/E Multiple" "Insufficient data")
  end.

Definition _ps_valuation (financial_data : FinancialData) (ticker : string)
  : result Valuation :=
  let income_data := get_list (income financial_data) in
  let balance_data := get_list (balance financial_data) in
  match income_data, balance_data with
  | latest_income :: _, latest_bs :: _ =>
      let revenue := get (revenue latest_income) 0 in
      let shares := get (outstanding_shares latest_bs) 0 in
      if Qle_bool shares 0 || Qle_bool revenue 0
      then Ok (Failed "P/S Multiple" "No revenue data")
      else
        revenue_per_share <- pydiv revenue shares ;;
        let fair_ps := 3.0 in
        let fair_value_per_share := revenue_per_share * fair_ps in
        Ok (PSMultiple revenue_per_share fair_ps fair_value_per_share)
  | _, _ => Ok (Failed "P/S Multiple" "Insufficient data")
  end.

Definition _ev_ebitda_valuation (financial_data : FinancialData) (ticker : string)
  : result Valuation :=
  let income_data := get_list (income financial_data) in
  let balance_data := get_list (balance financial_data) in
  match income_data, balance_data with
  | latest_income :: _, latest_bs :: _ =>
      let operating_income := get (operating_income latest_income) 0 in
      let ebitda := operating_income in
      if Qle_bool ebitda 0 then Ok (Failed "EV/EBITDA" "Negative EBITDA")
      else
        let fair_ev_ebitda := 12 in
        let enterprise_value := ebitda * fair_ev_ebitda in
        let total_debt := get (total_debt latest_bs) 0 in
        let cash := get (cash_and_equivalents latest_bs) 0 in
        let equity_value := enterprise_value - total_debt + cash in
        let shares := get (outstanding_shares latest_bs) 0 in
        fair_value_per_share <-
          (if Qgtb shares 0 then pydiv equity_value shares else Ok 0) ;;
        Ok (EVEBITDA ebitda fair_ev_ebitda enterprise_value fair_value_per_share)
  | _, _ => Ok (Failed "EV/EBITDA" "Insufficient data")
  end.

Definition _get_recommendation (upside_pct : Q) : string :=
  if Qgtb upside_pct 30 then "Strong Buy - Significantly Undervalued"
  else if Qgtb upside_pct 15 then "Buy - Undervalued"
  else if Qgtb upside_pct (-10) then "Hold - Fairly Valued"
  else if Qgtb upside_pct (-25) then "Sell - Overvalued"
  else "Strong Sell - Significantly Overvalued".

Record FairValueResult : Type := {
  ticker : string;
  current_price : Q;
  fair_value_average : Q;
  upside_downside_pct : Q;
  valuation_methods : list (string * Valuation);
  assumptions : Q * Q * Q;
  recommendation : string
}.

(** [calculate_fair_value], given what its two fetches return; [None] for
    [growth_rate] or [wacc] is the default of the parameter. *)
Definition calculate_fair_value (financial_data : FinancialData)
    (price_data : Response Snapshot) (ticker : string)
    (growth_rate : option Q) (terminal_growth : Q) (wacc : option Q)
  : result FairValueResult :=
  let wacc := match wacc with
              | None => _estimate_wacc ticker financial_data
              | Some w => w
              end in
  growth_rate <- match growth_rate with
                 | None => _estimate_growth_rate financial_data
                 | Some g => Ok g
                 end ;;
  dcf <- _dcf_valuation financial_data growth_rate terminal_growth wacc ;;
  pe_multiple <- _pe_valuation financial_data ticker ;;
  ps_multiple <- _ps_valuation financial_data ticker ;;
  ev_ebitda <- _ev_ebitda_valuation financial_data ticker ;;
  let valuations :=
    [("dcf", dcf); ("pe_multiple", pe_multiple);
     ("ps_multiple", ps_multiple); ("ev_ebitda", ev_ebitda)] in
  let valid_valuations :=
    map fair_value_of
      (filter (fun v => Qgtb (fair_value_of v) 0) (map snd valuations)) in
  average_fair_value <-
    match valid_valuations with
    | _ :: _ => pydiv (pysum valid_valuations) (inject_Z (len valid_valuations))
    | [] => Ok 0
    end ;;
  let current_price :=
    match price_data with
    | WithKey snapshot => get (price snapshot) 0
    | _ => 0
    end in
  upside_pct <-
    (if Qgtb current_price 0 && Qgtb average_fair_value 0
     then q <- pydiv (average_fair_value - current_price) current_price ;;
          Ok (q * 100)
     else Ok 0) ;;
  Ok {| ticker := ticker;
        current_price := current_price;
        fair_value_average := average_fair_value;
        upside_downside_pct := upside_pct;
        valuation_methods := valuations;
        assumptions := (growth_rate, terminal_growth, wacc);
        recommendation := _get_recommendation upside_pct |}.

End FairValue.

(** ** The demo data and the client in demo mode ([demo_data.py]) *)

Module Demo.

Import Engine.

Record DemoCompany : Type := {
  company_name : string;
  segmented_revenues : list PeriodData;
  income_statements : list IncomeStatement
}.

Definition revenue_item (a : Q) (l : string) : RevenueItem :=
  {| amount := Some a; segments := Some [ {| label := Some l |} ] |}.

Definition period (its : list RevenueItem) : list PeriodData :=
  [ {| items := Some its |} ].

Definition statement (rev gp rd op : Q) : list IncomeStatement :=
  [ {| revenue := Some rev; gross_profit := Some gp;
       research_and_development := Some rd; operating_income := Some op |} ].

(** [DEMO_COMPANIES], with the keys of each entry the engine reads. *)
Definition DEMO_COMPANIES : list (string * DemoCompany) :=
  [ ("AAPL",
     {| company_name := "Apple Inc.";
        segmented_revenues :=
          period [ revenue_item 201183000000 "IPhone";
                   revenue_item 29984000000 "Mac";
                   revenue_item 26694000000 "IPad";
                   revenue_item 96169000000 "Services";
                   revenue_item 37005000000 "Wearables" ];
        income_statements :=
          statement 391035000000 180683000000 31370000000 123216000000 |});
    ("MSFT",
     {| company_name := "Microsoft Corporation";
        segmented_revenues :=
          period [ revenue_item 65585000000 "Productivity and Business Processes";
                   revenue_item 111598000000 "Intelligent Cloud";
                   revenue_item 59655000000 "More Personal Computing" ];
        income_statements :=
          statement 245122000000 171450000000 27195000000 109430000000 |});
    ("QCOM",
     {| company_name := "QUALCOMM Incorporated";
        segmented_revenues :=
          period [ revenue_item 28037000000 "QCT";
                   revenue_item 8411000000 "QTL" ];
        income_statements :=
          statement 38963000000 22384000000 8033000000 11083000000 |});
    ("NVDA",
     {| company_name := "NVIDIA Corporation";
        segmented_revenues :=
          period [ revenue_item 47523000000 "Compute and Networking";
                   revenue_item 12488000000 "Graphics" ];
        income_statements :=
          statement 60922000000 45365000000 8675000000 32972000000 |});
    ("TSLA",
     {| company_name := "Tesla, Inc.";
        segmented_revenues :=
          period [ revenue_item 82419000000 "Automotive Sales";
                   revenue_item 6037000000 "Energy Generation and Storage";
                   revenue_item 8161000000 "Services and Other" ];
        income_statements :=
          statement 96773000000 17660000000 3969000000 8891000000 |}) ].

Fixpoint companies_get (d : list (string * DemoCompany)) (key : string)
  : option DemoCompany :=
  match d with
  | [] => None
  | (k, v) :: rest => if String.eqb k key then Some v else companies_get rest key
  end.

Definition get_demo_data (ticker : string) : option DemoCompany :=
  companies_get DEMO_COMPANIES (Discovery.upper ticker).

Definition is_demo_mode_available (ticker : string) : bool :=
  existsb (String.eqb (Discovery.upper ticker)) (map fst DEMO_COMPANIES).

Definition get_available_demo_tickers : list string := map fst DEMO_COMPANIES.

(** [FinancialDatasetsClient] with [demo_mode] set: both fetches answer
    from the demo data, with the empty dictionary for an unknown ticker. *)
Definition demo_client : Client :=
  {| get_segmented_revenues := fun ticker limit =>
       match get_demo_data ticker with
       | Some demo => WithKey (segmented_revenues demo)
       | None => EmptyDict
       end;
     get_income_statement := fun ticker limit =>
       match get_demo_data ticker with
       | Some demo => WithKey (income_statements demo)
       | None => EmptyDict
       end |}.

(** The (ticker, segment label) pairs of the demo data. *)
Definition demo_segments : list (string * string) :=
  flat_map (fun entry =>
              map (fun l => (fst entry, l))
                (available_segments (segmented_revenues (snd entry))))
           DEMO_COMPANIES.

End Demo.

(** ** Notions used to state further properties *)

Module Props.

Import Engine Spec.

(** [l1] is [l2] with some elements left out, the order kept. *)
Inductive subseq {A : Type} : list A -> list A -> Prop :=
| subseq_nil : subseq [] []
| subseq_skip (x : A) (l1 l2 : list A) : subseq l1 l2 -> subseq l1 (x :: l2)
| subseq_keep (x : A) (l1 l2 : list A) : subseq l1 l2 -> subseq (x :: l1) (x :: l2).

(** The years [first, first + 1, ...], [n] of them. *)
Fixpoint years_from (first : Z) (n : nat) : list Z :=
  match n with
  | O => []
  | S n' => first :: years_from (first + 1) n'
  end.

(** The fields of a ledger entry. *)
Definition year_of (d : YearlyDetail) : Z :=
  match d with
  | RoyaltyYear y _ _ _ _ => y
  | ExcessYear y _ _ _ _ _ _ _ => y
  | TechYear y _ _ _ _ => y
  end.

Definition revenue_of (d : YearlyDetail) : Q :=
  match d with
  | RoyaltyYear _ r _ _ _ => r
  | ExcessYear _ r _ _ _ _ _ _ => r
  | TechYear _ r _ _ _ => r
  end.

Definition present_value_of (d : YearlyDetail) : Q :=
  match d with
  | RoyaltyYear _ _ _ _ pv => pv
  | ExcessYear _ _ _ _ _ _ _ pv => pv
  | TechYear _ _ _ _ pv => pv
  end.

(** The decay factor of an entry of the Technology Factor ledger. *)
Definition decay_of (d : YearlyDetail) : option Q :=
  match d with
  | TechYear _ _ decay _ _ => Some decay
  | _ => None
  end.

(** No character of [s] is a space, a hyphen or an upper-case ASCII letter. *)
Fixpoint is_normal (s : string) : bool :=
  match s with
  | EmptyString => true
  | String c rest =>
      negb (Ascii.eqb c " ") && negb (Ascii.eqb c "-")
      && negb ((65 <=? nat_of_ascii c) && (nat_of_ascii c <=? 90))%nat
      && is_normal rest
  end.

(** An optional score with an explicit 0 turned into a missing one. *)
Definition drop_zero (score : option Q) : option Q :=
  match score with
  | Some x => if Qeq_bool x 0 then None else Some x
  | None => None
  end.

Definition drop_zero_int (n : option Z) : option Z :=
  match n with
  | Some x => if (x =? 0)%Z then None else Some x
  | None => None
  end.

Definition without_zeros (a : IPAsset) : IPAsset :=
  {| id := id a; type := type a; description := description a;
     related_segments := related_segments a;
     royalty_rate := royalty_rate a;
     valuation_method := valuation_method a;
     innovation_score := drop_zero (innovation_score a);
     commercial_score := drop_zero (commercial_score a);
     legal_strength_score := drop_zero (legal_strength_score a);
     remaining_life_years := drop_zero_int (remaining_life_years a);
     total_patent_life := total_patent_life a |}.

(** A score in (0, 1]. *)
Definition unit_score (score : option Q) : Prop :=
  exists x, score = Some x /\ 0 < x /\ x <= 1.

(** The shape of the assets the discovery component builds: attributions
    in (0, 0.30], a royalty rate in (0, 0.08], a legal life of 20 years, and
    either Relief from Royalty on a trademark or trade secret, or
    Technology Factor on a patent with all scores and a remaining life
    within the legal life. *)
Definition well_formed_asset (a : IPAsset) : Prop :=
  related_segments a <> []
  /\ Forall (fun s => 0 < attribution_pct s /\ attribution_pct s <= 0.30)
       (related_segments a)
  /\ 0 < royalty_rate a /\ royalty_rate a <= 0.08
  /\ total_patent_life a = 20%Z
  /\ (valuation_method a = "relief_from_royalty"
      /\ (type a = "trademark" \/ type a = "trade_secret")
      \/ valuation_method a = "technology_factor"
         /\ type a = "patent"
         /\ unit_score (innovation_score a)
         /\ unit_score (commercial_score a)
         /\ unit_score (legal_strength_score a)
         /\ exists n, remaining_life_years a = Some n /\ (0 < n <= 20)%Z).

(** The segments [suggest_shared_ip] takes for hardware. *)
Definition is_hardware (segment : string) : bool :=
  Discovery.any_in ["phone"; "pad"; "mac"; "watch"] (lower segment).

(** Every profile the cache holds has at least one revenue, as every
    profile [prepare_segment_financials] stores has, and at most [periods]
    of them. *)
Definition cache_sound (periods : nat) (cache : Cache) : Prop :=
  forall key data,
    cache_get cache key = Some data ->
    revenues data <> [] /\ (List.length (revenues data) <= periods)%nat.

(** The free cash flow [_dcf_valuation] starts from: the latest operating
    cash flow plus capital expenditures, when there is a cash-flow statement
    and a balance sheet. *)
Definition free_cash_flow (fd : FairValue.FinancialData) : option Q :=
  match get_list (FairValue.cashflow fd), get_list (FairValue.balance fd) with
  | latest_cf :: _, _ :: _ =>
      Some (get (FairValue.operating_cash_flow latest_cf) 0
            + get (FairValue.capital_expenditures latest_cf) 0)
  | _, _ => None
  end.

(** Debt, cash and shares of the latest balance sheet (0 when missing). *)
Definition latest_balance (fd : FairValue.FinancialData) : Q * Q * Q :=
  match get_list (FairValue.balance fd) with
  | latest_bs :: _ =>
      (get (FairValue.total_debt latest_bs) 0,
       get (FairValue.cash_and_equivalents latest_bs) 0,
       get (FairValue.outstanding_shares latest_bs) 0)
  | [] => (0, 0, 0)
  end.

(** The enterprise value of a five-year DCF with a Gordon-growth terminal
    value, as a formula. *)
Definition dcf_enterprise_value (fcf growth_rate terminal_growth wacc : Q) : Q :=
  sum_years 5 (fun year =>
    fcf * (1 + growth_rate) ^ Z.of_nat year / (1 + wacc) ^ Z.of_nat year)
  + fcf * (1 + growth_rate) ^ 5 * (1 + terminal_growth)
    / (wacc - terminal_growth) / (1 + wacc) ^ 5.

Definition is_failed (v : FairValue.Valuation) : bool :=
  match v with FairValue.Failed _ _ => true | _ => false end.

(** The allocation fraction of a demo segment, as
    [prepare_segment_financials] computes it in demo mode from an empty
    cache. *)
Definition demo_allocation (ticker segment : string) : option Q :=
  match fst (prepare_segment_financials Demo.demo_client ticker segment 5 []) with
  | Ok data =>
      match allocation_pct data with
      | [fraction] => Some fraction
      | _ => None
      end
  | Raise _ => None
  end.

(** The fraction is defined and in (0, 1]. *)
Definition proper_fraction (x : option Q) : bool :=
  match x with
  | Some fraction => Qltb 0 fraction && Qle_bool fraction 1
  | None => false
  end.

(** The fractions of the segments of one demo company add up to at most 1. *)
Definition fractions_within_total (entry : string * Demo.DemoCompany) : bool :=
  Qle_bool
    (pysum (map (fun l => match demo_allocation (fst entry) l with
                          | Some fraction => fraction
                          | None => 2
                          end)
              (available_segments (Demo.segmented_revenues (snd entry)))))
    1.

End Props.

Import Engine Spec Props.

(** ** Partial operations *)

Lemma pydiv_ok (x y : Q) : ~ y == 0 -> pydiv x y = Ok (x / y).
Proof.
  intros Hy. unfold pydiv.
  destruct (Qeq_bool y 0) eqn:E; [|reflexivity].
  apply Qeq_bool_eq in E. contradiction.
Qed.

Lemma pydiv_zero (x y : Q) : y == 0 -> pydiv x y = Raise ZeroDivisionError.
Proof.
  intros Hy. unfold pydiv.
  apply Qeq_bool_iff in Hy. now rewrite Hy.
Qed.

Lemma float_underflow_pos : 0 < float_underflow.
Proof. reflexivity. Qed.

Lemma in_float_range_finite (p : Q) : in_float_range p = true -> is_finite p = true.
Proof. unfold in_float_range. intros H. now apply andb_true_iff in H. Qed.

Lemma in_float_range_nonzero (p : Q) : in_float_range p = true -> ~ p == 0.
Proof.
  unfold in_float_range. intros H E.
  apply andb_true_iff in H. destruct H as [_ H].
  apply negb_true_iff in H.
  assert (Hle : Qle_bool (Qabs p) float_underflow = true); [|congruence].
  apply Qle_bool_iff. rewrite E. apply Qlt_le_weak, float_underflow_pos.
Qed.

(** A power within the range is computed (exactly, in this model). *)
Lemma pypow_in_range (x : Q) (n : Z) :
  in_float_range (x ^ n) = true -> pypow x n = Ok (x ^ n).
Proof.
  intros H. unfold pypow.
  destruct (Qeq_bool x 0 && (n <? 0)%Z) eqn:E.
  - exfalso. apply andb_true_iff in E. destruct E as [Ex En].
    apply Qeq_bool_eq in Ex. apply Z.ltb_lt in En.
    apply (in_float_range_nonzero _ H).
    rewrite Ex. destruct n as [|n|n]; try lia.
    apply Qpower_0. discriminate.
  - cbv zeta. rewrite (in_float_range_finite _ H), H. reflexivity.
Qed.

(** A power of a year that overflows raises. *)
Lemma pypow_overflow (x : Q) (n : Z) :
  (0 <= n)%Z -> is_finite (x ^ n) = false -> pypow x n = Raise OverflowError.
Proof.
  intros Hn H. unfold pypow.
  destruct (Z.ltb_spec n 0) as [Hlt|_]; [lia|].
  rewrite andb_false_r. cbv zeta. now rewrite H.
Qed.

(** What a power of a year can do: raise [OverflowError], give 0 (the base
    is 0, or the power underflows), or give its value. *)
Lemma pypow_outcome (x : Q) (n : Z) :
  (0 <= n)%Z ->
  match pypow x n with
  | Ok p => in_float_range (x ^ n) = true /\ p = x ^ n
            \/ in_float_range (x ^ n) = false /\ is_finite (x ^ n) = true /\ p = 0
  | Raise e => e = OverflowError /\ is_finite (x ^ n) = false
  end.
Proof.
  intros Hn. unfold pypow.
  destruct (Z.ltb_spec n 0) as [Hlt|_]; [lia|].
  rewrite andb_false_r. cbv zeta.
  destruct (is_finite (x ^ n)) eqn:Ef; cbn [negb]; [|now split].
  destruct (in_float_range (x ^ n)) eqn:Er; [left|right]; now repeat split.
Qed.

Lemma pypow_raises (x : Q) (n : Z) (e : PyError) :
  pypow x n = Raise e -> e = ZeroDivisionError \/ e = OverflowError.
Proof.
  unfold pypow.
  destruct (Qeq_bool x 0 && (n <? 0)%Z); [intros [= <-]; now left|].
  cbv zeta. destruct (negb (is_finite (x ^ n))); [intros [= <-]; now right|].
  destruct (in_float_range (x ^ n)); discriminate.
Qed.

Lemma powers_in_range_year (rate : Q) (n year : nat) :
  powers_in_range rate n = true -> (1 <= year <= n)%nat ->
  in_float_range ((1 + rate) ^ Z.of_nat year) = true.
Proof.
  unfold powers_in_range. intros H Hy.
  rewrite forallb_forall in H. apply H. apply in_seq. lia.
Qed.

Lemma powers_in_range_finite (rate : Q) (n : nat) :
  powers_in_range rate n = true -> powers_finite rate n = true.
Proof.
  unfold powers_in_range, powers_finite. rewrite !forallb_forall.
  intros H y Hy. apply in_float_range_finite. now apply H.
Qed.

Lemma powers_in_range_le (rate : Q) (n m : nat) :
  powers_in_range rate n = true -> (m <= n)%nat -> powers_in_range rate m = true.
Proof.
  unfold powers_in_range. intros H Hm.
  rewrite forallb_forall in *. intros y Hy. apply H.
  apply in_seq in Hy. apply in_seq. lia.
Qed.

Lemma powers_in_range_pypow (rate : Q) (n year : nat) :
  powers_in_range rate n = true -> (1 <= year <= n)%nat ->
  pypow (1 + rate) (Z.of_nat year) = Ok ((1 + rate) ^ Z.of_nat year)
  /\ ~ (1 + rate) ^ Z.of_nat year == 0.
Proof.
  intros H Hy. pose proof (powers_in_range_year rate n year H Hy) as Hr.
  split; [now apply pypow_in_range | now apply in_float_range_nonzero].
Qed.

Lemma powers_in_range_base (rate : Q) (n : nat) :
  powers_in_range rate n = true -> (1 <= n)%nat -> ~ 1 + rate == 0.
Proof.
  intros H Hn E.
  apply (in_float_range_nonzero _ (powers_in_range_year rate n 1 H ltac:(lia))).
  rewrite E. reflexivity.
Qed.

Lemma py_last_cons {A : Type} (x : A) (l : list A) (d : A) :
  py_last (x :: l) = Ok (last (x :: l) d).
Proof.
  revert x. induction l as [|y l IH]; intros x; [reflexivity|].
  change (py_last (x :: y :: l)) with (py_last (y :: l)).
  change (last (x :: y :: l) d) with (last (y :: l) d).
  apply IH.
Qed.

Lemma py_last_nonempty {A : Type} (l : list A) (d : A) :
  l <> [] -> py_last l = Ok (last l d).
Proof.
  destruct l as [|x l]; [congruence|]. intros _. apply py_last_cons.
Qed.

Lemma power_nonzero (w : Q) (year : Z) : ~ 1 + w == 0 -> ~ (1 + w) ^ year == 0.
Proof. apply Qpower_not_0. Qed.

(** ** Sums over the years *)

Lemma sum_years_ext (n : nat) (f g : nat -> Q) :
  (forall j, (1 <= j <= n)%nat -> f j == g j) -> sum_years n f == sum_years n g.
Proof.
  induction n as [|n IH]; intros H; simpl; [reflexivity|].
  rewrite IH, (H (S n)); [reflexivity|lia|].
  intros j Hj. apply H. lia.
Qed.

Lemma sum_years_shift (n : nat) (f : nat -> Q) :
  sum_years (S n) f == f 1%nat + sum_years n (fun j => f (S j)).
Proof.
  induction n as [|n IH].
  - simpl. ring.
  - change (sum_years (S (S n)) f) with (sum_years (S n) f + f (S (S n))).
    rewrite IH. simpl. ring.
Qed.

Lemma discounted_sum_years (w : Q) (cf : Q -> Q) (revs : list Q) (k : nat) :
  discounted w cf revs (Z.of_nat k + 1)
  == sum_years (List.length revs)
       (fun j => cf (nth (j - 1) revs 0) / (1 + w) ^ Z.of_nat (k + j)).
Proof.
  revert k. induction revs as [|rev rest IH]; intros k; [reflexivity|].
  cbn [discounted List.length]. rewrite sum_years_shift.
  replace (Z.of_nat k + 1 + 1)%Z with (Z.of_nat (S k) + 1)%Z by lia.
  rewrite IH.
  replace (Z.of_nat (k + 1)) with (Z.of_nat k + 1)%Z by lia.
  apply Qplus_comp; [reflexivity|].
  apply sum_years_ext. intros j Hj.
  replace (S j - 1)%nat with (S (j - 1)) by lia.
  replace (k + S j)%nat with (S k + j)%nat by lia.
  reflexivity.
Qed.

(** ** Relief from Royalty *)

(** The loop from year [k + 1] on, when the discount factors of the years it
    runs through are within the range of binary64. *)
Lemma rfr_years_discounted (r t w a : Q) (revs : list Q) (k : nat)
    (acc : Q) (det : list YearlyDetail) :
  powers_in_range w (k + List.length revs) = true ->
  exists acc' det',
    rfr_years r t w a revs (Z.of_nat k + 1) acc det = Ok (acc', det')
    /\ acc' == acc + discounted w (fun rev => rev * r * (1 - t) * a) revs
                       (Z.of_nat k + 1).
Proof.
  revert k acc det.
  induction revs as [|rev rest IH]; intros k acc det Hw.
  - exists acc, det. split; [reflexivity|]. simpl. ring.
  - cbn [rfr_years discounted].
    replace (Z.of_nat k + 1)%Z with (Z.of_nat (S k)) by lia.
    destruct (powers_in_range_pypow w _ (S k) Hw) as [Hpow Hnz];
      [cbn [List.length]; lia|].
    rewrite Hpow. cbn [bind]. rewrite pydiv_ok by exact Hnz. cbn [bind].
    match goal with
    | |- exists _ _, rfr_years _ _ _ _ _ _ ?a1 ?d1 = _ /\ _ =>
        destruct (IH (S k) a1 d1) as (acc' & det' & Hrun & Hacc)
    end.
    { cbn [List.length] in Hw. now rewrite Nat.add_succ_r in Hw. }
    exists acc', det'. split; [exact Hrun|].
    rewrite Hacc. ring.
Qed.

Lemma len_nat {A : Type} (l : list A) : len l = Z.of_nat (List.length l).
Proof. reflexivity. Qed.

Lemma length_pos {A : Type} (l : list A) : l <> [] -> (1 <= List.length l)%nat.
Proof. destruct l; [congruence|]. cbn. lia. Qed.

(** The discount factor of the terminal value. *)
Lemma terminal_discount (w : Q) {A : Type} (revs : list A) :
  revs <> [] -> powers_in_range w (List.length revs) = true ->
  pypow (1 + w) (len revs) = Ok ((1 + w) ^ len revs)
  /\ ~ (1 + w) ^ len revs == 0.
Proof.
  intros Hne Hw. rewrite len_nat.
  apply (powers_in_range_pypow w (List.length revs)); [exact Hw|].
  pose proof (length_pos revs Hne). lia.
Qed.

(** The shape of a successful run: the explicit period, then the terminal
    value, when no discount factor leaves the range of binary64 and the
    divisor [w - g] is not zero. *)
Lemma relief_from_royalty_returns (revs : list Q) (r t w a g : Q) :
  revs <> [] -> ~ w - g == 0 -> powers_in_range w (List.length revs) = true ->
  exists res acc,
    relief_from_royalty revs r t w a g = Ok res
    /\ pv_explicit_period res = Some acc
    /\ acc == discounted w (fun rev => rev * r * (1 - t) * a) revs 1
    /\ pv_terminal_value res
       = Some (last revs 0 * (1 + g) * r * (1 - t) * a / (w - g) / (1 + w) ^ len revs)
    /\ total_value res
       = acc + last revs 0 * (1 + g) * r * (1 - t) * a / (w - g) / (1 + w) ^ len revs.
Proof.
  intros Hne Hwg Hw.
  destruct (rfr_years_discounted r t w a revs 0 0 [] Hw) as (acc & det & Hrun & Hacc).
  change (Z.of_nat 0 + 1)%Z with 1%Z in Hrun, Hacc.
  destruct (terminal_discount w revs Hne Hw) as [Hpow Hnz].
  unfold relief_from_royalty. rewrite Hrun. cbn [bind].
  rewrite (py_last_nonempty revs 0 Hne). cbn [bind].
  rewrite pydiv_ok by exact Hwg. cbn [bind].
  rewrite Hpow. cbn [bind].
  rewrite pydiv_ok by exact Hnz. cbn [bind].
  eexists. exists acc. split; [reflexivity|]. cbn.
  repeat split; try reflexivity.
  rewrite Hacc. ring.
Qed.

(** C1, as stated, fails: with two revenues and a WACC of 1e200 (above the
    terminal growth) the formula of the claim has a value, but the discount
    factor of year 2, [(1 + 1e200) ** 2], is out of the range of binary64
    and the method raises [OverflowError]. *)
Lemma relief_from_royalty_overflows :
  [100; 100] <> [] /\ 0.02 < 10 ^ 200 /\
  relief_from_royalty [100; 100] 0.05 0.21 (10 ^ 200) 1 0.02 = Raise OverflowError.
Proof. split; [discriminate | split; vm_compute; reflexivity]. Qed.

(** Two more inputs with [g < w] on which the method raises: at a WACC of
    -100% the first discount factor is [0.0 ** 1 = 0.0]; at a WACC of -99.9%
    the discount factor of year 108, [0.001 ** 108], underflows to [0.0]. *)
Example relief_from_royalty_wacc_minus_one :
  -2 < -1 /\
  relief_from_royalty [100] 0.05 0.21 (-1) 1 (-2) = Raise ZeroDivisionError.
Proof. split; reflexivity. Qed.

Example relief_from_royalty_underflows :
  -2 < -0.999 /\
  relief_from_royalty (repeat 100 108) 0.05 0.21 (-0.999) 1 (-2)
  = Raise ZeroDivisionError.
Proof. split; vm_compute; reflexivity. Qed.

(** C1 (amended): for every non-empty revenue sequence and every royalty
    rate, tax rate, attribution, WACC [w] and terminal growth [g] with
    [g < w], such that every discount factor [(1 + w) ** year] of the years
    [1..N] is a finite non-zero binary64 number, [relief_from_royalty]
    returns, and its [total_value] is (in exact arithmetic) the sum over
    the years [1..N] of
    [r_year * royalty * (1 - tax) * attribution / (1 + w)^year] plus the
    terminal value [r_N * (1 + g) * royalty * (1 - tax) * attribution / (w - g)]
    divided by [(1 + w)^N].  On scenario A (revenues 100, 110, 121, royalty
    5%, tax 21%, attribution 100%, WACC 10%, growth 2%) the first year's
    present value is 3.95 / 1.10 and the total is the hand-computed value,
    56.556818 within a relative 1e-6. *)
Theorem relief_from_royalty_gordon_growth :
  (forall (revs : list Q) (r t a w g : Q),
      revs <> [] -> g < w -> powers_in_range w (List.length revs) = true ->
      exists res,
        relief_from_royalty revs r t w a g = Ok res
        /\ total_value res == rfr_value revs r t a w g)
  /\ (exists res pv1 rest,
        relief_from_royalty [100; 110; 121] 0.05 0.21 0.10 1 0.02 = Ok res
        /\ yearly_details res = RoyaltyYear 1 100 (100 * 0.05 * (1 - 0.21) * 1)
                                  ((1 + 0.10) ^ 1) pv1 :: rest
        /\ pv1 == 3.95 / 1.10
        /\ total_value res
           == 3.95 / 1.10 + 4.345 / 1.21 + 4.7795 / 1.331
              + 121 * 1.02 * 0.05 * 0.79 / (0.10 - 0.02) / 1.331
        /\ Qabs (total_value res - 56.556818) <= 0.000001 * 56.556818).
Proof.
  split.
  - intros revs r t a w g Hne Hlt Hw.
    assert (Hwg : ~ w - g == 0) by (intros E; lra).
    destruct (relief_from_royalty_returns revs r t w a g Hne Hwg Hw)
      as (res & acc & Hrun & _ & Hacc & _ & Htot).
    exists res. split; [exact Hrun|].
    rewrite Htot, Hacc. unfold rfr_value, rfr_explicit_value, rfr_terminal_value, len.
    change 1%Z with (Z.of_nat 0 + 1)%Z.
    rewrite discounted_sum_years. reflexivity.
  - eexists. eexists. eexists.
    split; [vm_compute; reflexivity|].
    split; [reflexivity|].
    repeat split; vm_compute; congruence.
Qed.

Lemma relief_from_royalty_gordon_growth_witness :
  ([100; 110; 121] <> [] /\ 0.02 < 0.10
   /\ powers_in_range 0.10 (List.length [100; 110; 121]) = true)
  /\ exists res,
       relief_from_royalty [100; 110; 121] 0.05 0.21 0.10 1 0.02 = Ok res
       /\ total_value res == rfr_value [100; 110; 121] 0.05 0.21 1 0.10 0.02.
Proof.
  split; [split; [discriminate|split; [reflexivity|vm_compute; reflexivity]]|].
  apply (proj1 relief_from_royalty_gordon_growth).
  - discriminate.
  - reflexivity.
  - vm_compute; reflexivity.
Defined.

(** ** Multi-Period Excess Earnings *)

(** The after-tax cash flow the loop of [multi_period_excess_earnings]
    derives from one year's revenue. *)
Lemma mpee_years_discounted (om : Q) (ca : list (string * Q)) (ip w t : Q)
    (revs : list Q) (k : nat) (acc : Q) (det : list YearlyDetail) :
  powers_in_range w (k + List.length revs) = true ->
  exists acc' det',
    mpee_years om ca ip w t revs (Z.of_nat k + 1) acc det = Ok (acc', det')
    /\ acc' == acc + discounted w
                       (fun rev => (rev * om - cac_loop ca rev 0) * ip * (1 - t))
                       revs (Z.of_nat k + 1).
Proof.
  revert k acc det.
  induction revs as [|rev rest IH]; intros k acc det Hw.
  - exists acc, det. split; [reflexivity|]. simpl. ring.
  - cbn [mpee_years discounted].
    replace (Z.of_nat k + 1)%Z with (Z.of_nat (S k)) by lia.
    destruct (powers_in_range_pypow w _ (S k) Hw) as [Hpow Hnz];
      [cbn [List.length]; lia|].
    rewrite Hpow. cbn [bind]. rewrite pydiv_ok by exact Hnz. cbn [bind].
    match goal with
    | |- exists _ _, mpee_years _ _ _ _ _ _ _ ?a1 ?d1 = _ /\ _ =>
        destruct (IH (S k) a1 d1) as (acc' & det' & Hrun & Hacc)
    end.
    { cbn [List.length] in Hw. now rewrite Nat.add_succ_r in Hw. }
    exists acc', det'. split; [exact Hrun|].
    rewrite Hacc. ring.
Qed.

Lemma multi_period_excess_earnings_returns (revs : list Q) (om : Q)
    (ca : list (string * Q)) (ip w t g : Q) :
  revs <> [] -> ~ w - g == 0 -> powers_in_range w (List.length revs) = true ->
  exists res,
    multi_period_excess_earnings revs om ca ip w t g = Ok res
    /\ pv_terminal_value res
       = Some ((last revs 0 * (1 + g) * om
                - pysum (map snd ca) * (last revs 0 * (1 + g)) * 0.5)
               * ip * (1 - t) / (w - g) / (1 + w) ^ len revs).
Proof.
  intros Hne Hwg Hw.
  destruct (mpee_years_discounted om ca ip w t revs 0 0 [] Hw)
    as (acc & det & Hrun & Hacc).
  change (Z.of_nat 0 + 1)%Z with 1%Z in Hrun, Hacc.
  destruct (terminal_discount w revs Hne Hw) as [Hpow Hnz].
  unfold multi_period_excess_earnings. rewrite Hrun. cbn [bind].
  rewrite (py_last_nonempty revs 0 Hne). cbn [bind].
  rewrite pydiv_ok by exact Hwg. cbn [bind].
  rewrite Hpow. cbn [bind].
  rewrite pydiv_ok by exact Hnz. cbn [bind].
  eexists. split; reflexivity.
Qed.

(** ** The Gordon-growth precondition *)

(** C2, as stated, fails: with a WACC of 2% below a terminal growth of 5%
    both methods return, with a negative terminal value. *)
Lemma perpetuity_computed_below_growth :
  0.02 <= 0.05
  /\ (exists res tv,
        relief_from_royalty [100] 0.05 0.21 0.02 1 0.05 = Ok res
        /\ pv_terminal_value res = Some tv /\ tv < 0)
  /\ (exists res tv,
        multi_period_excess_earnings [100] 0.30 [("fixed_assets", 0.10)]
          0.50 0.02 0.21 0.05 = Ok res
        /\ pv_terminal_value res = Some tv /\ tv < 0).
Proof.
  split; [discriminate|].
  split; eexists; eexists; (split; [vm_compute; reflexivity|]); split; reflexivity.
Qed.

(** C2 (amended): neither method validates WACC against terminal growth.
    On a non-empty revenue sequence with [w <= g], whose discount factors
    [(1 + w) ** year] of the years [1..N] are finite non-zero binary64
    numbers: when [w < g] both methods return, with the terminal value the
    formula gives for the negative denominator [w - g]; when [w = g] both
    fail with Python's [ZeroDivisionError], raised by the division by
    [w - g]. *)
Theorem perpetuity_not_validated (revs : list Q) (r t a om ip w g : Q)
    (ca : list (string * Q)) :
  revs <> [] -> powers_in_range w (List.length revs) = true -> w <= g ->
  match relief_from_royalty revs r t w a g with
  | Ok res =>
      w < g
      /\ pv_terminal_value res
         = Some (last revs 0 * (1 + g) * r * (1 - t) * a / (w - g)
                 / (1 + w) ^ len revs)
  | Raise e => w == g /\ e = ZeroDivisionError
  end
  /\ match multi_period_excess_earnings revs om ca ip w t g with
     | Ok res =>
         w < g
         /\ pv_terminal_value res
            = Some ((last revs 0 * (1 + g) * om
                     - pysum (map snd ca) * (last revs 0 * (1 + g)) * 0.5)
                    * ip * (1 - t) / (w - g) / (1 + w) ^ len revs)
     | Raise e => w == g /\ e = ZeroDivisionError
     end.
Proof.
  intros Hne Hw Hle.
  destruct (Qeq_dec w g) as [Heq|Hneq].
  - assert (Hwg : w - g == 0) by lra.
    split.
    + destruct (rfr_years_discounted r t w a revs 0 0 [] Hw) as (acc & det & Hrun & _).
      change (Z.of_nat 0 + 1)%Z with 1%Z in Hrun.
      unfold relief_from_royalty. rewrite Hrun. cbn [bind].
      rewrite (py_last_nonempty revs 0 Hne). cbn [bind].
      rewrite pydiv_zero by exact Hwg. now split.
    + destruct (mpee_years_discounted om ca ip w t revs 0 0 [] Hw)
        as (acc & det & Hrun & _).
      change (Z.of_nat 0 + 1)%Z with 1%Z in Hrun.
      unfold multi_period_excess_earnings. rewrite Hrun. cbn [bind].
      rewrite (py_last_nonempty revs 0 Hne). cbn [bind].
      rewrite pydiv_zero by exact Hwg. now split.
  - assert (Hlt : w < g) by lra.
    assert (Hwg : ~ w - g == 0) by (intros E; lra).
    split.
    + destruct (relief_from_royalty_returns revs r t w a g Hne Hwg Hw)
        as (res & acc & Hrun & _ & _ & Hterm & _).
      rewrite Hrun. now split.
    + destruct (multi_period_excess_earnings_returns revs om ca ip w t g Hne Hwg Hw)
        as (res & Hrun & Hterm).
      rewrite Hrun. now split.
Qed.

Lemma perpetuity_not_validated_witness :
  ([100] <> [] /\ powers_in_range 0.02 (List.length [100]) = true /\ 0.02 <= 0.05)
  /\ match relief_from_royalty [100] 0.05 0.21 0.02 1 0.05 with
     | Ok res =>
         0.02 < 0.05
         /\ pv_terminal_value res
            = Some (last [100] 0 * (1 + 0.05) * 0.05 * (1 - 0.21) * 1 / (0.02 - 0.05)
                    / (1 + 0.02) ^ len [100])
     | Raise e => 0.02 == 0.05 /\ e = ZeroDivisionError
     end
  /\ match multi_period_excess_earnings [100] 0.30 [("fixed_assets", 0.10)]
             0.50 0.02 0.21 0.05 with
     | Ok res =>
         0.02 < 0.05
         /\ pv_terminal_value res
            = Some ((last [100] 0 * (1 + 0.05) * 0.30
                     - pysum (map snd [("fixed_assets", 0.10)])
                       * (last [100] 0 * (1 + 0.05)) * 0.5)
                    * 0.50 * (1 - 0.21) / (0.02 - 0.05) / (1 + 0.02) ^ len [100])
     | Raise e => 0.02 == 0.05 /\ e = ZeroDivisionError
     end.
Proof.
  split; [split; [discriminate|split; [vm_compute; reflexivity|discriminate]]|].
  apply (perpetuity_not_validated [100] 0.05 0.21 1 0.30 0.50 0.02 0.05
           [("fixed_assets", 0.10)]);
    [discriminate|vm_compute; reflexivity|discriminate].
Defined.

Example perpetuity_at_equal_rates :
  relief_from_royalty [100] 0.05 0.21 0.05 1 0.05 = Raise ZeroDivisionError
  /\ multi_period_excess_earnings [100] 0.30 [("fixed_assets", 0.10)]
       0.50 0.05 0.21 0.05 = Raise ZeroDivisionError.
Proof. split; reflexivity. Qed.

(** ** Technology Factor *)

Lemma inject_Z_zero (z : Z) : inject_Z z == 0 <-> z = 0%Z.
Proof. unfold Qeq. simpl. lia. Qed.

Lemma py_index_nth {A : Type} (l : list A) (k : nat) (d : A) :
  (k < List.length l)%nat -> py_index l (Z.of_nat k) = Ok (nth k l d).
Proof.
  intros Hk. unfold py_index.
  destruct (Z.ltb_spec (Z.of_nat k) 0) as [H|_]; [lia|].
  destruct (Z.ltb_spec (Z.of_nat k) 0) as [H|_]; [lia|].
  rewrite Nat2Z.id.
  destruct (nth_error l k) as [x|] eqn:E.
  - now rewrite (nth_error_nth l k d E).
  - apply nth_error_None in E. lia.
Qed.





(** Outside these inputs the method raises: with two revenues, a life of 10
    years and a WACC of 1e200 the discount factor of year 2 overflows. *)
Example technology_factor_valuation_overflows :
  technology_factor_valuation [100; 100] 0.05 0.7 0.7 0.7 10 20 0.21 (10 ^ 200)
  = Raise OverflowError.
Proof. vm_compute. reflexivity. Qed.

(** ** Zero-length revenue sequences *)



(** ** Homogeneity of Relief from Royalty *)

Lemma py_last_map {A B : Type} (f : A -> B) (l : list A) :
  py_last (map f l) = match py_last l with Ok x => Ok (f x) | Raise e => Raise e end.
Proof.
  induction l as [|x l IH]; [reflexivity|].
  destruct l as [|y l]; [reflexivity|].
  change (py_last (map f (x :: y :: l))) with (py_last (map f (y :: l))).
  change (py_last (x :: y :: l)) with (py_last (y :: l)).
  exact IH.
Qed.

Lemma len_map {A B : Type} (f : A -> B) (l : list A) : len (map f l) = len l.
Proof. unfold len. now rewrite length_map. Qed.

(** Revenues scaled by [c] under attribution [a1], against the unscaled
    revenues under attribution [a2], when [c * a1 = k * a2]. *)
Lemma rfr_years_rescaled (r t w a1 a2 c k : Q) (revs : list Q) (year : Z)
    (acc1 acc2 : Q) (det1 det2 : list YearlyDetail) :
  c * a1 == k * a2 -> acc1 == k * acc2 ->
  match rfr_years r t w a1 (map (fun rev => rev * c) revs) year acc1 det1,
        rfr_years r t w a2 revs year acc2 det2 with
  | Ok (x1, _), Ok (x2, _) => x1 == k * x2
  | Raise e1, Raise e2 => e1 = e2
  | _, _ => False
  end.
Proof.
  intros Hk. revert year acc1 acc2 det1 det2.
  induction revs as [|rev rest IH]; intros year acc1 acc2 det1 det2 Hacc.
  - exact Hacc.
  - cbn [map rfr_years].
    destruct (pypow (1 + w) year) as [df|e]; cbn [bind]; [|reflexivity].
    unfold pydiv.
    destruct (Qeq_bool df 0) eqn:E; cbn [bind]; [reflexivity|].
    apply Qeq_bool_neq in E.
    apply IH.
    assert (Hcf : rev * c * r * (1 - t) * a1 == k * (rev * r * (1 - t) * a2)).
    { transitivity (rev * r * (1 - t) * (c * a1)); [ring|]. rewrite Hk. ring. }
    unfold Qdiv. rewrite Hcf, Hacc. ring.
Qed.

Lemma relief_from_royalty_rescaled (revs : list Q) (r t w a1 a2 c k g : Q) :
  c * a1 == k * a2 ->
  result_scaled k
    (relief_from_royalty (map (fun rev => rev * c) revs) r t w a1 g)
    (relief_from_royalty revs r t w a2 g).
Proof.
  intros Hk. unfold relief_from_royalty.
  pose proof (rfr_years_rescaled r t w a1 a2 c k revs 1 0 0 [] [] Hk) as H.
  destruct (rfr_years r t w a1 (map (fun rev => rev * c) revs) 1 0 [])
    as [[x1 d1]|e1];
    destruct (rfr_years r t w a2 revs 1 0 []) as [[x2 d2]|e2];
    cbn [bind]; try (exfalso; apply H; ring); [|apply H; ring].
  assert (Hx : x1 == k * x2) by (apply H; ring). clear H.
  rewrite py_last_map.
  destruct (py_last revs) as [lr|e]; cbn [bind]; [|reflexivity].
  unfold pydiv.
  destruct (Qeq_bool (w - g) 0) eqn:E1; cbn [bind]; [reflexivity|].
  rewrite len_map.
  destruct (pypow (1 + w) (len revs)) as [df|e]; cbn [bind]; [|reflexivity].
  destruct (Qeq_bool df 0) eqn:E2; cbn [bind]; [reflexivity|].
  apply Qeq_bool_neq in E1. apply Qeq_bool_neq in E2.
  assert (Hterm : lr * c * (1 + g) * r * (1 - t) * a1 / (w - g) / df
                  == k * (lr * (1 + g) * r * (1 - t) * a2 / (w - g) / df)).
  { assert (Hcf : lr * c * (1 + g) * r * (1 - t) * a1
                  == k * (lr * (1 + g) * r * (1 - t) * a2)).
    { transitivity (lr * (1 + g) * r * (1 - t) * (c * a1)); [ring|]. rewrite Hk. ring. }
    unfold Qdiv. rewrite Hcf. ring. }
  cbn. repeat split.
  - rewrite Hx, Hterm. ring.
  - exact Hx.
  - exact Hterm.
Qed.

Section BinaryRounding.

Import Floats.
#[local] Set Warnings "-inexact-float".
Local Open Scope float_scope.

(** C10, as stated, fails in binary64: the amounts are scaled by [c] only up
    to rounding.  On scenario A the total of the revenues scaled by 0.3 is
    16.96704545454545, while 0.3 times the total 56.55681818181817 of the
    unscaled revenues is 16.967045454545453; and with an attribution of 0.1
    the total is 5.655681818181817 when the attribution is passed as
    [attribution_pct], but 5.655681818181818 when the revenues are multiplied
    by it and [attribution_pct] is 1.0, as [value_ip_asset] does. *)
Lemma relief_from_royalty_not_exactly_homogeneous :
  (exists unscaled scaled,
     Binary64.relief_from_royalty [100; 110; 121] 0.05 0.21 0.10 1 0.02 = Ok unscaled
     /\ Binary64.relief_from_royalty (map (fun rev => rev * 0.3) [100; 110; 121])
          0.05 0.21 0.10 1 0.02 = Ok scaled
     /\ Binary64.total_value unscaled = 56.55681818181817
     /\ Binary64.total_value scaled = 16.96704545454545
     /\ 0.3 * Binary64.total_value unscaled = 16.967045454545453
     /\ (Binary64.total_value scaled =? 0.3 * Binary64.total_value unscaled) = false)
  /\ (exists attributed premultiplied,
        Binary64.relief_from_royalty [100; 110; 121] 0.05 0.21 0.10 0.1 0.02
        = Ok attributed
        /\ Binary64.relief_from_royalty
             (Binary64.attributed_revenues [100; 110; 121] 0.1)
             0.05 0.21 0.10 1.0 0.02 = Ok premultiplied
        /\ Binary64.total_value attributed = 5.655681818181817
        /\ Binary64.total_value premultiplied = 5.655681818181818
        /\ (Binary64.total_value premultiplied =? Binary64.total_value attributed)
           = false).
Proof.
  split; eexists; eexists;
    (split; [vm_compute; reflexivity|]); (split; [vm_compute; reflexivity|]);
    repeat split; vm_compute; reflexivity.
Qed.

End BinaryRounding.

(** C10 (amended): in exact arithmetic, the rounding of binary64 set
    aside, [relief_from_royalty] is homogeneous of degree 1 in its revenues:
    scaling each revenue by [c] scales [total_value], [pv_explicit_period]
    and [pv_terminal_value] by [c] (and an input on which the method raises
    keeps raising the same exception).  Hence the way of [value_ip_asset],
    revenues multiplied by the attribution fraction and [attribution_pct = 1.0],
    gives the amounts of the unscaled revenues under that [attribution_pct]. *)
Theorem relief_from_royalty_homogeneous (revs : list Q) (c r t w a g : Q) :
  result_scaled c
    (relief_from_royalty (map (fun rev => rev * c) revs) r t w a g)
    (relief_from_royalty revs r t w a g)
  /\ result_scaled 1
       (relief_from_royalty (map (fun rev => rev * a) revs) r t w 1 g)
       (relief_from_royalty revs r t w a g).
Proof.
  split; apply relief_from_royalty_rescaled; ring.
Qed.

(** The call [value_ip_asset] makes for a segment under the selector
    ['relief_from_royalty'], against the method on the segment's own
    revenues with the attribution passed as [attribution_pct]. *)
Corollary value_ip_asset_attribution (ip_asset : IPAsset) (s : RelatedSegment)
    (data : SegmentData) (w t g : Q) :
  valuation_method ip_asset = "relief_from_royalty" ->
  result_scaled 1
    (segment_method_result ip_asset s data w t g)
    (relief_from_royalty (revenues data) (royalty_rate ip_asset) t w
       (attribution_pct s) g).
Proof.
  intros Hm. unfold segment_method_result, select_valuation_method.
  rewrite Hm. cbn [String.eqb Ascii.eqb Bool.eqb].
  apply relief_from_royalty_rescaled. ring.
Qed.

(** The two runs compared above do return on the inputs of scenario A. *)
Example relief_from_royalty_homogeneous_scenario :
  exists res res',
    relief_from_royalty [100; 110; 121] 0.05 0.21 0.10 (3 # 10) 0.02 = Ok res
    /\ relief_from_royalty (map (fun rev => rev * (3 # 10)) [100; 110; 121])
         0.05 0.21 0.10 1 0.02 = Ok res'
    /\ total_value res' == total_value res.
Proof.
  eexists. eexists.
  split; [vm_compute; reflexivity|].
  split; [vm_compute; reflexivity|].
  reflexivity.
Qed.

(** ** Monotonicity of Relief from Royalty *)

Lemma power_succ (a : Q) (n : Z) : (0 <= n)%Z -> a ^ (n + 1) == a ^ n * a.
Proof.
  intros Hn. rewrite Qpower_plus' by lia. now rewrite Qpower_1_r.
Qed.

Lemma power_le_base (a b : Q) (n : Z) :
  0 < a -> a <= b -> (0 <= n)%Z -> a ^ n <= b ^ n.
Proof.
  intros Ha Hab Hn. revert n Hn.
  apply natlike_ind.
  - apply Qle_refl.
  - intros n Hn IH. unfold Z.succ. rewrite !power_succ by exact Hn.
    apply Qmult_le_compat_nonneg; split; auto.
    + apply Qpower_0_le. lra.
    + lra.
Qed.

(** Above a WACC of 0 the discount factors grow with the WACC: those of a
    lower WACC are in range when those of a higher one are. *)
Lemma powers_in_range_mono (w1 w2 : Q) (n : nat) :
  0 <= w1 -> w1 <= w2 ->
  powers_in_range w2 n = true -> powers_in_range w1 n = true.
Proof.
  intros H0 Hle H. unfold powers_in_range in *.
  rewrite forallb_forall in *. intros y Hy. specialize (H y Hy).
  assert (H1 : 1 <= (1 + w1) ^ Z.of_nat y).
  { apply Qle_trans with (1 ^ Z.of_nat y).
    - rewrite Qpower_1. apply Qle_refl.
    - apply power_le_base; [reflexivity|lra|lia]. }
  assert (H2 : (1 + w1) ^ Z.of_nat y <= (1 + w2) ^ Z.of_nat y)
    by (apply power_le_base; [lra|lra|lia]).
  unfold in_float_range, is_finite in *.
  apply andb_true_iff in H. destruct H as [Hfin _].
  apply negb_true_iff in Hfin.
  assert (Ha1 : Qabs ((1 + w1) ^ Z.of_nat y) == (1 + w1) ^ Z.of_nat y)
    by (apply Qabs_pos; lra).
  assert (Ha2 : Qabs ((1 + w2) ^ Z.of_nat y) == (1 + w2) ^ Z.of_nat y)
    by (apply Qabs_pos; lra).
  apply andb_true_iff. split; apply negb_true_iff.
  - destruct (Qle_bool float_overflow (Qabs ((1 + w1) ^ Z.of_nat y))) eqn:E;
      [|reflexivity].
    apply Qle_bool_iff in E. rewrite Ha1 in E.
    assert (E2 : Qle_bool float_overflow (Qabs ((1 + w2) ^ Z.of_nat y)) = true)
      by (apply Qle_bool_iff; rewrite Ha2; lra).
    congruence.
  - destruct (Qle_bool (Qabs ((1 + w1) ^ Z.of_nat y)) float_underflow) eqn:E;
      [|reflexivity].
    apply Qle_bool_iff in E. rewrite Ha1 in E.
    assert (Hu : float_underflow < 1) by reflexivity.
    lra.
Qed.

Lemma div_nonneg (x p : Q) : 0 <= x -> 0 < p -> 0 <= x / p.
Proof.
  intros Hx Hp. apply Qle_shift_div_l; [exact Hp|]. lra.
Qed.

Lemma div_pos (x p : Q) : 0 < x -> 0 < p -> 0 < x / p.
Proof.
  intros Hx Hp. apply Qlt_shift_div_l; [exact Hp|]. lra.
Qed.

Lemma div_le_compat (x x' p p' : Q) :
  0 <= x -> x <= x' -> 0 < p' -> p' <= p -> x / p <= x' / p'.
Proof.
  intros Hx Hxx Hp' Hpp.
  assert (Hp : 0 < p) by lra.
  apply Qle_shift_div_l; [exact Hp'|].
  apply Qle_trans with (x / p * p).
  - rewrite !(Qmult_comm (x / p)).
    apply Qmult_le_compat_r; [exact Hpp|]. now apply div_nonneg.
  - assert (E : x / p * p == x) by (field; lra). rewrite E. exact Hxx.
Qed.

Lemma discounted_le (w w' : Q) (cf cf' : Q -> Q) (revs : list Q) (year : Z) :
  Forall (fun rev => 0 <= cf rev /\ cf rev <= cf' rev) revs ->
  0 < 1 + w' -> w' <= w -> (0 <= year)%Z ->
  discounted w cf revs year <= discounted w' cf' revs year.
Proof.
  intros Hcf Hw' Hww. revert year.
  induction Hcf as [|rev rest [H0 Hle] _ IH]; intros year Hy.
  - apply Qle_refl.
  - cbn [discounted]. apply Qplus_le_compat.
    + apply div_le_compat; [exact H0|exact Hle|now apply Qpower_0_lt|].
      apply power_le_base; [exact Hw'|lra|exact Hy].
    + apply IH. lia.
Qed.

Lemma last_nonneg (revs : list Q) : Forall (fun rev => 0 <= rev) revs -> 0 <= last revs 0.
Proof.
  induction 1 as [|rev rest Hrev Hrest IH]; [apply Qle_refl|].
  destruct rest as [|rev' rest]; [exact Hrev|exact IH].
Qed.

Lemma royalty_le (rev r r' t a a' : Q) :
  0 <= rev -> 0 <= r -> r <= r' -> t <= 1 -> 0 <= a -> a <= a' ->
  0 <= rev * r * (1 - t) * a /\ rev * r * (1 - t) * a <= rev * r' * (1 - t) * a'.
Proof.
  intros Hrev Hr Hrr Ht Ha Haa.
  assert (H1 : 0 <= rev * r) by now apply Qmult_le_0_compat.
  assert (H2 : rev * r <= rev * r').
  { rewrite !(Qmult_comm rev). now apply Qmult_le_compat_r. }
  assert (H3 : 0 <= rev * r * (1 - t)) by (apply Qmult_le_0_compat; [exact H1|lra]).
  assert (H4 : rev * r * (1 - t) <= rev * r' * (1 - t))
    by (apply Qmult_le_compat_r; [exact H2|lra]).
  split.
  - now apply Qmult_le_0_compat.
  - apply Qmult_le_compat_nonneg; split; assumption.
Qed.

(** The joint comparison: a lower royalty rate, a lower attribution and a
    higher WACC give a lower (or equal) value. *)
Lemma relief_from_royalty_le (revs : list Q) (r r' t a a' w w' g : Q) :
  revs <> [] -> Forall (fun rev => 0 <= rev) revs ->
  0 <= r -> r <= r' -> 0 <= a -> a <= a' -> 0 <= t -> t <= 1 ->
  0 <= g -> g < w' -> w' <= w ->
  powers_in_range w (List.length revs) = true ->
  total_le (relief_from_royalty revs r t w a g) (relief_from_royalty revs r' t w' a' g).
Proof.
  intros Hne Hrevs Hr Hrr Ha Haa Ht0 Ht Hg Hgw Hww Hpw.
  assert (Hpw' : powers_in_range w' (List.length revs) = true)
    by (apply (powers_in_range_mono w' w); [lra|exact Hww|exact Hpw]).
  destruct (relief_from_royalty_returns revs r t w a g Hne)
    as (res & acc & Hrun & _ & Hacc & _ & Htot); [intros E; lra|exact Hpw|].
  destruct (relief_from_royalty_returns revs r' t w' a' g Hne)
    as (res' & acc' & Hrun' & _ & Hacc' & _ & Htot'); [intros E; lra|exact Hpw'|].
  exists res, res'. split; [exact Hrun|]. split; [exact Hrun'|].
  rewrite Htot, Htot', Hacc, Hacc'.
  apply Qplus_le_compat.
  - apply discounted_le; [|lra|exact Hww|lia].
    eapply Forall_impl; [|exact Hrevs]. intros rev Hrev.
    now apply royalty_le.
  - pose proof (last_nonneg revs Hrevs) as Hlast.
    assert (Hlg : 0 <= last revs 0 * (1 + g)) by (apply Qmult_le_0_compat; lra).
    assert (Hc : 0 <= last revs 0 * (1 + g) * r * (1 - t) * a
                 /\ last revs 0 * (1 + g) * r * (1 - t) * a
                    <= last revs 0 * (1 + g) * r' * (1 - t) * a')
      by now apply royalty_le.
    destruct Hc as [Hc0 Hc].
    apply div_le_compat.
    + apply div_nonneg; [exact Hc0|lra].
    + apply div_le_compat; [exact Hc0|exact Hc|lra|lra].
    + apply Qpower_0_lt. lra.
    + apply power_le_base; [lra|lra|unfold len; lia].
Qed.

(** C9, as stated, fails: at a royalty rate of 0 the value is 0 at every
    WACC, so it does not strictly decrease; and on a negative revenue a
    higher royalty rate gives a lower value. *)
Lemma relief_from_royalty_not_strict :
  (exists res1 res2,
     relief_from_royalty [100] 0 0.21 0.10 1 0.02 = Ok res1
     /\ relief_from_royalty [100] 0 0.21 0.20 1 0.02 = Ok res2
     /\ 0.02 < 0.10 /\ 0.10 < 0.20
     /\ ~ total_value res2 < total_value res1)
  /\ (exists res1 res2,
        relief_from_royalty [-100] 0.01 0.21 0.10 1 0.02 = Ok res1
        /\ relief_from_royalty [-100] 0.05 0.21 0.10 1 0.02 = Ok res2
        /\ 0.01 <= 0.05
        /\ ~ total_value res1 <= total_value res2).
Proof.
  split; eexists; eexists;
    (split; [vm_compute; reflexivity|]); (split; [vm_compute; reflexivity|]).
  - split; [reflexivity|]. split; [reflexivity|]. vm_compute. discriminate.
  - split; [discriminate|]. vm_compute. intros H. now apply H.
Qed.

(** C9 (amended): on a non-empty sequence of non-negative revenues, for a
    tax rate in [0,1], a terminal growth [g >= 0], royalty amounts that do
    not overflow and WACCs above [g] whose discount factors
    [(1 + w) ** year] of the years [1..N] do not overflow,
    [relief_from_royalty] returns, and its total value is (in exact
    arithmetic) non-decreasing in the royalty rate [r >= 0], non-decreasing
    in the attribution [a] in [0,1], and non-increasing in the WACC.  The
    decrease in the WACC is not strict (at a royalty rate of 0 the value is
    0 at every WACC). *)
Theorem relief_from_royalty_monotone (revs : list Q) (t g : Q) :
  revs <> [] -> Forall (fun rev => 0 <= rev) revs ->
  0 <= t -> t <= 1 -> 0 <= g ->
  (forall r1 r2 a w,
      0 <= r1 -> r1 <= r2 -> 0 <= a -> a <= 1 -> g < w ->
      royalties_finite revs r2 g = true ->
      powers_in_range w (List.length revs) = true ->
      total_le (relief_from_royalty revs r1 t w a g)
               (relief_from_royalty revs r2 t w a g))
  /\ (forall r a1 a2 w,
        0 <= r -> 0 <= a1 -> a1 <= a2 -> a2 <= 1 -> g < w ->
        royalties_finite revs r g = true ->
        powers_in_range w (List.length revs) = true ->
        total_le (relief_from_royalty revs r t w a1 g)
                 (relief_from_royalty revs r t w a2 g))
  /\ (forall r a w1 w2,
        0 <= r -> 0 <= a -> a <= 1 -> g < w1 -> w1 <= w2 ->
        royalties_finite revs r g = true ->
        powers_in_range w2 (List.length revs) = true ->
        total_le (relief_from_royalty revs r t w2 a g)
                 (relief_from_royalty revs r t w1 a g)).
Proof.
  intros Hne Hrevs Ht0 Ht Hg. repeat split.
  - intros r1 r2 a w Hr Hrr Ha _ Hw _ Hpw.
    apply relief_from_royalty_le; auto; lra.
  - intros r a1 a2 w Hr Ha Haa _ Hw _ Hpw.
    apply relief_from_royalty_le; auto; lra.
  - intros r a w1 w2 Hr Ha _ Hw Hww _ Hpw.
    apply relief_from_royalty_le; auto; lra.
Qed.

Lemma relief_from_royalty_monotone_witness :
  ([100; 110; 121] <> [] /\ Forall (fun rev => 0 <= rev) [100; 110; 121]
   /\ 0 <= 0.21 /\ 0.21 <= 1 /\ 0 <= 0.02)
  /\ total_le (relief_from_royalty [100; 110; 121] 0.04 0.21 0.10 1 0.02)
              (relief_from_royalty [100; 110; 121] 0.05 0.21 0.10 1 0.02)
  /\ total_le (relief_from_royalty [100; 110; 121] 0.05 0.21 0.10 (1 # 2) 0.02)
              (relief_from_royalty [100; 110; 121] 0.05 0.21 0.10 1 0.02)
  /\ total_le (relief_from_royalty [100; 110; 121] 0.05 0.21 0.12 1 0.02)
              (relief_from_royalty [100; 110; 121] 0.05 0.21 0.10 1 0.02).
Proof.
  assert (Hrevs : Forall (fun rev => 0 <= rev) [100; 110; 121])
    by (repeat constructor; discriminate).
  split; [repeat split; try discriminate; exact Hrevs|].
  destruct (relief_from_royalty_monotone [100; 110; 121] 0.21 0.02)
    as (Hr & Ha & Hw);
    [discriminate|exact Hrevs|discriminate|discriminate|discriminate|].
  split; [apply Hr; first [discriminate | vm_compute; reflexivity]|].
  split; [apply Ha; first [discriminate | vm_compute; reflexivity]|].
  apply Hw; first [discriminate | vm_compute; reflexivity].
Defined.

(** ** The allocation fraction *)

Lemma Qgtb_true (x y : Q) : Qgtb x y = true <-> y < x.
Proof.
  unfold Qgtb. rewrite negb_true_iff. split.
  - intros E. apply Qnot_le_lt. intros H. apply Qle_bool_iff in H. congruence.
  - intros H. destruct (Qle_bool x y) eqn:E; [|reflexivity].
    apply Qle_bool_iff in E. lra.
Qed.

Lemma Qgtb_false (x y : Q) : Qgtb x y = false <-> x <= y.
Proof.
  unfold Qgtb. rewrite negb_false_iff. apply Qle_bool_iff.
Qed.

(** C5, as stated, fails: a segment revenue above the consolidated revenue
    gives a fraction above 1, a negative one a fraction below 0. *)
Lemma segment_allocation_outside_unit_interval :
  segment_allocation_loop [150; -20] [100; 100] = Ok [150 / 100; -20 / 100]
  /\ 0 < 100 /\ ~ 150 / 100 <= 1 /\ ~ 0 <= -20 / 100.
Proof.
  split; [reflexivity|]. split; [reflexivity|].
  split; intros H; now apply H.
Qed.

(** C5 (amended): for every period processed (the periods [zip] pairs up)
    the loop never divides by zero: it returns one fraction per period,
    [segment revenue / consolidated revenue] when the consolidated revenue
    is positive and 0 otherwise; the fraction lies in [0,1] exactly when the
    segment revenue lies between 0 and the consolidated revenue. *)
Theorem segment_allocation_fraction (segment_revenues total_revenues : list Q) :
  exists allocation,
    segment_allocation_loop segment_revenues total_revenues = Ok allocation
    /\ List.length allocation
       = Nat.min (List.length segment_revenues) (List.length total_revenues)
    /\ forall i,
         (i < List.length allocation)%nat ->
         fraction_of (nth i segment_revenues 0) (nth i total_revenues 0)
           (nth i allocation 0).
Proof.
  revert total_revenues.
  induction segment_revenues as [|seg_rev srest IH]; intros total_revenues.
  - exists []. split; [reflexivity|]. split; [reflexivity|]. simpl. lia.
  - destruct total_revenues as [|total_rev trest].
    + exists []. split; [reflexivity|]. split; [reflexivity|]. simpl. lia.
    + destruct (IH trest) as (rest & Hrun & Hlen & Hrest).
      cbn [segment_allocation_loop].
      assert (Hhead : exists alloc,
                 (if Qgtb total_rev 0 then pydiv seg_rev total_rev else Ok 0) = Ok alloc
                 /\ fraction_of seg_rev total_rev alloc).
      { destruct (Qgtb total_rev 0) eqn:E.
        - apply Qgtb_true in E.
          exists (seg_rev / total_rev).
          split; [apply pydiv_ok; lra|].
          split; [|intros H; lra].
          intros _. split; [reflexivity|].
          split.
          + intros [H0 H1]. split.
            * apply Qmult_lt_0_le_reg_r with (/ total_rev).
              -- now apply Qinv_lt_0_compat.
              -- rewrite Qmult_0_l. exact H0.
            * apply Qmult_lt_0_le_reg_r with (/ total_rev).
              -- now apply Qinv_lt_0_compat.
              -- rewrite Qmult_inv_r by lra. exact H1.
          + intros [H0 H1]. split.
            * now apply div_nonneg.
            * apply Qle_shift_div_r; [exact E|]. lra.
        - apply Qgtb_false in E.
          exists 0. split; [reflexivity|].
          split; [intros H; lra|reflexivity]. }
      destruct Hhead as (alloc & Hhead & Hfrac).
      rewrite Hhead, Hrun. cbn [bind].
      exists (alloc :: rest). split; [reflexivity|].
      split; [simpl; now rewrite Hlen|].
      intros [|i] Hi; [exact Hfrac|].
      simpl. apply Hrest. simpl in Hi. lia.
Qed.

Lemma segment_allocation_fraction_witness :
  exists allocation,
    segment_allocation_loop [50; 30] [100; 0] = Ok allocation
    /\ List.length allocation = Nat.min (List.length [50; 30]) (List.length [100; 0])
    /\ forall i,
         (i < List.length allocation)%nat ->
         fraction_of (nth i [50; 30] 0) (nth i [100; 0] 0) (nth i allocation 0).
Proof. exact (segment_allocation_fraction [50; 30] [100; 0]). Defined.

(** The fraction above 1 as [prepare_segment_financials] stores it. *)
Example allocation_pct_above_one :
  exists data,
    Engine.compute_segment_financials Fixture.client "ACME" "Cloud Services" 5 = Ok data
    /\ allocation_pct data = [150 / 100].
Proof. eexists. split; [vm_compute; reflexivity|reflexivity]. Qed.

(** ** The fallbacks of the assumption estimator *)

(** C4: with empty or missing income statements (and an empty or missing
    balance sheet for the WACC, whatever the price data) the three
    computations return, without raising, their fallback constants:
    a tax rate of 0.21, a WACC of 0.10 and a terminal growth of 0.025, each
    with the method tag "default". *)
Theorem estimator_fallbacks
    (income_stmt : Response (list Estimator.IncomeStatement))
    (balance_sheet : Response (list Estimator.BalanceSheet))
    (price_data : Response Estimator.Snapshot)
    (tax_rate_info : Estimator.TaxRateInfo) (ticker : string) :
  get_list income_stmt = [] -> get_list balance_sheet = [] ->
  (exists info,
     Estimator._calculate_effective_tax_rate income_stmt = Ok info
     /\ Estimator.effective_tax_rate info = 0.21
     /\ Estimator.tax_method info = "default")
  /\ (exists info,
        Estimator._calculate_wacc ticker income_stmt balance_sheet price_data
          tax_rate_info = Ok info
        /\ Estimator.wacc info = 0.10
        /\ Estimator.wacc_method info = "default")
  /\ (exists info,
        Estimator._calculate_terminal_growth income_stmt ticker = Ok info
        /\ Estimator.terminal_growth info = 0.025
        /\ Estimator.growth_method info = "default").
Proof.
  intros Hincome Hbalance.
  unfold Estimator._calculate_effective_tax_rate, Estimator._calculate_wacc,
    Estimator._calculate_terminal_growth.
  rewrite Hincome, Hbalance. cbn.
  repeat split; eexists; (split; [reflexivity|]); split; reflexivity.
Qed.

Lemma estimator_fallbacks_witness :
  (get_list (@EmptyDict (list Estimator.IncomeStatement)) = []
   /\ get_list (@WithKey (list Estimator.BalanceSheet) []) = [])
  /\ (exists info,
        Estimator._calculate_effective_tax_rate EmptyDict = Ok info
        /\ Estimator.effective_tax_rate info = 0.21
        /\ Estimator.tax_method info = "default")
  /\ (exists info,
        Estimator._calculate_wacc "ACME" EmptyDict (WithKey [])
          (WithKey {| Estimator.price := Some 12 |})
          {| Estimator.effective_tax_rate := 0.21; Estimator.tax_method := "default";
             Estimator.tax_note := "none"; Estimator.yearly_rates := None |} = Ok info
        /\ Estimator.wacc info = 0.10
        /\ Estimator.wacc_method info = "default")
  /\ (exists info,
        Estimator._calculate_terminal_growth EmptyDict "ACME" = Ok info
        /\ Estimator.terminal_growth info = 0.025
        /\ Estimator.growth_method info = "default").
Proof.
  split; [split; reflexivity|].
  apply estimator_fallbacks; reflexivity.
Defined.

(** When every fetch fails, [calculate_all_assumptions] returns the three
    constants. *)
Lemma calculate_all_assumptions_without_data (source : Estimator.DataSource)
    (ticker : string) :
  Estimator._get_income_statement source ticker 5 = EmptyDict ->
  Estimator._get_balance_sheet source ticker 2 = EmptyDict ->
  exists all,
    Estimator.calculate_all_assumptions source ticker = Ok all
    /\ Estimator.all_wacc all = 0.10
    /\ Estimator.all_tax_rate all = 0.21
    /\ Estimator.all_terminal_growth all = 0.025.
Proof.
  intros Hincome Hbalance. unfold Estimator.calculate_all_assumptions.
  rewrite Hincome, Hbalance. cbn.
  eexists. split; [reflexivity|]. repeat split.
Qed.

(** ** The cache and the resolution of segments *)

Lemma prepare_raises_keeps_cache (client : Client) (ticker segment_name : string)
    (years : Z) (cache cache' : Cache) (e : PyError) :
  prepare_segment_financials client ticker segment_name years cache = (Raise e, cache') ->
  cache' = cache.
Proof.
  unfold prepare_segment_financials.
  destruct (cache_get cache _); [discriminate|].
  destruct (compute_segment_financials client ticker segment_name years);
    [discriminate|].
  now intros [= _ <-].
Qed.

Lemma resolves_prepare (client : Client) (ticker : string) (years : Z)
    (cache : Cache) (s : RelatedSegment) :
  match prepare_segment_financials client ticker (name s) years cache with
  | (Ok data, _) => resolved_data client ticker years cache s = Some data
                    /\ resolves client ticker years cache s = true
  | (Raise _, cache') => resolved_data client ticker years cache s = None
                         /\ resolves client ticker years cache s = false
                         /\ cache' = cache
  end.
Proof.
  unfold resolves, resolved_data.
  destruct (prepare_segment_financials client ticker (name s) years cache)
    as [[data|e] cache'] eqn:E; cbn [fst].
  - now split.
  - repeat split. now apply prepare_raises_keeps_cache in E.
Qed.

(** ** An unrecognized valuation method *)

Lemma select_unrecognized (ip_asset : IPAsset) (data : SegmentData)
    (revs : list Q) (w t g : Q) :
  recognized (valuation_method ip_asset) = false ->
  select_valuation_method ip_asset data revs w t g
  = Raise (ValueError (UnknownValuationMethod (valuation_method ip_asset))).
Proof.
  unfold recognized, select_valuation_method. intros H.
  apply orb_false_iff in H. destruct H as [H H3].
  apply orb_false_iff in H. destruct H as [H1 H2].
  now rewrite H1, H2, H3.
Qed.

Lemma value_segments_unrecognized (client : Client) (ticker : string)
    (ip_asset : IPAsset) (w t g : Q) (years : Z) (segs : list RelatedSegment)
    (total : Q) (vals : list SegmentValuation) (cache : Cache) :
  recognized (valuation_method ip_asset) = false ->
  match value_segments client ticker ip_asset w t g years segs total vals cache with
  | (Ok out, cache') =>
      existsb (resolves client ticker years cache) segs = false
      /\ out = (total, vals) /\ cache' = cache
  | (Raise e, _) =>
      existsb (resolves client ticker years cache) segs = true
      /\ e = ValueError (UnknownValuationMethod (valuation_method ip_asset))
  end.
Proof.
  intros Hm.
  induction segs as [|s rest IH]; [now cbn|].
  cbn [value_segments existsb].
  pose proof (resolves_prepare client ticker years cache s) as Hs.
  destruct (prepare_segment_financials client ticker (name s) years cache)
    as [[data|e] cache'].
  - destruct Hs as [_ ->]. rewrite select_unrecognized by exact Hm. now split.
  - destruct Hs as (_ & -> & ->). exact IH.
Qed.

(** C8, as stated, fails: the error of an unrecognized selector does not
    reach the caller of [value_ip_portfolio], which returns normally with
    the asset left out. *)
Lemma unknown_method_not_propagated :
  recognized "bogus" = false
  /\ fst (value_ip_asset Fixture.client "ACME"
            (Fixture.asset Fixture.mixed_segments "bogus") 0.10 0.21 0.02 5 [])
     = Raise (ValueError (UnknownValuationMethod "bogus"))
  /\ exists portfolio cache',
       value_ip_portfolio Fixture.client "ACME"
         [Fixture.asset Fixture.mixed_segments "bogus"] 0.10 0.21 0.02 []
       = (Ok portfolio, cache')
       /\ asset_count portfolio = 0%Z
       /\ asset_valuations portfolio = [].
Proof.
  split; [reflexivity|]. split; [vm_compute; reflexivity|].
  eexists. eexists. split; [vm_compute; reflexivity|]. split; reflexivity.
Qed.

(** C8 (amended): for an IP asset whose selector is not one of the
    recognized methods, [value_ip_asset] raises [ValueError] ("Unknown
    valuation method") exactly when one of its segments resolves, and
    otherwise returns a valuation of 0 without segments;
    [value_ip_portfolio] catches the error, goes on with the remaining
    assets as if the asset were not in the portfolio, and returns. *)
Theorem unknown_method_skipped (client : Client) (ticker : string)
    (ip_asset : IPAsset) (rest : list IPAsset) (w t g : Q) (years : Z)
    (cache : Cache) :
  recognized (valuation_method ip_asset) = false ->
  match value_ip_asset client ticker ip_asset w t g years cache with
  | (Raise e, _) =>
      existsb (resolves client ticker years cache) (related_segments ip_asset) = true
      /\ e = ValueError (UnknownValuationMethod (valuation_method ip_asset))
  | (Ok valuation, cache') =>
      existsb (resolves client ticker years cache) (related_segments ip_asset) = false
      /\ asset_total_value valuation = 0
      /\ segment_valuations valuation = []
      /\ cache' = cache
  end
  /\ match value_ip_asset client ticker ip_asset w t g 5 cache with
     | (Raise _, cache') =>
         value_ip_portfolio client ticker (ip_asset :: rest) w t g cache
         = value_ip_portfolio client ticker rest w t g cache'
     | (Ok _, _) => True
     end
  /\ returns (fst (value_ip_portfolio client ticker (ip_asset :: rest) w t g cache))
     = true.
Proof.
  intros Hm. split; [|split].
  - unfold value_ip_asset.
    pose proof (value_segments_unrecognized client ticker ip_asset w t g years
                  (related_segments ip_asset) 0 [] cache Hm) as H.
    destruct (value_segments client ticker ip_asset w t g years
                (related_segments ip_asset) 0 [] cache) as [[[total vals]|e] cache'].
    + destruct H as (Hnone & [= -> ->] & ->). now repeat split.
    + exact H.
  - unfold value_ip_portfolio. cbn [value_assets].
    destruct (value_ip_asset client ticker ip_asset w t g 5 cache)
      as [[valuation|e] cache']; [exact I|reflexivity].
  - unfold value_ip_portfolio.
    destruct (value_assets client ticker w t g (ip_asset :: rest) 0 [] cache)
      as [[pv avs] cache']. reflexivity.
Qed.

Lemma unknown_method_skipped_witness :
  recognized (valuation_method (Fixture.asset Fixture.mixed_segments "bogus")) = false
  /\ match value_ip_asset Fixture.client "ACME"
             (Fixture.asset Fixture.mixed_segments "bogus") 0.10 0.21 0.02 5 [] with
     | (Raise e, _) =>
         existsb (resolves Fixture.client "ACME" 5 [])
           (related_segments (Fixture.asset Fixture.mixed_segments "bogus")) = true
         /\ e = ValueError (UnknownValuationMethod
                              (valuation_method
                                 (Fixture.asset Fixture.mixed_segments "bogus")))
     | (Ok valuation, cache') =>
         existsb (resolves Fixture.client "ACME" 5 [])
           (related_segments (Fixture.asset Fixture.mixed_segments "bogus")) = false
         /\ asset_total_value valuation = 0
         /\ segment_valuations valuation = []
         /\ cache' = []
     end
  /\ match value_ip_asset Fixture.client "ACME"
             (Fixture.asset Fixture.mixed_segments "bogus") 0.10 0.21 0.02 5 [] with
     | (Raise _, cache') =>
         value_ip_portfolio Fixture.client "ACME"
           [Fixture.asset Fixture.mixed_segments "bogus"] 0.10 0.21 0.02 []
         = value_ip_portfolio Fixture.client "ACME" [] 0.10 0.21 0.02 cache'
     | (Ok _, _) => True
     end
  /\ returns (fst (value_ip_portfolio Fixture.client "ACME"
                     [Fixture.asset Fixture.mixed_segments "bogus"]
                     0.10 0.21 0.02 [])) = true.
Proof.
  split; [reflexivity|].
  apply (unknown_method_skipped Fixture.client "ACME"
           (Fixture.asset Fixture.mixed_segments "bogus") [] 0.10 0.21 0.02 5 []).
  reflexivity.
Defined.

(** ** Cache keys and cache updates *)

Lemma string_length_append (a b : string) :
  String.length (a ++ b) = (String.length a + String.length b)%nat.
Proof. induction a as [|c a IH]; simpl; [reflexivity|now rewrite IH]. Qed.

Lemma append_inj_l (p a b : string) : (p ++ a = p ++ b)%string -> a = b.
Proof.
  induction p as [|c p IH]; simpl; [trivial|].
  intros [= H]. now apply IH.
Qed.

Lemma append_inj_r (a b q : string) : (a ++ q = b ++ q)%string -> a = b.
Proof.
  revert b. induction a as [|c a IH]; intros [|c' b] H.
  - reflexivity.
  - apply (f_equal String.length) in H.
    simpl in H. rewrite string_length_append in H. lia.
  - apply (f_equal String.length) in H.
    simpl in H. rewrite string_length_append in H. lia.
  - simpl in H. injection H as -> H. f_equal. now apply IH.
Qed.

Lemma make_cache_key_inj (ticker s s' : string) (years : Z) :
  make_cache_key ticker s years = make_cache_key ticker s' years -> s = s'.
Proof.
  unfold make_cache_key. intros H.
  apply append_inj_l in H. simpl in H. injection H as H.
  now apply append_inj_r in H.
Qed.

Lemma cache_get_remove (cache : Cache) (k k' : string) :
  k <> k' -> cache_get (cache_remove cache k) k' = cache_get cache k'.
Proof.
  intros Hk. induction cache as [|[k0 v] rest IH]; [reflexivity|].
  cbn [cache_remove cache_get].
  destruct (String.eqb_spec k0 k) as [->|H0].
  - rewrite IH. destruct (String.eqb_spec k k'); [contradiction|reflexivity].
  - cbn [cache_get]. now rewrite IH.
Qed.

Lemma cache_get_set (cache : Cache) (k k' : string) (v : SegmentData) :
  cache_get (cache_set cache k v) k'
  = if String.eqb k k' then Some v else cache_get cache k'.
Proof.
  unfold cache_set. cbn [cache_get].
  destruct (String.eqb_spec k k') as [->|H]; [reflexivity|].
  now apply cache_get_remove.
Qed.

Lemma cache_extends_refl (client : Client) (ticker : string) (years : Z)
    (c0 : Cache) : cache_extends client ticker years c0 c0.
Proof. intros s. now left. Qed.

(** Under [cache_extends] a segment resolves as it does in the first
    cache, and preparing it keeps the relation. *)
Lemma prepare_cache_extends (client : Client) (ticker : string) (years : Z)
    (c0 c : Cache) (segment_name : string) :
  cache_extends client ticker years c0 c ->
  fst (prepare_segment_financials client ticker segment_name years c)
  = fst (prepare_segment_financials client ticker segment_name years c0)
  /\ cache_extends client ticker years c0
       (snd (prepare_segment_financials client ticker segment_name years c)).
Proof.
  intros Hext. unfold prepare_segment_financials.
  destruct (Hext segment_name) as [Heq|(Hnone & data & Hcomp & Hc)]; cbn zeta in *.
  - rewrite Heq.
    destruct (cache_get c0 (make_cache_key ticker segment_name years)) as [cached|] eqn:E0.
    + now split.
    + destruct (compute_segment_financials client ticker segment_name years)
        as [data|e] eqn:Ecomp; cbn [fst snd]; [|now split].
      split; [reflexivity|].
      intros s'. cbn zeta. rewrite cache_get_set.
      destruct (String.eqb_spec (make_cache_key ticker segment_name years)
                  (make_cache_key ticker s' years)) as [Hk|Hk].
      * apply make_cache_key_inj in Hk. subst s'.
        right. split; [exact E0|]. now exists data.
      * apply Hext.
  - rewrite Hc, Hnone, Hcomp. now split.
Qed.

Lemma resolved_data_extends (client : Client) (ticker : string) (years : Z)
    (c0 c : Cache) (s : RelatedSegment) :
  cache_extends client ticker years c0 c ->
  resolved_data client ticker years c s = resolved_data client ticker years c0 s.
Proof.
  intros Hext. unfold resolved_data.
  now rewrite (proj1 (prepare_cache_extends client ticker years c0 c (name s) Hext)).
Qed.

Lemma pysum_from (l : list Q) (a : Q) : fold_left Qplus l a == a + pysum l.
Proof.
  unfold pysum. revert a.
  induction l as [|x l IH]; intros a; cbn [fold_left]; [ring|].
  rewrite (IH (a + x)), (IH (0 + x)). ring.
Qed.

Lemma pysum_cons (x : Q) (l : list Q) : pysum (x :: l) == x + pysum l.
Proof. unfold pysum at 1. cbn [fold_left]. rewrite pysum_from. ring. Qed.

(** ** Partial results of [value_ip_asset] *)

Section PartialValuation.

Variables (client : Client) (ticker : string) (ip_asset : IPAsset).
Variables (w t g : Q) (years : Z) (c0 : Cache).

Lemma value_segments_resolved (segs : list RelatedSegment) :
  (forall s data,
      In s segs -> resolved_data client ticker years c0 s = Some data ->
      returns (segment_method_result ip_asset s data w t g) = true) ->
  forall (total : Q) (vals : list SegmentValuation) (c : Cache),
    cache_extends client ticker years c0 c ->
    exists total' new c',
      value_segments client ticker ip_asset w t g years segs total vals c
      = (Ok (total', (vals ++ new)%list), c')
      /\ map segment new = map name (filter (resolves client ticker years c0) segs)
      /\ total' == total + pysum (map (fun sv => total_value (valuation sv)) new)
      /\ Forall (valued_from client ticker ip_asset w t g years c0 segs) new.
Proof.
  induction segs as [|s rest IH]; intros Hmethod total vals c Hext.
  - exists total, [], c. cbn. rewrite app_nil_r.
    repeat split; [ring|constructor].
  - cbn [value_segments filter].
    pose proof (prepare_cache_extends client ticker years c0 c (name s) Hext)
      as [Hfst Hext'].
    assert (Hres : resolved_data client ticker years c s
                   = resolved_data client ticker years c0 s)
      by now apply resolved_data_extends.
    assert (Hresolves : resolves client ticker years c0 s
                        = returns (fst (prepare_segment_financials client ticker
                                          (name s) years c))).
    { unfold resolves. rewrite <- Hres. unfold resolved_data.
      now destruct (fst (prepare_segment_financials client ticker (name s) years c)). }
    rewrite Hresolves. unfold resolved_data in Hres.
    destruct (prepare_segment_financials client ticker (name s) years c)
      as [[data|e] c1]; cbn [fst snd returns] in *.
    + assert (Hret : returns (segment_method_result ip_asset s data w t g) = true)
        by (apply Hmethod; [now left|unfold resolved_data; now rewrite <- Hres]).
      unfold segment_method_result in Hret.
      destruct (select_valuation_method ip_asset data
                  (map (fun rev => rev * attribution_pct s) (revenues data)) w t g)
        as [res|e] eqn:Esel; [|discriminate].
      destruct (IH (fun s' d' Hin => Hmethod s' d' (or_intror Hin))
                  (total + total_value res)
                  (vals ++ [{| valuation := res; segment := name s;
                               segment_attribution := attribution_pct s;
                               segment_data := data |}])%list c1 Hext')
        as (total' & new & c' & Hrun & Hnames & Htotal & Hall).
      eexists total', (_ :: new), c'.
      split; [rewrite Hrun, <- app_assoc; reflexivity|].
      split; [cbn [map]; now rewrite Hnames|].
      split.
      * rewrite Htotal. cbn [map valuation]. rewrite pysum_cons. ring.
      * constructor.
        -- exists s. cbn. repeat split; [now left|unfold resolved_data; now rewrite <- Hres|exact Esel].
        -- eapply Forall_impl; [|exact Hall].
           intros sv (s' & Hin & H). exists s'. split; [now right|exact H].
    + destruct (IH (fun s' d' Hin => Hmethod s' d' (or_intror Hin))
                  total vals c1 Hext')
        as (total' & new & c' & Hrun & Hnames & Htotal & Hall).
      exists total', new, c'.
      split; [exact Hrun|]. split; [exact Hnames|]. split; [exact Htotal|].
      eapply Forall_impl; [|exact Hall].
      intros sv (s' & Hin & H). exists s'. split; [now right|exact H].
Qed.

End PartialValuation.

(** C3, as stated, fails: with one segment that resolves and one that does
    not, [value_ip_asset] still raises when the valuation of the resolved
    segment does: a [ZeroDivisionError] of the Excess Earnings branch when
    the income statements are an empty list (the average of no operating
    margin), a [ValueError] for an unknown selector. *)
Lemma value_ip_asset_raises_on_mixed_segments :
  (map (resolves Fixture.client "BARE" 5 []) Fixture.mixed_segments = [true; false]
   /\ fst (value_ip_asset Fixture.client "BARE"
             (Fixture.asset Fixture.mixed_segments "excess_earnings")
             0.10 0.21 0.02 5 [])
      = Raise ZeroDivisionError)
  /\ (map (resolves Fixture.client "ACME" 5 []) Fixture.mixed_segments = [true; false]
      /\ fst (value_ip_asset Fixture.client "ACME"
                (Fixture.asset Fixture.mixed_segments "bogus") 0.10 0.21 0.02 5 [])
         = Raise (ValueError (UnknownValuationMethod "bogus"))).
Proof. repeat split; vm_compute; reflexivity. Qed.

(** C3 (amended): a related segment that does not resolve never makes
    [value_ip_asset] raise; it is skipped.  Whenever the selected valuation
    method returns on every segment that resolves, [value_ip_asset]
    returns; its [segment_valuations] are, in order, those of exactly the
    segments that resolve, each the method's result on that segment's
    data, and its [total_value] is the sum of their [total_value]s. *)
Theorem value_ip_asset_partial (client : Client) (ticker : string)
    (ip_asset : IPAsset) (w t g : Q) (years : Z) (cache : Cache) :
  (forall s data,
      In s (related_segments ip_asset) ->
      resolved_data client ticker years cache s = Some data ->
      returns (segment_method_result ip_asset s data w t g) = true) ->
  exists av cache',
    value_ip_asset client ticker ip_asset w t g years cache = (Ok av, cache')
    /\ map segment (segment_valuations av)
       = map name (filter (resolves client ticker years cache)
                     (related_segments ip_asset))
    /\ asset_total_value av
       == pysum (map (fun sv => total_value (valuation sv)) (segment_valuations av))
    /\ Forall (valued_from client ticker ip_asset w t g years cache
                 (related_segments ip_asset))
         (segment_valuations av).
Proof.
  intros Hmethod. unfold value_ip_asset.
  destruct (value_segments_resolved client ticker ip_asset w t g years cache
              (related_segments ip_asset) Hmethod 0 [] cache
              (cache_extends_refl client ticker years cache))
    as (total & new & cache' & Hrun & Hnames & Htotal & Hall).
  rewrite Hrun. cbn [app].
  eexists. exists cache'. split; [reflexivity|].
  cbn [asset_total_value segment_valuations].
  split; [exact Hnames|]. split; [|exact Hall].
  rewrite Htotal. ring.
Qed.

Lemma value_ip_asset_partial_witness :
  (forall s data,
      In s (related_segments (Fixture.asset Fixture.mixed_segments "relief_from_royalty")) ->
      resolved_data Fixture.client "ACME" 5 [] s = Some data ->
      returns (segment_method_result
                 (Fixture.asset Fixture.mixed_segments "relief_from_royalty")
                 s data 0.10 0.21 0.02) = true)
  /\ exists av cache',
       value_ip_asset Fixture.client "ACME"
         (Fixture.asset Fixture.mixed_segments "relief_from_royalty")
         0.10 0.21 0.02 5 [] = (Ok av, cache')
       /\ map segment (segment_valuations av)
          = map name (filter (resolves Fixture.client "ACME" 5 [])
                        (related_segments
                           (Fixture.asset Fixture.mixed_segments "relief_from_royalty")))
       /\ asset_total_value av
          == pysum (map (fun sv => total_value (valuation sv)) (segment_valuations av))
       /\ Forall (valued_from Fixture.client "ACME"
                    (Fixture.asset Fixture.mixed_segments "relief_from_royalty")
                    0.10 0.21 0.02 5 []
                    (related_segments
                       (Fixture.asset Fixture.mixed_segments "relief_from_royalty")))
            (segment_valuations av).
Proof.
  assert (H : forall s data,
             In s (related_segments
                     (Fixture.asset Fixture.mixed_segments "relief_from_royalty")) ->
             resolved_data Fixture.client "ACME" 5 [] s = Some data ->
             returns (segment_method_result
                        (Fixture.asset Fixture.mixed_segments "relief_from_royalty")
                        s data 0.10 0.21 0.02) = true).
  { intros s data [<-|[<-|[]]] Hdata; vm_compute in Hdata.
    - injection Hdata as <-. vm_compute. reflexivity.
    - discriminate. }
  split; [exact H|].
  apply (value_ip_asset_partial Fixture.client "ACME"
           (Fixture.asset Fixture.mixed_segments "relief_from_royalty")
           0.10 0.21 0.02 5 [] H).
Defined.

(** On the example the segment "cloud-services" is valued and "Robotics"
    is left out. *)
Example value_ip_asset_mixed_example :
  exists av cache',
    value_ip_asset Fixture.client "ACME"
      (Fixture.asset Fixture.mixed_segments "relief_from_royalty")
      0.10 0.21 0.02 5 [] = (Ok av, cache')
    /\ map segment (segment_valuations av) = ["cloud-services"]
    /\ asset_total_value av == 150 * 0.2 * 0.05 * 0.79 / 1.10
                               + 150 * 0.2 * 1.02 * 0.05 * 0.79 / 0.08 / 1.10.
Proof.
  eexists. eexists. split; [vm_compute; reflexivity|].
  split; [reflexivity|]. vm_compute. reflexivity.
Qed.

(** * Further properties of the code *)

(** ** Rounding to four decimals *)

Lemma Qltb_true (x y : Q) : Qltb x y = true <-> x < y.
Proof. unfold Qltb. apply (Qgtb_true y x). Qed.

Lemma Qltb_false (x y : Q) : Qltb x y = false <-> y <= x.
Proof. unfold Qltb. apply (Qgtb_false y x). Qed.

(** The integer [round4] picks: the floor of [x * 10000] or its successor,
    at most one half away. *)
Lemma round4_choice (x : Q) :
  exists n : Z,
    Estimator.round4 x = inject_Z n / 10000
    /\ ((n = Qfloor (x * 10000) /\ x * 10000 - inject_Z n <= 1 # 2)
        \/ (n = (Qfloor (x * 10000) + 1)%Z /\ inject_Z n - x * 10000 <= 1 # 2)).
Proof.
  unfold Estimator.round4.
  pose proof (Qfloor_le (x * 10000)) as Hlo.
  pose proof (Qlt_floor (x * 10000)) as Hhi.
  set (y := x * 10000) in *. set (f := Qfloor y) in *.
  assert (Hf1 : inject_Z (f + 1) == inject_Z f + 1)
    by (rewrite inject_Z_plus; reflexivity).
  destruct (Qltb (y - inject_Z f) (1 # 2)) eqn:E1.
  - apply Qltb_true in E1. exists f. split; [reflexivity|]. left. split; [reflexivity|lra].
  - apply Qltb_false in E1.
    destruct (Qltb (1 # 2) (y - inject_Z f)) eqn:E2.
    + apply Qltb_true in E2. exists (f + 1)%Z. split; [reflexivity|].
      right. split; [reflexivity|]. rewrite Hf1. lra.
    + apply Qltb_false in E2.
      destruct (Z.even f).
      * exists f. split; [reflexivity|]. left. split; [reflexivity|lra].
      * exists (f + 1)%Z. split; [reflexivity|].
        right. split; [reflexivity|]. rewrite Hf1. lra.
Qed.

Lemma round4_near (x : Q) : Qabs (Estimator.round4 x - x) <= 1 # 20000.
Proof.
  destruct (round4_choice x) as (n & -> & H).
  pose proof (Qfloor_le (x * 10000)) as Hlo.
  pose proof (Qlt_floor (x * 10000)) as Hhi.
  assert (E : inject_Z n / 10000 - x == (inject_Z n - x * 10000) / 10000) by field.
  rewrite E. apply Qabs_Qle_condition.
  destruct H as [[-> H]|[-> H]].
  - split; apply Qle_shift_div_l || apply Qle_shift_div_r; try reflexivity; lra.
  - rewrite inject_Z_plus in *.
    split; apply Qle_shift_div_l || apply Qle_shift_div_r; try reflexivity; lra.
Qed.

Lemma round4_grid_le (x : Q) (k : Z) :
  x <= inject_Z k / 10000 -> Estimator.round4 x <= inject_Z k / 10000.
Proof.
  intros Hx.
  assert (Hy : x * 10000 <= inject_Z k).
  { assert (E : inject_Z k == inject_Z k / 10000 * 10000) by field.
    rewrite E. apply Qmult_le_compat_r; [exact Hx|discriminate]. }
  destruct (round4_choice x) as (n & -> & H).
  pose proof (Qfloor_le (x * 10000)) as Hlo.
  assert (Hn : (n <= k)%Z).
  { destruct H as [[-> _]|[-> H]].
    - rewrite Zle_Qle. lra.
    - rewrite inject_Z_plus in H.
      assert (Hlt : inject_Z (Qfloor (x * 10000)) < inject_Z k).
      { change (inject_Z 1) with 1 in H. lra. }
      rewrite <- Zlt_Qlt in Hlt. lia. }
  rewrite Zle_Qle in Hn.
  apply Qmult_le_compat_r; [exact Hn|discriminate].
Qed.

Lemma round4_grid_ge (x : Q) (k : Z) :
  inject_Z k / 10000 <= x -> inject_Z k / 10000 <= Estimator.round4 x.
Proof.
  intros Hx.
  assert (Hy : inject_Z k <= x * 10000).
  { assert (E : inject_Z k == inject_Z k / 10000 * 10000) by field.
    rewrite E. apply Qmult_le_compat_r; [exact Hx|discriminate]. }
  destruct (round4_choice x) as (n & -> & H).
  assert (Hk : (k <= Qfloor (x * 10000))%Z).
  { rewrite <- (Qfloor_Z k). now apply Qfloor_resp_le. }
  assert (Hn : (k <= n)%Z) by (destruct H as [[-> _]|[-> _]]; lia).
  rewrite Zle_Qle in Hn.
  apply Qmult_le_compat_r; [exact Hn|discriminate].
Qed.

(** ** The estimator never raises, and its estimates are bounded *)

Lemma len_pos_cons {A : Type} (x : A) (l : list A) : ~ inject_Z (len (x :: l)) == 0.
Proof.
  intros E. apply (proj1 (inject_Z_zero _)) in E. unfold len in E.
  cbn [List.length] in E. rewrite Nat2Z.inj_succ in E. lia.
Qed.

Lemma pysum_bounds (lo hi : Q) (l : list Q) :
  Forall (fun x => lo <= x /\ x <= hi) l ->
  lo * inject_Z (len l) <= pysum l /\ pysum l <= hi * inject_Z (len l).
Proof.
  induction 1 as [|x l [Hlo Hhi] _ [IHlo IHhi]].
  - change (inject_Z (len (@nil Q))) with 0. change (pysum []) with 0. split; lra.
  - rewrite pysum_cons.
    assert (E : inject_Z (len (x :: l)) == 1 + inject_Z (len l)).
    { unfold len. cbn [List.length]. rewrite Nat2Z.inj_succ, <- Z.add_1_l.
      now rewrite inject_Z_plus. }
    rewrite E. split; lra.
Qed.

Lemma mean_bounds (lo hi : Q) (l : list Q) :
  l <> [] -> Forall (fun x => lo <= x /\ x <= hi) l ->
  exists m, Estimator.mean l = Ok m /\ lo <= m /\ m <= hi.
Proof.
  intros Hne Hall. destruct l as [|x l]; [congruence|].
  unfold Estimator.mean. rewrite pydiv_ok by apply len_pos_cons.
  eexists. split; [reflexivity|].
  destruct (pysum_bounds lo hi (x :: l) Hall) as [Hlo Hhi].
  assert (Hlen : 0 < inject_Z (len (x :: l))).
  { rewrite <- (Zlt_Qlt 0). unfold len. cbn [List.length].
    rewrite Nat2Z.inj_succ. lia. }
  split.
  - apply Qle_shift_div_l; assumption.
  - apply Qle_shift_div_r; assumption.
Qed.

Lemma mean_returns (l : list Q) :
  l <> [] -> exists m, Estimator.mean l = Ok m.
Proof.
  destruct l as [|x l]; [congruence|]. intros _.
  unfold Estimator.mean. rewrite pydiv_ok by apply len_pos_cons. now eexists.
Qed.

Lemma tax_rates_loop_bounded (statements : list Estimator.IncomeStatement)
    (tax_rates : list Q) :
  Forall (fun x => 0 <= x /\ x <= 0.50) tax_rates ->
  exists l,
    Estimator.tax_rates_loop statements tax_rates = Ok l
    /\ Forall (fun x => 0 <= x /\ x <= 0.50) l.
Proof.
  revert tax_rates.
  induction statements as [|stmt rest IH]; intros tax_rates Hacc.
  - now exists tax_rates.
  - cbn [Estimator.tax_rates_loop].
    destruct (Qgtb (get (Estimator.net_income stmt) 0
                    + get (Estimator.income_tax_expense stmt) 0) 0) eqn:Epre;
      cbn [andb]; [|now apply IH].
    destruct (Qgeb (get (Estimator.income_tax_expense stmt) 0) 0); [|now apply IH].
    apply Qgtb_true in Epre.
    rewrite pydiv_ok by lra. cbn [bind].
    destruct (Qle_bool 0 _) eqn:E0; cbn [andb]; [|now apply IH].
    destruct (Qle_bool _ 0.50) eqn:E1; [|now apply IH].
    apply Qle_bool_iff in E0. apply Qle_bool_iff in E1.
    apply IH. apply Forall_app. split; [exact Hacc|].
    constructor; [now split|constructor].
Qed.

Lemma effective_tax_rate_outcome
    (income_stmt : Response (list Estimator.IncomeStatement)) :
  exists info,
    Estimator._calculate_effective_tax_rate income_stmt = Ok info
    /\ 0 <= Estimator.effective_tax_rate info
    /\ Estimator.effective_tax_rate info <= 0.50
    /\ (Estimator.tax_method info = "default"
        /\ Estimator.effective_tax_rate info = 0.21
        \/ Estimator.tax_method info = "calculated"
           /\ exists rates avg,
                Estimator.yearly_rates info = Some rates
                /\ rates <> []
                /\ Forall (fun x => 0 <= x /\ x <= 0.50) rates
                /\ Estimator.mean rates = Ok avg
                /\ Estimator.effective_tax_rate info = Estimator.round4 avg).
Proof.
  unfold Estimator._calculate_effective_tax_rate.
  destruct (get_list income_stmt) as [|stmt rest] eqn:Estmts.
  - eexists. split; [reflexivity|]. cbn.
    split; [discriminate|]. split; [discriminate|]. left. now split.
  - destruct (tax_rates_loop_bounded (Estimator.take 3 (stmt :: rest)) [])
      as (rates & Hrun & Hall); [constructor|].
    rewrite Hrun. cbn [bind].
    destruct rates as [|r rates].
    + eexists. split; [reflexivity|]. cbn.
      split; [discriminate|]. split; [discriminate|]. left. now split.
    + destruct (mean_bounds 0 0.50 (r :: rates)) as (avg & Hmean & Hlo & Hhi);
        [discriminate|exact Hall|].
      rewrite Hmean. cbn [bind].
      eexists. split; [reflexivity|]. cbn.
      split; [|split].
      * assert (E : 0 == inject_Z 0 / 10000) by reflexivity.
        rewrite E at 1. apply round4_grid_ge. now rewrite <- E.
      * assert (E : 0.50 == inject_Z 5000 / 10000) by reflexivity.
        rewrite E. apply round4_grid_le. now rewrite <- E.
      * right. split; [reflexivity|].
        exists (r :: rates), avg. repeat split; try assumption. discriminate.
Qed.

(** X1: [_calculate_effective_tax_rate] returns on every input, and the
    rate it returns lies in [0, 0.50]: the default 0.21, or the rounded
    average of yearly rates that passed the sanity check. *)
Theorem effective_tax_rate_bounded
    (income_stmt : Response (list Estimator.IncomeStatement)) :
  exists info,
    Estimator._calculate_effective_tax_rate income_stmt = Ok info
    /\ 0 <= Estimator.effective_tax_rate info
    /\ Estimator.effective_tax_rate info <= 0.50
    /\ (Estimator.tax_method info = "default"
        /\ Estimator.effective_tax_rate info = 0.21
        \/ Estimator.tax_method info = "calculated"
           /\ exists rates avg,
                Estimator.yearly_rates info = Some rates
                /\ rates <> []
                /\ Forall (fun x => 0 <= x /\ x <= 0.50) rates
                /\ Estimator.mean rates = Ok avg
                /\ Estimator.effective_tax_rate info = Estimator.round4 avg).
Proof. apply effective_tax_rate_outcome. Qed.

Lemma pymax_bounds (x y : Q) : y <= pymax x y /\ x <= pymax x y /\ (x <= y -> pymax x y <= y).
Proof.
  unfold pymax. destruct (Qgtb y x) eqn:E.
  - apply Qgtb_true in E. repeat split; lra.
  - apply Qgtb_false in E. repeat split; lra.
Qed.

Lemma pymin_bounds (x y : Q) : pymin x y <= y /\ pymin x y <= x /\ (y <= x -> y <= pymin x y).
Proof.
  unfold pymin. destruct (Qltb y x) eqn:E.
  - apply Qltb_true in E. repeat split; lra.
  - apply Qltb_false in E. repeat split; lra.
Qed.

Lemma growth_rates_loop_returns (statements : list Estimator.IncomeStatement)
    (growth_rates : list Q) :
  exists l, Estimator.growth_rates_loop statements growth_rates = Ok l.
Proof.
  revert growth_rates.
  induction statements as [|current rest IH]; intros growth_rates.
  - now exists growth_rates.
  - destruct rest as [|prior rest]; [now exists growth_rates|].
    cbn [Estimator.growth_rates_loop].
    destruct (Qgtb (get (Estimator.revenue prior) 0) 0) eqn:E; [|apply IH].
    apply Qgtb_true in E.
    rewrite pydiv_ok by lra. cbn [bind].
    destruct (_ && _); apply IH.
Qed.

Lemma terminal_growth_outcome
    (income_stmt : Response (list Estimator.IncomeStatement)) (ticker : string) :
  exists info,
    Estimator._calculate_terminal_growth income_stmt ticker = Ok info
    /\ 0.01 <= Estimator.terminal_growth info
    /\ Estimator.terminal_growth info <= 0.04.
Proof.
  unfold Estimator._calculate_terminal_growth.
  destruct (len (get_list income_stmt) <? 3)%Z.
  - eexists. split; [reflexivity|]. split; discriminate.
  - destruct (growth_rates_loop_returns (get_list income_stmt) []) as (rates & Hrun).
    rewrite Hrun. cbn [bind].
    destruct rates as [|r rates].
    + eexists. split; [reflexivity|]. split; discriminate.
    + destruct (mean_returns (r :: rates)) as (avg & Hmean); [discriminate|].
      rewrite Hmean. cbn [bind].
      eexists. split; [reflexivity|]. cbn [Estimator.terminal_growth].
      destruct (pymin_bounds avg 0.04) as (Hmin & _ & _).
      destruct (pymax_bounds (pymin avg 0.04) 0.01) as (Hlo & _ & Hhi).
      split.
      * assert (E : 0.01 == inject_Z 100 / 10000) by reflexivity.
        rewrite E at 1. apply round4_grid_ge. now rewrite <- E.
      * assert (Hb : pymax (pymin avg 0.04) 0.01 <= 0.04).
        { destruct (Qlt_le_dec (pymin avg 0.04) 0.01) as [H|H].
          - apply Qle_trans with 0.01; [apply Hhi; lra|discriminate].
          - assert (Hmax : pymax (pymin avg 0.04) 0.01 == pymin avg 0.04).
            { unfold pymax. destruct (Qgtb 0.01 (pymin avg 0.04)) eqn:E'.
              - apply Qgtb_true in E'. lra.
              - reflexivity. }
            rewrite Hmax. exact Hmin. }
        apply Qle_trans with (inject_Z 400 / 10000); [|discriminate].
        apply round4_grid_le.
        apply Qle_trans with 0.04; [exact Hb|discriminate].
Qed.

(** X2: [_calculate_terminal_growth] returns on every input, and the rate
    it returns lies in the band [0.01, 0.04]. *)
Theorem terminal_growth_bounded
    (income_stmt : Response (list Estimator.IncomeStatement)) (ticker : string) :
  exists info,
    Estimator._calculate_terminal_growth income_stmt ticker = Ok info
    /\ 0.01 <= Estimator.terminal_growth info
    /\ Estimator.terminal_growth info <= 0.04.
Proof. apply terminal_growth_outcome. Qed.

Lemma cost_of_debt_bounded (income_stmt : Response (list Estimator.IncomeStatement))
    (total_debt : Q) :
  exists c,
    Estimator._calculate_cost_of_debt income_stmt total_debt = Ok c
    /\ 0 < c /\ c <= 0.15.
Proof.
  unfold Estimator._calculate_cost_of_debt.
  destruct (get_list income_stmt) as [|latest rest].
  - exists 0.04. split; [reflexivity|]. split; [reflexivity|discriminate].
  - destruct (Qle_bool total_debt 0) eqn:Ed.
    + exists 0.04. split; [reflexivity|]. split; [reflexivity|discriminate].
    + destruct (Qgtb (get (Estimator.interest_expense latest) 0) 0) eqn:Ei;
        cbn [andb].
      * destruct (Qgtb total_debt 0) eqn:Ed'.
        -- apply Qgtb_true in Ei. apply Qgtb_true in Ed'.
           rewrite pydiv_ok by lra. cbn [bind].
           eexists. split; [reflexivity|].
           destruct (pymin_bounds (get (Estimator.interest_expense latest) 0 / total_debt)
                       0.15) as (Hhi & _ & _).
           split; [|exact Hhi].
           unfold pymin. destruct (Qltb 0.15 _); [reflexivity|].
           now apply div_pos.
        -- exists 0.04. split; [reflexivity|]. split; [reflexivity|discriminate].
      * exists 0.04. split; [reflexivity|]. split; [reflexivity|discriminate].
Qed.

(** X3: the CAPM cost of equity takes one of four values between 10.5%
    and 12.3%, and never increases with the market capitalisation. *)
Theorem cost_of_equity_antitone (ticker : string) (m1 m2 : Q) :
  m1 <= m2 ->
  Estimator._calculate_cost_of_equity ticker m2
  <= Estimator._calculate_cost_of_equity ticker m1
  /\ 0.105 <= Estimator._calculate_cost_of_equity ticker m2
  /\ Estimator._calculate_cost_of_equity ticker m1 <= 0.123.
Proof.
  intros Hm. unfold Estimator._calculate_cost_of_equity.
  destruct (Qgtb m1 500e9) eqn:A1; destruct (Qgtb m1 100e9) eqn:B1;
    destruct (Qgtb m1 10e9) eqn:C1;
    destruct (Qgtb m2 500e9) eqn:A2; destruct (Qgtb m2 100e9) eqn:B2;
    destruct (Qgtb m2 10e9) eqn:C2;
    try (repeat split; discriminate);
    repeat match goal with
           | H : Qgtb _ _ = true |- _ => apply Qgtb_true in H
           | H : Qgtb _ _ = false |- _ => apply Qgtb_false in H
           end;
    exfalso; lra.
Qed.

Lemma cost_of_equity_antitone_witness :
  1e9 <= 600e9
  /\ Estimator._calculate_cost_of_equity "ACME" 600e9
     <= Estimator._calculate_cost_of_equity "ACME" 1e9
  /\ 0.105 <= Estimator._calculate_cost_of_equity "ACME" 600e9
  /\ Estimator._calculate_cost_of_equity "ACME" 1e9 <= 0.123.
Proof.
  split; [discriminate|].
  apply (cost_of_equity_antitone "ACME" 1e9 600e9). discriminate.
Defined.

Lemma weighted_cost_bounded (mc debt coe cod tax : Q) :
  0 <= mc -> 0 <= debt -> 0 < mc + debt ->
  0.105 <= coe -> coe <= 0.123 -> 0 < cod -> cod <= 0.15 -> 0 <= tax -> tax <= 1 ->
  0 <= mc / (mc + debt) * coe + debt / (mc + debt) * cod * (1 - tax)
  /\ mc / (mc + debt) * coe + debt / (mc + debt) * cod * (1 - tax) <= 0.15.
Proof.
  intros Hmc Hdebt Htv Hcoe0 Hcoe1 Hcod0 Hcod1 Ht0 Ht1.
  set (ew := mc / (mc + debt)). set (dw := debt / (mc + debt)).
  assert (Hew : 0 <= ew) by now apply div_nonneg.
  assert (Hdw : 0 <= dw) by now apply div_nonneg.
  assert (Hsum : ew + dw == 1) by (unfold ew, dw; field; lra).
  assert (H1 : 0 <= ew * coe) by (apply Qmult_le_0_compat; lra).
  assert (H2 : ew * coe <= ew * 0.15).
  { rewrite !(Qmult_comm ew). apply Qmult_le_compat_r; lra. }
  assert (H3 : 0 <= dw * cod) by (apply Qmult_le_0_compat; lra).
  assert (H4 : dw * cod <= dw * 0.15).
  { rewrite !(Qmult_comm dw). apply Qmult_le_compat_r; lra. }
  assert (H5 : 0 <= dw * cod * (1 - tax)) by (apply Qmult_le_0_compat; lra).
  assert (H6 : dw * cod * (1 - tax) <= dw * cod * 1).
  { rewrite !(Qmult_comm (dw * cod)). apply Qmult_le_compat_r; lra. }
  split; lra.
Qed.

Lemma cost_of_equity_range (ticker : string) (m : Q) :
  0.105 <= Estimator._calculate_cost_of_equity ticker m
  /\ Estimator._calculate_cost_of_equity ticker m <= 0.123.
Proof.
  unfold Estimator._calculate_cost_of_equity.
  destruct (Qgtb m 500e9); [split; discriminate|].
  destruct (Qgtb m 100e9); [split; discriminate|].
  destruct (Qgtb m 10e9); split; discriminate.
Qed.

Lemma calculate_wacc_outcome (ticker : string)
    (income_stmt : Response (list Estimator.IncomeStatement))
    (balance_sheet : Response (list Estimator.BalanceSheet))
    (price_data : Response Estimator.Snapshot)
    (tax_rate_info : Estimator.TaxRateInfo) :
  exists info,
    Estimator._calculate_wacc ticker income_stmt balance_sheet price_data tax_rate_info
    = Ok info
    /\ ((forall latest rest,
            get_list balance_sheet = latest :: rest ->
            0 <= get (Estimator.total_debt latest) 0
            /\ 0 <= get (Estimator.shareholders_equity latest) 0) ->
        0 <= Estimator.effective_tax_rate tax_rate_info ->
        Estimator.effective_tax_rate tax_rate_info <= 1 ->
        0 <= Estimator.wacc info /\ Estimator.wacc info <= 0.15).
Proof.
  unfold Estimator._calculate_wacc.
  destruct (get_list balance_sheet) as [|latest rest].
  - eexists. split; [reflexivity|]. intros _ _ _. split; discriminate.
  - destruct (cost_of_debt_bounded income_stmt (get (Estimator.total_debt latest) 0))
      as (cod & Hcod & Hcod0 & Hcod1).
    rewrite Hcod. cbn [bind].
    set (debt := get (Estimator.total_debt latest) 0) in *.
    set (mc := if (Qgtb (get (Estimator.outstanding_shares latest) 0) 0 && _)%bool
               then _ else _).
    destruct (Qgtb (mc + debt) 0) eqn:Etv.
    + apply Qgtb_true in Etv.
      rewrite !pydiv_ok by lra. cbn [bind].
      eexists. split; [reflexivity|]. cbn [Estimator.wacc].
      intros Hbs Ht0 Ht1.
      destruct (Hbs latest rest eq_refl) as [Hdebt Hequity]. fold debt in Hdebt.
      assert (Hmc : 0 <= mc).
      { unfold mc.
        destruct (Qgtb (get (Estimator.outstanding_shares latest) 0) 0 && _)%bool
          eqn:Eb; [|exact Hequity].
        apply andb_true_iff in Eb. destruct Eb as [Es Ep].
        apply Qgtb_true in Es. apply Qgtb_true in Ep.
        apply Qmult_le_0_compat; lra. }
      destruct (cost_of_equity_range ticker mc) as [Hcoe0 Hcoe1].
      destruct (weighted_cost_bounded mc debt
                  (Estimator._calculate_cost_of_equity ticker mc) cod
                  (Estimator.effective_tax_rate tax_rate_info))
        as [Hlo Hhi]; try assumption.
      split.
      * apply Qle_trans with (inject_Z 0 / 10000); [discriminate|].
        apply round4_grid_ge.
        apply Qle_trans with 0; [discriminate|exact Hlo].
      * apply Qle_trans with (inject_Z 1500 / 10000); [|discriminate].
        apply round4_grid_le.
        apply Qle_trans with 0.15; [exact Hhi|discriminate].
    + eexists. split; [reflexivity|]. intros _ _ _. split; discriminate.
Qed.

(** X4: [_calculate_wacc] returns on every input.  When the latest balance
    sheet reports a non-negative debt and a non-negative book equity and
    the tax rate lies in [0,1], the WACC it returns lies in [0, 0.15]. *)
Theorem wacc_bounded (ticker : string)
    (income_stmt : Response (list Estimator.IncomeStatement))
    (balance_sheet : Response (list Estimator.BalanceSheet))
    (price_data : Response Estimator.Snapshot)
    (tax_rate_info : Estimator.TaxRateInfo) :
  (forall latest rest,
      get_list balance_sheet = latest :: rest ->
      0 <= get (Estimator.total_debt latest) 0
      /\ 0 <= get (Estimator.shareholders_equity latest) 0) ->
  0 <= Estimator.effective_tax_rate tax_rate_info ->
  Estimator.effective_tax_rate tax_rate_info <= 1 ->
  exists info,
    Estimator._calculate_wacc ticker income_stmt balance_sheet price_data tax_rate_info
    = Ok info
    /\ 0 <= Estimator.wacc info /\ Estimator.wacc info <= 0.15.
Proof.
  intros Hbs Ht0 Ht1.
  destruct (calculate_wacc_outcome ticker income_stmt balance_sheet price_data
              tax_rate_info) as (info & Hrun & Hbounds).
  exists info. split; [exact Hrun|]. now apply Hbounds.
Qed.

Lemma wacc_bounded_witness :
  let income := WithKey [ {| Estimator.income_tax_expense := Some 20;
                             Estimator.net_income := Some 80;
                             Estimator.interest_expense := Some 5;
                             Estimator.revenue := Some 1000 |} ] in
  let balance := WithKey [ {| Estimator.total_debt := Some 100;
                              Estimator.shareholders_equity := Some 300;
                              Estimator.outstanding_shares := Some 10 |} ] in
  let price := WithKey {| Estimator.price := Some 50 |} in
  let tax := {| Estimator.effective_tax_rate := 0.2;
                Estimator.tax_method := "calculated";
                Estimator.tax_note := "one year";
                Estimator.yearly_rates := Some [0.2] |} in
  exists info,
    Estimator._calculate_wacc "ACME" income balance price tax = Ok info
    /\ 0 <= Estimator.wacc info /\ Estimator.wacc info <= 0.15.
Proof.
  intros income balance price tax.
  apply (wacc_bounded "ACME" income balance price tax).
  - intros latest rest [= <- <-]. split; discriminate.
  - discriminate.
  - discriminate.
Defined.

(** X5: [calculate_all_assumptions] returns whatever the four fetches
    deliver (failed fetches, empty lists, losses, zero revenues), with a tax
    rate in [0, 0.50] and a terminal growth in [0.01, 0.04]. *)
Theorem calculate_all_assumptions_returns (source : Estimator.DataSource)
    (ticker : string) :
  exists all,
    Estimator.calculate_all_assumptions source ticker = Ok all
    /\ 0 <= Estimator.all_tax_rate all /\ Estimator.all_tax_rate all <= 0.50
    /\ 0.01 <= Estimator.all_terminal_growth all
    /\ Estimator.all_terminal_growth all <= 0.04
    /\ Estimator.all_wacc all = Estimator.wacc (Estimator.wacc_details all)
    /\ Estimator.all_tax_rate all
       = Estimator.effective_tax_rate (Estimator.tax_details all)
    /\ Estimator.all_terminal_growth all
       = Estimator.terminal_growth (Estimator.growth_details all).
Proof.
  unfold Estimator.calculate_all_assumptions.
  destruct (effective_tax_rate_outcome (Estimator._get_income_statement source ticker 5))
    as (tax & Htax & Ht0 & Ht1 & _).
  rewrite Htax. cbn [bind].
  destruct (calculate_wacc_outcome ticker
              (Estimator._get_income_statement source ticker 5)
              (Estimator._get_balance_sheet source ticker 2)
              (Estimator._get_price_snapshot source ticker) tax)
    as (wacc & Hwacc & _).
  rewrite Hwacc. cbn [bind].
  destruct (terminal_growth_outcome (Estimator._get_income_statement source ticker 5)
              ticker) as (growth & Hgrowth & Hg0 & Hg1).
  rewrite Hgrowth. cbn [bind].
  eexists. split; [reflexivity|]. cbn. repeat split; assumption.
Qed.

(** ** The segment allocator: cache, outcome, normalised names *)

(** X6: once [prepare_segment_financials] has returned a profile, the same
    request returns the same profile from the cache and leaves the cache
    as it is, whatever the data source would answer by then. *)
Theorem prepare_segment_financials_cached (client client' : Client)
    (ticker segment_name : string) (years : Z) (cache cache' : Cache)
    (data : SegmentData) :
  prepare_segment_financials client ticker segment_name years cache = (Ok data, cache') ->
  prepare_segment_financials client' ticker segment_name years cache' = (Ok data, cache').
Proof.
  unfold prepare_segment_financials.
  destruct (cache_get cache (make_cache_key ticker segment_name years))
    as [cached|] eqn:Ehit.
  - intros [= <- <-]. now rewrite Ehit.
  - destruct (compute_segment_financials client ticker segment_name years)
      as [result|e]; [|discriminate].
    intros [= <- <-].
    now rewrite cache_get_set, String.eqb_refl.
Qed.

Lemma prepare_segment_financials_cached_witness :
  exists data cache',
    prepare_segment_financials Fixture.client "ACME" "Devices" 5 [] = (Ok data, cache')
    /\ prepare_segment_financials
         {| get_segmented_revenues := fun _ _ => EmptyDict;
            get_income_statement := fun _ _ => EmptyDict |}
         "ACME" "Devices" 5 cache' = (Ok data, cache').
Proof.
  eexists. eexists.
  assert (H : prepare_segment_financials Fixture.client "ACME" "Devices" 5 []
              = (Ok _, _)) by (vm_compute; reflexivity).
  split; [exact H|].
  exact (prepare_segment_financials_cached Fixture.client _ "ACME" "Devices" 5 [] _ _ H).
Defined.

Lemma segment_allocation_loop_length (segment_revenues total_revenues : list Q) :
  exists allocation,
    segment_allocation_loop segment_revenues total_revenues = Ok allocation
    /\ List.length allocation
       = Nat.min (List.length segment_revenues) (List.length total_revenues).
Proof.
  revert total_revenues.
  induction segment_revenues as [|seg_rev srest IH]; intros [|total_rev trest];
    try (exists []; split; reflexivity).
  destruct (IH trest) as (rest & Hrun & Hlen).
  cbn [segment_allocation_loop].
  assert (Hhead : exists alloc,
             (if Qgtb total_rev 0 then pydiv seg_rev total_rev else Ok 0) = Ok alloc).
  { destruct (Qgtb total_rev 0) eqn:E; [|now exists 0].
    apply Qgtb_true in E. rewrite pydiv_ok by lra. now eexists. }
  destruct Hhead as (alloc & ->). rewrite Hrun. cbn [bind].
  exists (alloc :: rest). split; [reflexivity|]. simpl. now rewrite Hlen.
Qed.

Lemma margin_loop_length (xs total_revenues segment_revenues : list Q) :
  exists margins shares,
    margin_loop xs total_revenues segment_revenues = Ok (margins, shares)
    /\ List.length margins
       = Nat.min (List.length xs)
           (Nat.min (List.length total_revenues) (List.length segment_revenues))
    /\ List.length shares = List.length margins.
Proof.
  revert total_revenues segment_revenues.
  induction xs as [|x xrest IH]; intros [|rev trest] [|seg_rev srest];
    try (exists [], []; repeat split; reflexivity).
  destruct (IH trest srest) as (margins & shares & Hrun & Hlen & Hlen').
  cbn [margin_loop].
  assert (Hhead : exists margin share,
             (if Qgtb rev 0
              then margin <- pydiv x rev ;; Ok (margin, seg_rev * margin)
              else Ok (0, 0)) = Ok (margin, share)).
  { destruct (Qgtb rev 0) eqn:E; [|now exists 0, 0].
    apply Qgtb_true in E. rewrite pydiv_ok by lra. cbn [bind]. now eexists; eexists. }
  destruct Hhead as (margin & share & ->). rewrite Hrun. cbn [bind].
  exists (margin :: margins), (share :: shares).
  split; [reflexivity|]. simpl. split; [now rewrite Hlen|now rewrite Hlen'].
Qed.

Lemma zip_mult_length (a b : list Q) :
  List.length (zip_mult a b) = Nat.min (List.length a) (List.length b).
Proof.
  revert b. induction a as [|x a IH]; intros [|y b]; simpl; try reflexivity.
  now rewrite IH.
Qed.

(** X7: the computation behind [prepare_segment_financials] raises nothing
    but [ValueError] (no division by zero, no index error); when it
    returns, the profile has at least one revenue, [years] is their number,
    and each allocated series has one entry per period that has both a
    segment revenue and an income statement. *)
Theorem compute_segment_financials_outcome (client : Client)
    (ticker segment_name : string) (years : Z) :
  match compute_segment_financials client ticker segment_name years with
  | Ok data =>
      let periods :=
        Nat.min (List.length (revenues data))
          (List.length (get_list (get_income_statement client ticker years))) in
      revenues data <> []
      /\ Engine.years data = len (revenues data)
      /\ Engine.ticker data = ticker
      /\ Engine.segment_name data = segment_name
      /\ List.length (allocation_pct data) = periods
      /\ List.length (rd_expenses data) = periods
      /\ List.length (gross_profits data) = periods
      /\ List.length (gp_margins data) = periods
      /\ List.length (operating_incomes data) = periods
      /\ List.length (operating_margins data) = periods
  | Raise e =>
      e = ValueError (UnableToFetch ticker)
      \/ exists labels, e = ValueError (SegmentNotFound segment_name ticker labels)
  end.
Proof.
  unfold compute_segment_financials.
  destruct (falsy _ || falsy _); [now left|].
  destruct (scan_periods _ _) as [|rev revs] eqn:Escan; [right; now eexists|].
  set (stmts := get_list (get_income_statement client ticker years)).
  set (totals := map (fun period => get (revenue period) 0) stmts).
  assert (Htotals : List.length totals = List.length stmts)
    by (unfold totals; now rewrite length_map).
  destruct (segment_allocation_loop_length (rev :: revs) totals)
    as (alloc & Halloc & Hlen_alloc).
  rewrite Halloc. cbn [bind].
  destruct (margin_loop_length (map (fun period => get (gross_profit period) 0) stmts)
              totals (rev :: revs)) as (gpm & gps & Hgp & Hlen_gp & Hlen_gps).
  rewrite Hgp. cbn [bind].
  destruct (margin_loop_length (map (fun period => get (operating_income period) 0) stmts)
              totals (rev :: revs)) as (opm & ops & Hop & Hlen_op & Hlen_ops).
  rewrite Hop. cbn [bind]. cbn zeta.
  cbn [revenues Engine.years Engine.ticker Engine.segment_name allocation_pct
       rd_expenses gross_profits gp_margins operating_incomes operating_margins].
  rewrite zip_mult_length, !length_map in *. rewrite Htotals in *.
  repeat split; try discriminate; lia.
Qed.

Lemma lower_ascii_not_upper (c : ascii) :
  ((65 <=? nat_of_ascii (lower_ascii c)) && (nat_of_ascii (lower_ascii c) <=? 90))%nat
  = false.
Proof. destruct c as [[] [] [] [] [] [] [] []]; vm_compute; reflexivity. Qed.

Lemma lower_ascii_fixed (c : ascii) :
  ((65 <=? nat_of_ascii c) && (nat_of_ascii c <=? 90))%nat = false -> lower_ascii c = c.
Proof. unfold lower_ascii. now intros ->. Qed.

Lemma is_normal_normalize (s : string) : is_normal (normalize s) = true.
Proof.
  unfold normalize. induction s as [|c rest IH]; [reflexivity|].
  cbn [lower remove_char].
  destruct (Ascii.eqb " " (lower_ascii c)) eqn:Esp; [exact IH|].
  cbn [remove_char].
  destruct (Ascii.eqb "-" (lower_ascii c)) eqn:Ehy; [exact IH|].
  cbn [is_normal].
  rewrite Ascii.eqb_sym, Esp, (Ascii.eqb_sym _ "-"), Ehy, lower_ascii_not_upper.
  exact IH.
Qed.

Lemma normalize_fixed (s : string) : is_normal s = true -> normalize s = s.
Proof.
  unfold normalize. induction s as [|c rest IH]; [reflexivity|].
  cbn [is_normal]. intros H.
  apply andb_true_iff in H. destruct H as [H Hrest].
  apply andb_true_iff in H. destruct H as [H Hup].
  apply andb_true_iff in H. destruct H as [Hsp Hhy].
  apply negb_true_iff in Hsp, Hhy, Hup.
  cbn [lower]. rewrite (lower_ascii_fixed c Hup).
  cbn [remove_char]. rewrite Ascii.eqb_sym, Hsp.
  cbn [remove_char]. rewrite Ascii.eqb_sym, Hhy.
  f_equal. now apply IH.
Qed.

(** X8: the normal form a segment name is compared under has no space, no
    hyphen and no upper-case ASCII letter, and normalising is idempotent. *)
Theorem normalize_normal_form (s : string) :
  is_normal (normalize s) = true /\ normalize (normalize s) = normalize s.
Proof.
  split; [apply is_normal_normalize|].
  apply normalize_fixed, is_normal_normalize.
Qed.

(** ** The portfolio *)

Lemma value_ip_asset_identity (client : Client) (ticker : string) (ip_asset : IPAsset)
    (w t g : Q) (years : Z) (cache cache' : Cache) (av : AssetValuation) :
  value_ip_asset client ticker ip_asset w t g years cache = (Ok av, cache') ->
  ip_asset_id av = id ip_asset /\ asset_ticker av = ticker /\ ip_type av = type ip_asset.
Proof.
  unfold value_ip_asset.
  destruct (value_segments _ _ _ _ _ _ _ _ _ _ _) as [[[total vals]|e] c];
    [|discriminate].
  intros [= <- _]. now repeat split.
Qed.

Lemma subseq_refl {A : Type} (l : list A) : subseq l l.
Proof. induction l; constructor; assumption. Qed.

Lemma subseq_length {A : Type} (l1 l2 : list A) :
  subseq l1 l2 -> (List.length l1 <= List.length l2)%nat.
Proof. induction 1; simpl; lia. Qed.

Lemma value_assets_summary (client : Client) (ticker : string) (w t g : Q)
    (ip_portfolio : list IPAsset) :
  forall (total : Q) (vals : list AssetValuation) (cache : Cache),
  exists total' new cache',
    value_assets client ticker w t g ip_portfolio total vals cache
    = ((total', (vals ++ new)%list), cache')
    /\ total' == total + pysum (map asset_total_value new)
    /\ subseq (map ip_asset_id new) (map id ip_portfolio)
    /\ Forall (fun av => asset_ticker av = ticker) new.
Proof.
  induction ip_portfolio as [|ip_asset rest IH]; intros total vals cache.
  - exists total, [], cache. rewrite app_nil_r.
    split; [reflexivity|]. split; [cbn; ring|]. split; constructor.
  - cbn [value_assets].
    destruct (value_ip_asset client ticker ip_asset w t g 5 cache)
      as [[av|e] c1] eqn:Easset.
    + destruct (value_ip_asset_identity _ _ _ _ _ _ _ _ _ _ Easset) as (Hid & Htk & _).
      destruct (IH (total + asset_total_value av) (vals ++ [av])%list c1)
        as (total' & new & c' & Hrun & Htotal & Hsub & Hall).
      exists total', (av :: new), c'.
      split; [rewrite Hrun, <- app_assoc; reflexivity|].
      split; [cbn [map]; rewrite pysum_cons, Htotal; ring|].
      split; [cbn [map]; rewrite Hid; now constructor|].
      now constructor.
    + destruct (IH total vals c1) as (total' & new & c' & Hrun & Htotal & Hsub & Hall).
      exists total', new, c'.
      split; [exact Hrun|]. split; [exact Htotal|].
      split; [cbn [map]; now constructor|exact Hall].
Qed.

(** X10: [value_ip_portfolio] returns for every portfolio.  The assets it
    reports are assets of the portfolio in their input order (the ones whose
    valuation raised are left out), [asset_count] is their number, and
    [total_portfolio_value] is the sum of their [total_value]s. *)
Theorem value_ip_portfolio_summary (client : Client) (ticker : string)
    (ip_portfolio : list IPAsset) (w t g : Q) (cache : Cache) :
  exists portfolio cache',
    value_ip_portfolio client ticker ip_portfolio w t g cache = (Ok portfolio, cache')
    /\ subseq (map ip_asset_id (asset_valuations portfolio)) (map id ip_portfolio)
    /\ asset_count portfolio = len (asset_valuations portfolio)
    /\ (asset_count portfolio <= len ip_portfolio)%Z
    /\ total_portfolio_value portfolio
       == pysum (map asset_total_value (asset_valuations portfolio))
    /\ Forall (fun av => asset_ticker av = ticker) (asset_valuations portfolio)
    /\ portfolio_assumptions portfolio = (w, t, g).
Proof.
  unfold value_ip_portfolio.
  destruct (value_assets_summary client ticker w t g ip_portfolio 0 [] cache)
    as (total & new & cache' & Hrun & Htotal & Hsub & Hall).
  rewrite Hrun. cbn [app].
  eexists. eexists. split; [reflexivity|].
  cbn [asset_valuations asset_count total_portfolio_value portfolio_assumptions].
  split; [exact Hsub|]. split; [reflexivity|].
  split.
  - apply subseq_length in Hsub. rewrite !length_map in Hsub. unfold len. lia.
  - split; [rewrite Htotal; ring|]. split; [exact Hall|reflexivity].
Qed.

(** ** Excess earnings as a royalty *)

Lemma cac_loop_sum (ca : list (string * Q)) (revenue total_cac : Q) :
  cac_loop ca revenue total_cac == total_cac + revenue * 0.5 * pysum (map snd ca).
Proof.
  revert total_cac. induction ca as [|[asset_type return_rate] rest IH]; intros total_cac.
  - cbn. ring.
  - cbn [cac_loop map snd]. rewrite IH, pysum_cons. ring.
Qed.

Lemma mpee_years_as_rfr_years (om : Q) (ca : list (string * Q)) (ip w t : Q)
    (revs : list Q) (year : Z) (acc1 acc2 : Q) (det1 det2 : list YearlyDetail) :
  acc1 == acc2 ->
  match mpee_years om ca ip w t revs year acc1 det1,
        rfr_years (om - pysum (map snd ca) * 0.5) t w ip revs year acc2 det2 with
  | Ok (x1, _), Ok (x2, _) => x1 == x2
  | Raise e1, Raise e2 => e1 = e2
  | _, _ => False
  end.
Proof.
  revert year acc1 acc2 det1 det2.
  induction revs as [|rev rest IH]; intros year acc1 acc2 det1 det2 Hacc.
  - exact Hacc.
  - cbn [mpee_years rfr_years].
    destruct (pypow (1 + w) year) as [df|e]; cbn [bind]; [|reflexivity].
    unfold pydiv.
    destruct (Qeq_bool df 0) eqn:E; cbn [bind]; [reflexivity|].
    apply IH. unfold Qdiv. rewrite Hacc, cac_loop_sum. ring.
Qed.

(** X11: the Multi-Period Excess Earnings method is Relief from Royalty
    under another name: with contributory charges of half the revenue times
    each required return, its amounts are those of [relief_from_royalty] at
    the royalty rate [operating_margin - 0.5 * sum of the returns] and the
    attribution [ip_contribution_pct] (and it raises when that one does). *)
Theorem excess_earnings_as_relief_from_royalty (revs : list Q) (om : Q)
    (ca : list (string * Q)) (ip w t g : Q) :
  result_scaled 1
    (multi_period_excess_earnings revs om ca ip w t g)
    (relief_from_royalty revs (om - pysum (map snd ca) * 0.5) t w ip g).
Proof.
  unfold multi_period_excess_earnings, relief_from_royalty.
  pose proof (mpee_years_as_rfr_years om ca ip w t revs 1 0 0 [] [] (Qeq_refl 0)) as H.
  destruct (mpee_years om ca ip w t revs 1 0 []) as [[x1 d1]|e1];
    destruct (rfr_years (om - pysum (map snd ca) * 0.5) t w ip revs 1 0 [])
      as [[x2 d2]|e2];
    cbn [bind]; try contradiction; [|exact H].
  destruct (py_last revs) as [lr|e]; cbn [bind]; [|reflexivity].
  unfold pydiv.
  destruct (Qeq_bool (w - g) 0) eqn:E1; cbn [bind]; [reflexivity|].
  destruct (pypow (1 + w) (len revs)) as [df|e]; cbn [bind]; [|reflexivity].
  destruct (Qeq_bool df 0) eqn:E2; cbn [bind]; [reflexivity|].
  apply Qeq_bool_neq in E1. apply Qeq_bool_neq in E2.
  assert (Hterm : (lr * (1 + g) * om - pysum (map snd ca) * (lr * (1 + g)) * 0.5)
                  * ip * (1 - t) / (w - g) / df
                  == lr * (1 + g) * (om - pysum (map snd ca) * 0.5) * (1 - t) * ip
                     / (w - g) / df).
  { unfold Qdiv. ring. }
  cbn. repeat split.
  - rewrite H, Hterm. ring.
  - rewrite H. ring.
  - rewrite Hterm. ring.
Qed.

(** With the charges [value_ip_asset] passes (2%, 10% and 12%), the
    equivalent royalty rate is the operating margin less 12 points. *)
Example excess_earnings_default_royalty :
  pysum (map snd [("working_capital", 0.02); ("fixed_assets", 0.10);
                  ("other_intangibles", 0.12)]) * 0.5 == 0.12.
Proof. reflexivity. Qed.

(** ** The yearly ledgers *)

Lemma pysum_app (l1 l2 : list Q) : pysum (l1 ++ l2) == pysum l1 + pysum l2.
Proof.
  induction l1 as [|x l1 IH]; [cbn [app]; change (pysum []) with 0; ring|].
  cbn [app]. rewrite !pysum_cons, IH. ring.
Qed.

Lemma rfr_years_ledger (r t w a : Q) (revs : list Q) :
  forall (year : Z) (acc : Q) (det : list YearlyDetail),
  match rfr_years r t w a revs year acc det with
  | Ok (acc', det') =>
      exists new,
        det' = (det ++ new)%list
        /\ map year_of new = years_from year (List.length revs)
        /\ map revenue_of new = revs
        /\ acc' == acc + pysum (map present_value_of new)
  | Raise e => e = ZeroDivisionError \/ e = OverflowError
  end.
Proof.
  induction revs as [|rev rest IH]; intros year acc det.
  - exists []. rewrite app_nil_r. repeat split. cbn. ring.
  - cbn [rfr_years].
    destruct (pypow (1 + w) year) as [df|e] eqn:Epow; cbn [bind];
      [|exact (pypow_raises _ _ _ Epow)].
    unfold pydiv.
    destruct (Qeq_bool df 0); cbn [bind]; [now left|].
    match goal with
    | |- match rfr_years _ _ _ _ _ ?y1 ?a1 ?d1 with _ => _ end =>
        specialize (IH y1 a1 d1);
        destruct (rfr_years r t w a rest y1 a1 d1) as [[acc' det']|e]
    end; [|exact IH].
    destruct IH as (new & -> & Hyears & Hrevs & Hacc).
    eexists (_ :: new). split; [now rewrite <- app_assoc|].
    cbn [map year_of revenue_of present_value_of years_from List.length].
    split; [now rewrite Hyears|]. split; [now rewrite Hrevs|].
    rewrite Hacc, pysum_cons. ring.
Qed.

(** X12: when [relief_from_royalty] returns, its ledger has one entry per
    revenue, for the years 1, 2, ... in order and with the revenues as
    given; [pv_explicit_period] is the sum of the entries' present values
    and [total_value] is [pv_explicit_period + pv_terminal_value].  When it
    raises, the exception is [ZeroDivisionError], [OverflowError] or
    [IndexError]. *)
Theorem relief_from_royalty_ledger (revs : list Q) (r t w a g : Q) :
  match relief_from_royalty revs r t w a g with
  | Ok res =>
      map year_of (yearly_details res) = years_from 1 (List.length revs)
      /\ map revenue_of (yearly_details res) = revs
      /\ exists explicit terminal,
           pv_explicit_period res = Some explicit
           /\ pv_terminal_value res = Some terminal
           /\ explicit == pysum (map present_value_of (yearly_details res))
           /\ total_value res = explicit + terminal
  | Raise e => e = ZeroDivisionError \/ e = OverflowError \/ e = IndexError
  end.
Proof.
  unfold relief_from_royalty.
  pose proof (rfr_years_ledger r t w a revs 1 0 []) as H.
  destruct (rfr_years r t w a revs 1 0 []) as [[acc det]|e]; cbn [bind];
    [|destruct H as [->| ->]; auto].
  destruct H as (new & -> & Hyears & Hrevs & Hacc). cbn [app].
  destruct (py_last revs) as [lr|e] eqn:Elast; cbn [bind].
  2:{ right. right. destruct revs as [|x revs]; [now injection Elast as <-|].
      now rewrite (py_last_cons x revs 0) in Elast. }
  unfold pydiv.
  destruct (Qeq_bool (w - g) 0); cbn [bind]; [now left|].
  destruct (pypow (1 + w) (len revs)) as [df|e] eqn:Epow; cbn [bind];
    [|destruct (pypow_raises _ _ _ Epow) as [->| ->]; auto].
  destruct (Qeq_bool df 0); cbn [bind]; [now left|].
  cbn [yearly_details pv_explicit_period pv_terminal_value total_value].
  split; [exact Hyears|]. split; [exact Hrevs|].
  eexists. eexists. split; [reflexivity|]. split; [reflexivity|].
  split; [rewrite Hacc; ring|reflexivity].
Qed.

Lemma pymax_le (x y b : Q) : x <= b -> y <= b -> pymax x y <= b.
Proof. intros Hx Hy. unfold pymax. now destruct (Qgtb y x). Qed.

Lemma tf_years_ledger (revs : list Q) (adj : Q) (life : Z) (t w : Q) (n : nat) :
  (0 < life)%Z ->
  forall (k : nat) (acc : Q) (det : list YearlyDetail),
  powers_in_range w (k + n) = true ->
  (k + n <= List.length revs)%nat ->
  exists acc' new,
    tf_years revs adj life t w n (Z.of_nat k + 1) acc det = Ok (acc', (det ++ new)%list)
    /\ map year_of new = years_from (Z.of_nat k + 1) n
    /\ map revenue_of new = firstn n (skipn k revs)
    /\ Forall (fun d => exists decay,
                   decay_of d = Some decay /\ 0.3 <= decay /\ decay <= 1) new
    /\ acc' == acc + pysum (map present_value_of new).
Proof.
  intros Hlife.
  induction n as [|n IH]; intros k acc det Hw Hlen.
  - exists acc, []. rewrite app_nil_r.
    repeat split; [constructor|cbn; ring].
  - cbn [tf_years].
    destruct (powers_in_range_pypow w _ (S k) Hw) as [Hpow Hnz]; [lia|].
    replace (Z.of_nat (S k)) with (Z.of_nat k + 1)%Z in Hpow, Hnz by lia.
    destruct (Z.leb_spec (Z.of_nat k + 1) (len revs)) as [_|H]; [|unfold len in H; lia].
    replace (Z.of_nat k + 1 - 1)%Z with (Z.of_nat k) by lia.
    rewrite (py_index_nth revs k 0) by lia. cbn [bind].
    assert (Hlife15 : 0 < inject_Z life * 1.5).
    { apply Qmult_lt_0_compat; [|reflexivity].
      rewrite <- (Zlt_Qlt 0). exact Hlife. }
    rewrite pydiv_ok by lra. cbn [bind].
    rewrite Hpow. cbn [bind].
    rewrite pydiv_ok by exact Hnz.
    cbn [bind].
    replace (Z.of_nat k + 1 + 1)%Z with (Z.of_nat (S k) + 1)%Z by lia.
    match goal with
    | |- exists _ _, tf_years _ _ _ _ _ _ _ ?a ?d = _ /\ _ =>
        destruct (IH (S k) a d) as (acc' & new & Hrun & Hyears & Hrevs & Hdecay & Hacc);
          [now rewrite Nat.add_succ_r in Hw|lia|]
    end.
    eexists acc', (_ :: new).
    split; [rewrite Hrun, <- app_assoc; reflexivity|].
    cbn [map year_of revenue_of present_value_of years_from].
    split; [rewrite Hyears; do 2 f_equal; lia|].
    split.
    { rewrite Hrevs.
      assert (Hk : (k < List.length revs)%nat) by lia.
      clear - Hk. revert k Hk.
      induction revs as [|x revs IHr]; intros k Hk; [simpl in Hk; lia|].
      destruct k as [|k]; [reflexivity|].
      cbn [skipn nth]. apply IHr. simpl in Hk. lia. }
    split.
    { constructor; [|exact Hdecay].
      eexists. split; [reflexivity|].
      destruct (pymax_bounds (1 - inject_Z (Z.of_nat k + 1) / (inject_Z life * 1.5)) 0.3)
        as (Hlo & _ & _).
      split; [exact Hlo|].
      apply pymax_le; [|discriminate].
      assert (Hq : 0 < inject_Z (Z.of_nat k + 1) / (inject_Z life * 1.5)).
      { apply div_pos; [|exact Hlife15]. rewrite <- (Zlt_Qlt 0). lia. }
      lra. }
    rewrite Hacc, pysum_cons. ring.
Qed.



(** ** Scores of zero *)

Lemma or_default_drop_zero (score : option Q) (default : Q) :
  or_default (drop_zero score) default = or_default score default.
Proof.
  destruct score as [x|]; [|reflexivity].
  cbn. destruct (Qeq_bool x 0) eqn:E; cbn; now rewrite ?E.
Qed.

Lemma or_default_int_drop_zero (n : option Z) (default : Z) :
  or_default_int (drop_zero_int n) default = or_default_int n default.
Proof.
  destruct n as [x|]; [|reflexivity].
  cbn. destruct (x =? 0)%Z eqn:E; cbn; now rewrite ?E.
Qed.

(** X14: for the valuation an explicit score of 0, or a remaining life of
    0 years, is the same as a missing one: [value_ip_asset] values the asset
    as if the field had been left out (and so with the defaults 0.7 and 10
    years, not with zero). *)
Theorem zero_scores_count_as_missing (client : Client) (ticker : string)
    (ip_asset : IPAsset) (w t g : Q) (years : Z) (cache : Cache) :
  (forall data revs,
      select_valuation_method ip_asset data revs w t g
      = select_valuation_method (without_zeros ip_asset) data revs w t g)
  /\ match value_ip_asset client ticker ip_asset w t g years cache,
           value_ip_asset client ticker (without_zeros ip_asset) w t g years cache with
     | (Ok av, c), (Ok av', c') =>
         asset_total_value av = asset_total_value av'
         /\ segment_valuations av = segment_valuations av' /\ c = c'
     | (Raise e, c), (Raise e', c') => e = e' /\ c = c'
     | _, _ => False
     end.
Proof.
  assert (Hsel : forall data revs,
             select_valuation_method ip_asset data revs w t g
             = select_valuation_method (without_zeros ip_asset) data revs w t g).
  { intros data revs. unfold select_valuation_method, without_zeros.
    cbn [valuation_method royalty_rate innovation_score commercial_score
         legal_strength_score remaining_life_years total_patent_life].
    now rewrite !or_default_drop_zero, or_default_int_drop_zero. }
  split; [exact Hsel|].
  assert (Hsegs : forall segs total vals c,
             value_segments client ticker ip_asset w t g years segs total vals c
             = value_segments client ticker (without_zeros ip_asset) w t g years
                 segs total vals c).
  { induction segs as [|s rest IH]; intros total vals c; [reflexivity|].
    cbn [value_segments].
    destruct (prepare_segment_financials client ticker (name s) years c)
      as [[data|e] c1]; [|apply IH].
    rewrite <- Hsel.
    destruct (select_valuation_method ip_asset data _ w t g); [apply IH|reflexivity]. }
  unfold value_ip_asset.
  change (related_segments (without_zeros ip_asset)) with (related_segments ip_asset).
  rewrite <- Hsegs.
  destruct (value_segments client ticker ip_asset w t g years
              (related_segments ip_asset) 0 [] cache) as [[[total vals]|e] c];
    now repeat split.
Qed.

(** A remaining life of 0 years is valued over 10 years. *)
Example zero_life_valued_over_ten_years :
  exists res,
    select_valuation_method
      {| id := "PAT-1"; type := "patent"; description := "expired patent";
         related_segments := [];
         royalty_rate := 0.05; valuation_method := "technology_factor";
         innovation_score := Some 0.9; commercial_score := Some 0.9;
         legal_strength_score := Some 0.9;
         remaining_life_years := Some 0%Z; total_patent_life := 20 |}
      {| ticker := "ACME"; segment_name := "Devices"; revenues := [100; 100];
         gross_profits := []; gp_margins := []; rd_expenses := [];
         operating_incomes := []; operating_margins := []; allocation_pct := [];
         years := 2 |}
      [100; 100] 0.10 0.21 0.02 = Ok res
    /\ List.length (yearly_details res) = 2%nat
    /\ 0 < total_value res.
Proof.
  eexists. split; [vm_compute; reflexivity|]. split; reflexivity.
Qed.

(** ** Discovered assets *)

Lemma trademark_well_formed (ticker segment_name segment_lower : string) :
  well_formed_asset (Discovery._create_trademark ticker segment_name segment_lower)
  /\ map name (related_segments
                 (Discovery._create_trademark ticker segment_name segment_lower))
     = [segment_name].
Proof.
  unfold Discovery._create_trademark, well_formed_asset.
  cbn [related_segments royalty_rate total_patent_life valuation_method type
       Discovery.one_segment map name].
  split; [|reflexivity].
  split; [discriminate|].
  split.
  { constructor; [|constructor]. cbn [attribution_pct].
    destruct (Discovery.contains "iphone" segment_lower); [split; [reflexivity|discriminate]|].
    destruct (_ || _); [split; [reflexivity|discriminate]|].
    destruct (_ || _); split; reflexivity || discriminate. }
  split; [reflexivity|]. split; [discriminate|]. split; [reflexivity|].
  left. split; [reflexivity|now left].
Qed.

Lemma technology_patents_well_formed (ticker segment_name segment_lower : string)
    (a : IPAsset) :
  In a (Discovery._create_technology_patents ticker segment_name segment_lower) ->
  well_formed_asset a /\ map name (related_segments a) = [segment_name].
Proof.
  unfold Discovery._create_technology_patents.
  destruct (Discovery.any_in _ segment_lower); [|intros []].
  assert (Hscore : forall x : Q, 0 < x -> x <= 1 -> unit_score (Some x))
    by (intros x H0 H1; now exists x).
  intros [<-|[<-|[]]]; (split; [|reflexivity]); unfold well_formed_asset;
    cbn [related_segments royalty_rate total_patent_life valuation_method type
         innovation_score commercial_score legal_strength_score remaining_life_years
         Discovery.one_segment].
  - split; [discriminate|].
    split; [repeat constructor; discriminate|].
    split; [reflexivity|]. split; [discriminate|]. split; [reflexivity|].
    right. split; [reflexivity|]. split; [reflexivity|].
    split; [apply Hscore; [reflexivity|discriminate]|].
    split; [apply Hscore; [reflexivity|discriminate]|].
    split; [apply Hscore; [reflexivity|discriminate]|].
    eexists. split; [reflexivity|lia].
  - split; [discriminate|].
    split; [repeat constructor; discriminate|].
    split; [reflexivity|]. split; [discriminate|]. split; [reflexivity|].
    right. split; [reflexivity|]. split; [reflexivity|].
    split; [apply Hscore; [reflexivity|discriminate]|].
    split; [apply Hscore; [reflexivity|discriminate]|].
    split; [apply Hscore; [reflexivity|discriminate]|].
    eexists. split; [reflexivity|lia].
Qed.

Lemma trade_secrets_well_formed (ticker segment_name segment_lower : string)
    (a : IPAsset) :
  In a (Discovery._create_trade_secrets ticker segment_name segment_lower) ->
  well_formed_asset a /\ map name (related_segments a) = [segment_name].
Proof.
  unfold Discovery._create_trade_secrets.
  destruct (Discovery.any_in _ segment_lower); [|intros []].
  intros [<-|[]]. split; [|reflexivity]. unfold well_formed_asset.
  cbn [related_segments royalty_rate total_patent_life valuation_method type
       Discovery.one_segment].
  split; [discriminate|].
  split; [constructor; [split; [reflexivity|discriminate]|constructor]|].
  split; [reflexivity|]. split; [discriminate|]. split; [reflexivity|].
  left. split; [reflexivity|now right].
Qed.

Lemma generated_well_formed (ticker segment_name segment_lower : string) (a : IPAsset) :
  In a (Discovery._generate_segment_ip ticker segment_name segment_lower) ->
  well_formed_asset a /\ map name (related_segments a) = [segment_name].
Proof.
  unfold Discovery._generate_segment_ip. cbn zeta.
  intros Hin.
  repeat match type of Hin with
         | In _ (if ?b then _ else _) => destruct b
         | In _ (_ ++ _)%list => apply in_app_or in Hin; destruct Hin as [Hin|Hin]
         end;
    try (destruct Hin as [<-|[]]; apply trademark_well_formed);
    try (now apply technology_patents_well_formed in Hin);
    try (now apply trade_secrets_well_formed in Hin);
    try contradiction.
Qed.

Lemma generated_count (ticker segment_name segment_lower : string) :
  (List.length (Discovery._generate_segment_ip ticker segment_name segment_lower) <= 4)%nat.
Proof.
  unfold Discovery._generate_segment_ip, Discovery._create_technology_patents,
    Discovery._create_trade_secrets. cbn zeta.
  repeat match goal with
         | |- context [if ?b then _ else _] => destruct b
         end; cbn; lia.
Qed.

(** X15: every asset [discover_ip_assets] suggests is tied to exactly one
    of the given segments and is well formed: an attribution in (0, 0.30], a
    royalty rate in (0, 0.08], a legal life of 20 years, and a valuation
    method the engine knows, with all the scores and a remaining life of
    at most the legal life when that method is Technology Factor.  At most
    four assets are suggested per segment. *)
Theorem discover_ip_assets_well_formed (ticker : string) (segments : list string) :
  (List.length (Discovery.discover_ip_assets ticker segments)
   <= 4 * List.length segments)%nat
  /\ forall a,
       In a (Discovery.discover_ip_assets ticker segments) ->
       well_formed_asset a
       /\ recognized (valuation_method a) = true
       /\ exists segment,
            In segment segments /\ map name (related_segments a) = [segment].
Proof.
  unfold Discovery.discover_ip_assets. split.
  - induction segments as [|segment rest IH]; [simpl; lia|].
    cbn [flat_map List.length]. rewrite length_app.
    pose proof (generated_count ticker segment (normalize segment)). lia.
  - intros a Hin. apply in_flat_map in Hin. destruct Hin as (segment & Hseg & Hin).
    apply generated_well_formed in Hin. destruct Hin as [Hwf Hname].
    split; [exact Hwf|]. split; [|now exists segment].
    destruct Hwf as (_ & _ & _ & _ & _ & [[-> _]|[-> _]]); reflexivity.
Qed.

Lemma discover_ip_assets_well_formed_witness :
  In (Discovery._create_trademark "AAPL" "iPhone" "iphone")
     (Discovery.discover_ip_assets "AAPL" ["iPhone"; "Services"])
  /\ well_formed_asset (Discovery._create_trademark "AAPL" "iPhone" "iphone")
  /\ recognized (valuation_method (Discovery._create_trademark "AAPL" "iPhone" "iphone"))
     = true
  /\ exists segment,
       In segment ["iPhone"; "Services"]
       /\ map name (related_segments (Discovery._create_trademark "AAPL" "iPhone" "iphone"))
          = [segment].
Proof.
  assert (Hin : In (Discovery._create_trademark "AAPL" "iPhone" "iphone")
                   (Discovery.discover_ip_assets "AAPL" ["iPhone"; "Services"]))
    by (left; reflexivity).
  split; [exact Hin|].
  exact (proj2 (discover_ip_assets_well_formed "AAPL" ["iPhone"; "Services"]) _ Hin).
Defined.

(** What is suggested for "iPhone" and for "Services". *)
Example discover_ip_assets_example :
  map id (Discovery.discover_ip_assets "AAPL" ["iPhone"; "Cloud Services"])
  = ["TM-IPHONE-001"; "PAT-IPHONE-CORE-001"; "PAT-IPHONE-DESIGN-001";
     "TS-CLOUD SERVICES-001"].
Proof. reflexivity. Qed.

Lemma shared_segments_attribution (k : Q) (segments : list string) :
  0 < k -> k <= 0.30 ->
  Forall (fun s => 0 < attribution_pct s /\ attribution_pct s <= 0.30)
    (map (fun seg => {| name := seg; attribution_pct := k |}) segments)
  /\ map name (map (fun seg => {| name := seg; attribution_pct := k |}) segments)
     = segments.
Proof.
  intros H0 H1. split.
  - apply Forall_forall. intros s Hin. apply in_map_iff in Hin.
    destruct Hin as (seg & <- & _). now split.
  - rewrite map_map. cbn [name]. apply map_id.
Qed.

(** X16: [suggest_shared_ip] suggests nothing unless at least two of the
    segments are hardware segments (their lower-cased name contains
    "phone", "pad", "mac" or "watch"); otherwise it suggests exactly a chip
    patent (Technology Factor) and an operating-system trade secret (Relief
    from Royalty), both well formed and both related to exactly the
    hardware segments, in their input order. *)
Theorem suggest_shared_ip_outcome (segments : list string) :
  match Discovery.suggest_shared_ip segments with
  | [] => (List.length (filter is_hardware segments) < 2)%nat
  | [chip; os] =>
      (2 <= List.length (filter is_hardware segments))%nat
      /\ well_formed_asset chip /\ well_formed_asset os
      /\ valuation_method chip = "technology_factor"
      /\ valuation_method os = "relief_from_royalty"
      /\ map name (related_segments chip) = filter is_hardware segments
      /\ map name (related_segments os) = filter is_hardware segments
  | _ => False
  end.
Proof.
  unfold Discovery.suggest_shared_ip. fold is_hardware.
  destruct (Z.leb_spec 2 (len (filter is_hardware segments))) as [H|H];
    unfold len in H; [|lia].
  assert (Hne : filter is_hardware segments <> [])
    by (destruct (filter is_hardware segments); [simpl in H; lia|discriminate]).
  assert (Hscore : forall x : Q, 0 < x -> x <= 1 -> unit_score (Some x))
    by (intros x H0 H1; now exists x).
  destruct (shared_segments_attribution 0.12 (filter is_hardware segments))
    as [Hchip Hchip_names]; [reflexivity|discriminate|].
  destruct (shared_segments_attribution 0.10 (filter is_hardware segments))
    as [Hos Hos_names]; [reflexivity|discriminate|].
  split; [lia|].
  unfold well_formed_asset.
  cbn [related_segments royalty_rate total_patent_life valuation_method type
       innovation_score commercial_score legal_strength_score remaining_life_years].
  assert (Hmap : forall k,
             map (fun seg => {| name := seg; attribution_pct := k |})
               (filter is_hardware segments) <> []).
  { intros k E. apply map_eq_nil in E. contradiction. }
  repeat split; try assumption; try apply Hmap; try reflexivity; try discriminate.
  - right. split; [reflexivity|]. split; [reflexivity|].
    split; [apply Hscore; [reflexivity|discriminate]|].
    split; [apply Hscore; [reflexivity|discriminate]|].
    split; [apply Hscore; [reflexivity|discriminate]|].
    eexists. split; [reflexivity|lia].
  - left. split; [reflexivity|now right].
Qed.

Example suggest_shared_ip_example :
  map id (Discovery.suggest_shared_ip ["iPhone"; "Services"; "Mac"])
  = ["PAT-CHIP-SHARED-001"; "TS-OS-SHARED-001"]
  /\ Discovery.suggest_shared_ip ["iPhone"; "Services"] = [].
Proof. split; reflexivity. Qed.

(** X17: [estimate_attribution] always answers with a fraction between 10%
    and 30%, and [suggest_royalty_rate] with a rate between 3% and 16%,
    whatever the IP type, segment or industry given. *)
Theorem suggested_rates_bounded (segment_name ip_type : string)
    (industry : option string) :
  0.10 <= Discovery.estimate_attribution segment_name ip_type
  /\ Discovery.estimate_attribution segment_name ip_type <= 0.30
  /\ 0.03 <= Discovery.suggest_royalty_rate ip_type industry
  /\ Discovery.suggest_royalty_rate ip_type industry <= 0.16.
Proof.
  split; [|split].
  - unfold Discovery.estimate_attribution.
    repeat match goal with
           | |- context [if ?b then _ else _] => destruct b
           end; discriminate.
  - unfold Discovery.estimate_attribution.
    repeat match goal with
           | |- context [if ?b then _ else _] => destruct b
           end; discriminate.
  - unfold Discovery.suggest_royalty_rate. cbn zeta.
    assert (Hbase : exists b,
               Discovery.dict_get
                 [("patent", 0.05); ("trademark", 0.06); ("copyright", 0.08);
                  ("trade_secret", 0.08); ("design", 0.03)] ip_type 0.05 = b
               /\ 0.03 <= b /\ b <= 0.08).
    { cbn [Discovery.dict_get].
      repeat match goal with
             | |- context [if ?b then _ else _] => destruct b
             end; eexists; (split; [reflexivity|]); split; discriminate. }
    destruct Hbase as (b & -> & Hlo & Hhi).
    destruct industry as [[|c industry]|]; [split; lra| |split; lra].
    repeat match goal with
           | |- context [if ?b then _ else _] => destruct b
           end; split; lra.
Qed.

(** ** Well-formed assets are always valued *)

Lemma scan_periods_length (periods : list PeriodData) (segment_name_lower : string) :
  (List.length (scan_periods periods segment_name_lower) <= List.length periods)%nat.
Proof.
  induction periods as [|period_data rest IH]; [reflexivity|].
  cbn [scan_periods List.length].
  destruct (find_item _ _); cbn [List.length]; lia.
Qed.

(** A computed profile has at least one revenue, and at most one for each
    period the data source reports. *)
Lemma compute_revenues_nonempty (client : Client) (ticker segment_name : string)
    (years : Z) (data : SegmentData) :
  compute_segment_financials client ticker segment_name years = Ok data ->
  revenues data <> []
  /\ (List.length (revenues data)
      <= List.length (get_list (get_segmented_revenues client ticker years)))%nat.
Proof.
  unfold compute_segment_financials.
  destruct (falsy _ || falsy _); [discriminate|].
  pose proof (scan_periods_length
                (get_list (get_segmented_revenues client ticker years))
                (normalize segment_name)) as Hlen.
  destruct (scan_periods _ _) as [|rev revs]; [discriminate|].
  destruct (segment_allocation_loop _ _) as [alloc|e]; cbn [bind]; [|discriminate].
  destruct (margin_loop _ _ _) as [[gpm gps]|e]; cbn [bind]; [|discriminate].
  destruct (margin_loop _ _ _) as [[opm ops]|e]; cbn [bind]; [|discriminate].
  intros [= <-]. cbn [revenues]. split; [discriminate|exact Hlen].
Qed.

Lemma prepare_keeps_cache_sound (client : Client) (ticker segment_name : string)
    (years : Z) (periods : nat) (cache cache' : Cache) (r : result SegmentData) :
  cache_sound periods cache ->
  (List.length (get_list (get_segmented_revenues client ticker years)) <= periods)%nat ->
  prepare_segment_financials client ticker segment_name years cache = (r, cache') ->
  cache_sound periods cache'
  /\ match r with
     | Ok data => revenues data <> [] /\ (List.length (revenues data) <= periods)%nat
     | Raise _ => True
     end.
Proof.
  intros Hsound Hclient. unfold prepare_segment_financials.
  destruct (cache_get cache (make_cache_key ticker segment_name years))
    as [cached|] eqn:Ehit.
  - intros [= <- <-]. split; [exact Hsound|]. now apply Hsound in Ehit.
  - destruct (compute_segment_financials client ticker segment_name years)
      as [data|e] eqn:Ecomp; intros [= <- <-]; [|now split].
    apply compute_revenues_nonempty in Ecomp. destruct Ecomp as [Hne Hlen].
    assert (Hdata : revenues data <> []
                    /\ (List.length (revenues data) <= periods)%nat)
      by (split; [exact Hne|lia]).
    split; [|exact Hdata].
    intros key d. rewrite cache_get_set.
    destruct (String.eqb _ key); [now intros [= <-]|apply Hsound].
Qed.

Lemma technology_factor_valuation_returns (revs : list Q)
    (base innovation commercial legal : Q) (life total : Z) (t w : Q) :
  total <> 0%Z -> powers_in_range w (List.length revs) = true ->
  exists res,
    technology_factor_valuation revs base innovation commercial legal life total t w
    = Ok res.
Proof.
  intros Htotal Hw. unfold technology_factor_valuation.
  rewrite pydiv_ok by (intros E; apply Htotal; now apply inject_Z_zero).
  cbn [bind].
  set (adj := base * (1 + _)).
  destruct (Z_le_gt_dec life 0) as [Hle|Hgt].
  - replace (Z.to_nat (Z.min (len revs) life)) with 0%nat by lia.
    cbn. now eexists.
  - destruct (tf_years_ledger revs adj life t w (Z.to_nat (Z.min (len revs) life))
                ltac:(lia) 0%nat 0 [])
      as (acc & new & Hrun & _);
      [apply (powers_in_range_le w (List.length revs)); [exact Hw|unfold len; lia]
      |unfold len; lia|].
    change (Z.of_nat 0 + 1)%Z with 1%Z in Hrun.
    rewrite Hrun. cbn [bind]. now eexists.
Qed.

Lemma well_formed_method_returns (ip_asset : IPAsset) (s : RelatedSegment)
    (data : SegmentData) (w t g : Q) :
  well_formed_asset ip_asset -> revenues data <> [] -> g < w ->
  powers_in_range w (List.length (revenues data)) = true ->
  exists res, segment_method_result ip_asset s data w t g = Ok res.
Proof.
  intros (_ & _ & _ & _ & Htotal & Hmethod) Hrevs Hgw Hw.
  unfold segment_method_result, select_valuation_method.
  destruct Hmethod as [[-> _]|[-> _]]; cbn [String.eqb Ascii.eqb Bool.eqb].
  - destruct (relief_from_royalty_returns
                (map (fun rev => rev * attribution_pct s) (revenues data))
                (royalty_rate ip_asset) t w 1 g) as (res & _ & Hrun & _).
    + intros E. apply map_eq_nil in E. contradiction.
    + intros E. lra.
    + now rewrite length_map.
    + now exists res.
  - apply technology_factor_valuation_returns;
      [rewrite Htotal; discriminate|now rewrite length_map].
Qed.

Lemma value_segments_well_formed (client : Client) (ticker : string)
    (ip_asset : IPAsset) (w t g : Q) (years : Z) (periods : nat)
    (segs : list RelatedSegment) :
  well_formed_asset ip_asset -> g < w -> powers_in_range w periods = true ->
  (List.length (get_list (get_segmented_revenues client ticker years)) <= periods)%nat ->
  forall (total : Q) (vals : list SegmentValuation) (cache : Cache),
  cache_sound periods cache ->
  exists out cache',
    value_segments client ticker ip_asset w t g years segs total vals cache
    = (Ok out, cache')
    /\ cache_sound periods cache'.
Proof.
  intros Hwf Hgw Hw Hclient.
  induction segs as [|s rest IH]; intros total vals cache Hsound.
  - now exists (total, vals), cache.
  - cbn [value_segments].
    destruct (prepare_segment_financials client ticker (name s) years cache)
      as [[data|e] c1] eqn:Eprep;
      destruct (prepare_keeps_cache_sound _ _ _ _ _ _ _ _ Hsound Hclient Eprep)
        as [Hsound1 Hdata];
      [|now apply IH].
    destruct Hdata as [Hdata Hlen].
    destruct (well_formed_method_returns ip_asset s data w t g Hwf Hdata Hgw)
      as (res & Hres); [now apply (powers_in_range_le w periods)|].
    unfold segment_method_result in Hres. rewrite Hres.
    now apply IH.
Qed.

Lemma value_assets_well_formed (client : Client) (ticker : string) (w t g : Q)
    (periods : nat) (ip_portfolio : list IPAsset) :
  Forall well_formed_asset ip_portfolio -> g < w ->
  powers_in_range w periods = true ->
  (List.length (get_list (get_segmented_revenues client ticker 5)) <= periods)%nat ->
  forall (total : Q) (vals : list AssetValuation) (cache : Cache),
  cache_sound periods cache ->
  exists total' new cache',
    value_assets client ticker w t g ip_portfolio total vals cache
    = ((total', (vals ++ new)%list), cache')
    /\ map ip_asset_id new = map id ip_portfolio
    /\ cache_sound periods cache'.
Proof.
  intros Hall Hgw Hw Hclient.
  induction Hall as [|ip_asset rest Hwf _ IH]; intros total vals cache Hsound.
  - exists total, [], cache. now rewrite app_nil_r.
  - cbn [value_assets]. unfold value_ip_asset.
    destruct (value_segments_well_formed client ticker ip_asset w t g 5 periods
                (related_segments ip_asset) Hwf Hgw Hw Hclient 0 [] cache Hsound)
      as ([tot segvals] & c1 & Hrun & Hsound1).
    rewrite Hrun.
    match goal with
    | |- exists _ _ _, value_assets _ _ _ _ _ _ ?tt ?vv _ = _ /\ _ =>
        destruct (IH tt vv c1 Hsound1) as (total' & new & c' & Hrest & Hids & Hsound')
    end.
    eexists total', (_ :: new), c'.
    split; [rewrite Hrest, <- app_assoc; reflexivity|].
    split; [cbn [map ip_asset_id]; now rewrite Hids|exact Hsound'].
Qed.

(** X18: when the data source reports at most [periods] periods for the
    ticker (and the cache holds no longer profile), the WACC is above the
    terminal growth and its discount factors [(1 + WACC) ** year] of the
    years [1..periods] are finite non-zero binary64 numbers, a portfolio of
    well-formed assets (such as the discovery component builds) is valued in
    full: no asset is skipped, whatever else the data source returns; the
    valuations come in the order of the portfolio. *)
Theorem well_formed_portfolio_fully_valued (client : Client) (ticker : string)
    (ip_portfolio : list IPAsset) (w t g : Q) (periods : nat) (cache : Cache) :
  Forall well_formed_asset ip_portfolio -> cache_sound periods cache ->
  (List.length (get_list (get_segmented_revenues client ticker 5)) <= periods)%nat ->
  g < w -> powers_in_range w periods = true ->
  exists portfolio cache',
    value_ip_portfolio client ticker ip_portfolio w t g cache = (Ok portfolio, cache')
    /\ map ip_asset_id (asset_valuations portfolio) = map id ip_portfolio
    /\ asset_count portfolio = len ip_portfolio
    /\ cache_sound periods cache'.
Proof.
  intros Hall Hsound Hclient Hgw Hw. unfold value_ip_portfolio.
  destruct (value_assets_well_formed client ticker w t g periods ip_portfolio
              Hall Hgw Hw Hclient 0 [] cache Hsound)
    as (total & new & cache' & Hrun & Hids & Hsound').
  rewrite Hrun. cbn [app].
  eexists. eexists. split; [reflexivity|].
  cbn [asset_valuations asset_count].
  split; [exact Hids|]. split; [|exact Hsound'].
  unfold len. f_equal.
  rewrite <- (length_map ip_asset_id new), Hids. apply length_map.
Qed.

Lemma well_formed_portfolio_fully_valued_witness :
  let portfolio := Discovery.discover_ip_assets "ACME" ["Devices"; "Cloud Services"] in
  (Forall well_formed_asset portfolio /\ cache_sound 5 []
   /\ (List.length (get_list (get_segmented_revenues Fixture.client "ACME" 5)) <= 5)%nat
   /\ 0.02 < 0.10 /\ powers_in_range 0.10 5 = true)
  /\ exists valued cache',
       value_ip_portfolio Fixture.client "ACME" portfolio 0.10 0.21 0.02 []
       = (Ok valued, cache')
       /\ map ip_asset_id (asset_valuations valued) = map id portfolio
       /\ asset_count valued = len portfolio
       /\ cache_sound 5 cache'.
Proof.
  intros portfolio.
  assert (Hwf : Forall well_formed_asset portfolio).
  { apply Forall_forall. intros a Hin.
    apply in_flat_map in Hin. destruct Hin as (segment & _ & Hin).
    now apply generated_well_formed in Hin. }
  assert (Hsound : cache_sound 5 []) by (intros key data; discriminate).
  assert (Hclient :
            (List.length (get_list (get_segmented_revenues Fixture.client "ACME" 5))
             <= 5)%nat) by (vm_compute; lia).
  assert (Hw : powers_in_range 0.10 5 = true) by (vm_compute; reflexivity).
  split; [split; [exact Hwf|]; split; [exact Hsound|]; split; [exact Hclient|];
          split; [reflexivity|exact Hw]|].
  apply (well_formed_portfolio_fully_valued Fixture.client "ACME" portfolio
           0.10 0.21 0.02 5 [] Hwf Hsound Hclient); [reflexivity|exact Hw].
Defined.

(** ** The fair-value cross-check *)

Lemma growth_loop_returns (income_data : list FairValue.IncomeStatement)
    (growth_rates : list Q) :
  exists l, FairValue.growth_loop income_data growth_rates = Ok l.
Proof.
  revert growth_rates.
  induction income_data as [|current rest IH]; intros growth_rates.
  - now exists growth_rates.
  - destruct rest as [|prior rest]; [now exists growth_rates|].
    cbn [FairValue.growth_loop].
    destruct (Qgtb (get (FairValue.revenue prior) 0) 0) eqn:E; [|apply IH].
    apply Qgtb_true in E.
    rewrite pydiv_ok by lra. cbn [bind].
    destruct (_ && _); apply IH.
Qed.

Lemma estimate_growth_rate_outcome (financial_data : FairValue.FinancialData) :
  exists rate,
    FairValue._estimate_growth_rate financial_data = Ok rate
    /\ -0.20 <= rate /\ rate <= 0.50.
Proof.
  unfold FairValue._estimate_growth_rate.
  destruct (len (get_list (FairValue.income financial_data)) <? 2)%Z.
  - exists 0.05. split; [reflexivity|]. split; discriminate.
  - destruct (growth_loop_returns (get_list (FairValue.income financial_data)) [])
      as (rates & ->). cbn [bind].
    destruct rates as [|r rates].
    + exists 0.05. split; [reflexivity|]. split; discriminate.
    + rewrite pydiv_ok by apply len_pos_cons. cbn [bind].
      eexists. split; [reflexivity|].
      set (avg := pysum (r :: rates) / inject_Z (len (r :: rates))).
      destruct (pymax_bounds avg (-0.20)) as (Hlo & _ & _).
      destruct (pymin_bounds (pymax avg (-0.20)) 0.50) as (Hhi & _ & _).
      split; [|exact Hhi].
      unfold pymin. destruct (Qltb 0.50 (pymax avg (-0.20))); [discriminate|exact Hlo].
Qed.

(** X19: [_estimate_growth_rate] returns on every input, and the growth
    rate it returns lies between -20% and +50%. *)
Theorem estimate_growth_rate_bounded (financial_data : FairValue.FinancialData) :
  exists rate,
    FairValue._estimate_growth_rate financial_data = Ok rate
    /\ -0.20 <= rate /\ rate <= 0.50.
Proof. apply estimate_growth_rate_outcome. Qed.

Lemma free_cash_flow_some (fd : FairValue.FinancialData) (fcf : Q) :
  free_cash_flow fd = Some fcf ->
  exists latest_cf cfs latest_bs bss,
    get_list (FairValue.cashflow fd) = latest_cf :: cfs
    /\ get_list (FairValue.balance fd) = latest_bs :: bss
    /\ fcf = get (FairValue.operating_cash_flow latest_cf) 0
             + get (FairValue.capital_expenditures latest_cf) 0
    /\ latest_balance fd
       = (get (FairValue.total_debt latest_bs) 0,
          get (FairValue.cash_and_equivalents latest_bs) 0,
          get (FairValue.outstanding_shares latest_bs) 0).
Proof.
  unfold free_cash_flow, latest_balance.
  destruct (get_list (FairValue.cashflow fd)) as [|latest_cf cfs]; [discriminate|].
  destruct (get_list (FairValue.balance fd)) as [|latest_bs bss]; [discriminate|].
  intros [= <-]. now exists latest_cf, cfs, latest_bs, bss.
Qed.

(** The projection of the cash flows over the years [k+1 .. k+n]: it
    raises [OverflowError] when a growth factor overflows and returns
    otherwise, with the exact projections when no growth factor is rounded to
    zero. *)
Lemma projection_loop_outcome (fcf gr : Q) (n k : nat) (acc : list Q) :
  match FairValue.projection_loop fcf gr (map Z.of_nat (seq (S k) n)) acc with
  | Ok projected =>
      forallb (fun year => is_finite ((1 + gr) ^ Z.of_nat year)) (seq (S k) n) = true
      /\ List.length projected = (List.length acc + n)%nat
      /\ (forallb (fun year => in_float_range ((1 + gr) ^ Z.of_nat year)) (seq (S k) n)
          = true ->
          projected
          = (acc ++ map (fun year => fcf * (1 + gr) ^ Z.of_nat year) (seq (S k) n))%list)
  | Raise e =>
      e = OverflowError
      /\ forallb (fun year => is_finite ((1 + gr) ^ Z.of_nat year)) (seq (S k) n) = false
  end.
Proof.
  revert k acc. induction n as [|n IH]; intros k acc.
  - cbn. split; [reflexivity|]. split; [lia|]. intros _. now rewrite app_nil_r.
  - cbn [seq map FairValue.projection_loop forallb].
    pose proof (pypow_outcome (1 + gr) (Z.of_nat (S k)) ltac:(lia)) as Hpow.
    destruct (pypow (1 + gr) (Z.of_nat (S k))) as [p|e]; cbn [bind].
    + specialize (IH (S k) (acc ++ [fcf * p])%list).
      destruct (FairValue.projection_loop fcf gr (map Z.of_nat (seq (S (S k)) n))
                  (acc ++ [fcf * p])) as [projected|e].
      * destruct IH as (Hfin & Hlen & Hexact).
        assert (Hf : is_finite ((1 + gr) ^ Z.of_nat (S k)) = true).
        { destruct Hpow as [[Hr _]|[_ [Hf _]]];
            [now apply in_float_range_finite|exact Hf]. }
        split; [now rewrite Hf, Hfin|].
        split; [rewrite Hlen, length_app; cbn [List.length]; lia|].
        intros Hr. apply andb_true_iff in Hr. destruct Hr as [Hr Hrest].
        destruct Hpow as [[_ ->]|[Hr' _]]; [|congruence].
        rewrite (Hexact Hrest), <- app_assoc. reflexivity.
      * destruct IH as [-> Hfin]. split; [reflexivity|].
        rewrite Hfin. apply andb_false_r.
    + destruct Hpow as [-> Hnf]. split; [reflexivity|]. now rewrite Hnf.
Qed.

(** The discounting of the projected cash flows over the years
    [k+1 .. k+n]: it returns when every discount factor is a finite non-zero
    number, raises [OverflowError] at a discount factor that overflows and
    [ZeroDivisionError] at one that is zero. *)
Lemma pv_loop_outcome (w : Q) (cfs : list Q) (k : nat) (acc : Q) :
  match FairValue.pv_loop w cfs (Z.of_nat k + 1) acc with
  | Ok pv =>
      forallb (fun year => in_float_range ((1 + w) ^ Z.of_nat year))
        (seq (S k) (List.length cfs)) = true
      /\ pv == acc + discounted w (fun cf => cf) cfs (Z.of_nat k + 1)
  | Raise e =>
      e = OverflowError
      /\ forallb (fun year => is_finite ((1 + w) ^ Z.of_nat year))
           (seq (S k) (List.length cfs)) = false
      \/ e = ZeroDivisionError
         /\ forallb (fun year => in_float_range ((1 + w) ^ Z.of_nat year))
              (seq (S k) (List.length cfs)) = false
  end.
Proof.
  revert k acc. induction cfs as [|cf rest IH]; intros k acc.
  - cbn. split; [reflexivity|]. ring.
  - cbn [FairValue.pv_loop discounted List.length seq forallb].
    replace (Z.of_nat k + 1)%Z with (Z.of_nat (S k)) by lia.
    pose proof (pypow_outcome (1 + w) (Z.of_nat (S k)) ltac:(lia)) as Hpow.
    destruct (pypow (1 + w) (Z.of_nat (S k))) as [p|e]; cbn [bind].
    + destruct Hpow as [[Hr ->]|[Hr [Hf ->]]].
      * rewrite pydiv_ok by now apply in_float_range_nonzero. cbn [bind].
        specialize (IH (S k) (acc + cf / (1 + w) ^ Z.of_nat (S k))).
        destruct (FairValue.pv_loop w rest (Z.of_nat (S k) + 1)
                    (acc + cf / (1 + w) ^ Z.of_nat (S k))) as [pv|e].
        -- destruct IH as [Hrest Hpv]. split; [now rewrite Hr, Hrest|].
           rewrite Hpv. ring.
        -- destruct IH as [[-> Hrest]|[-> Hrest]]; [left|right];
             (split; [reflexivity|]); rewrite Hrest; apply andb_false_r.
      * rewrite pydiv_zero by reflexivity. cbn [bind].
        right. split; [reflexivity|]. now rewrite Hr.
    + destruct Hpow as [-> Hnf]. left. split; [reflexivity|]. now rewrite Hnf.
Qed.

(** What [_dcf_valuation] does on a positive free cash flow. *)
Lemma dcf_valuation_run (fd : FairValue.FinancialData) (fcf gr tg w : Q) :
  free_cash_flow fd = Some fcf -> 0 < fcf ->
  match FairValue._dcf_valuation fd gr tg w with
  | Ok (FairValue.DCF ev equity fv pv pt projected) =>
      powers_finite gr 5 = true /\ powers_in_range w 5 = true /\ ~ w == tg
      /\ equity = ev - fst (fst (latest_balance fd)) + snd (fst (latest_balance fd))
      /\ ev = pv + pt
      /\ (powers_in_range gr 5 = true ->
          projected = map (fun year => fcf * (1 + gr) ^ year) [1; 2; 3; 4; 5]%Z
          /\ ev == dcf_enterprise_value fcf gr tg w)
      /\ (0 < snd (latest_balance fd) -> fv = equity / snd (latest_balance fd))
      /\ (snd (latest_balance fd) <= 0 -> fv = 0)
  | Ok _ => False
  | Raise e =>
      e = OverflowError /\ (powers_finite gr 5 = false \/ powers_finite w 5 = false)
      \/ e = ZeroDivisionError
         /\ powers_finite gr 5 = true
         /\ (powers_in_range w 5 = false \/ w == tg)
  end.
Proof.
  intros Hfcf Hpos.
  destruct (free_cash_flow_some fd fcf Hfcf)
    as (latest_cf & cfs & latest_bs & bss & Hcf & Hbs & Efcf & Hbal).
  unfold FairValue._dcf_valuation. rewrite Hcf, Hbs, Hbal, <- Efcf.
  cbn [fst snd].
  assert (Hle : Qle_bool fcf 0 = false).
  { destruct (Qle_bool fcf 0) eqn:E; [|reflexivity]. apply Qle_bool_iff in E. lra. }
  rewrite Hle.
  change [1; 2; 3; 4; 5]%Z with (map Z.of_nat (seq 1 5)) at 1.
  pose proof (projection_loop_outcome fcf gr 5 0 []) as Hproj.
  destruct (FairValue.projection_loop fcf gr (map Z.of_nat (seq 1 5)) [])
    as [projected|e]; cbn [bind].
  2:{ destruct Hproj as [-> Hnf]. left. split; [reflexivity|]. now left. }
  destruct Hproj as (Hfin & Hlen & Hexact). cbn [List.length Nat.add] in Hlen.
  pose proof (pv_loop_outcome w projected 0 0) as Hpv.
  change (Z.of_nat 0 + 1)%Z with 1%Z in Hpv. rewrite Hlen in Hpv.
  destruct (FairValue.pv_loop w projected 1 0) as [pv|e]; cbn [bind].
  2:{ destruct Hpv as [[-> Hnf]|[-> Hnr]].
      - left. split; [reflexivity|]. now right.
      - right. split; [reflexivity|]. split; [exact Hfin|]. now left. }
  destruct Hpv as [Hrange Hpvsum].
  assert (Hne : projected <> []) by (intros ->; discriminate).
  rewrite (py_last_nonempty projected 0 Hne). cbn [bind].
  destruct (Qeq_dec w tg) as [Hwg|Hwg].
  { rewrite pydiv_zero by lra. cbn [bind].
    right. split; [reflexivity|]. split; [exact Hfin|]. now right. }
  rewrite pydiv_ok by (intros E; apply Hwg; lra). cbn [bind].
  destruct (powers_in_range_pypow w 5 5 Hrange ltac:(lia)) as [Hp5 Hnz5].
  change (Z.of_nat 5) with 5%Z in Hp5, Hnz5.
  rewrite Hp5. cbn [bind]. rewrite pydiv_ok by exact Hnz5. cbn [bind].
  assert (Hvalue : powers_in_range gr 5 = true ->
            projected = map (fun year => fcf * (1 + gr) ^ year) [1; 2; 3; 4; 5]%Z
            /\ pv + last projected 0 * (1 + tg) / (w - tg) / (1 + w) ^ 5
               == dcf_enterprise_value fcf gr tg w).
  { intros Hgr. pose proof (Hexact Hgr) as Hp. cbn [app] in Hp.
    change (map (fun year => fcf * (1 + gr) ^ Z.of_nat year) (seq 1 5))
      with (map (fun year => fcf * (1 + gr) ^ year) [1; 2; 3; 4; 5]%Z) in Hp.
    split; [exact Hp|].
    rewrite Hpvsum, Hp. unfold dcf_enterprise_value.
    cbn [map discounted last sum_years Z.of_nat Pos.of_succ_nat Pos.succ
         Z.add Pos.add Pos.add_carry].
    assert (Hw1 : ~ 1 + w == 0)
      by (apply (powers_in_range_base w 5); [exact Hrange|lia]).
    field. repeat split; try (now apply power_nonzero); intros E; apply Hwg; lra. }
  destruct (Qgtb (get (FairValue.outstanding_shares latest_bs) 0) 0) eqn:Es.
  - apply Qgtb_true in Es. rewrite pydiv_ok by lra. cbn [bind].
    repeat split; try assumption; try (now apply Hvalue).
    intros H. lra.
  - apply Qgtb_false in Es. cbn [bind].
    repeat split; try assumption; try (now apply Hvalue).
    intros H. lra.
Qed.

Lemma dcf_valuation_without_cash_flow (fd : FairValue.FinancialData) (gr tg w : Q) :
  match free_cash_flow fd with
  | None =>
      FairValue._dcf_valuation fd gr tg w
      = Ok (FairValue.Failed "DCF" "Insufficient data")
  | Some fcf =>
      fcf <= 0 ->
      FairValue._dcf_valuation fd gr tg w
      = Ok (FairValue.Failed "DCF" "Negative free cash flow")
  end.
Proof.
  unfold free_cash_flow, FairValue._dcf_valuation.
  destruct (get_list (FairValue.cashflow fd)) as [|latest_cf cfs]; [reflexivity|].
  destruct (get_list (FairValue.balance fd)) as [|latest_bs bss]; [reflexivity|].
  intros Hle. apply Qle_bool_iff in Hle. now rewrite Hle.
Qed.

(** X20: with a cash-flow statement, a balance sheet, a positive free cash
    flow, a WACC other than the terminal growth, and growth factors
    [(1 + growth_rate) ** year] and discount factors [(1 + WACC) ** year] of
    the years 1 to 5 that are finite non-zero binary64 numbers,
    [_dcf_valuation] returns: the enterprise value is (in exact arithmetic)
    the five discounted projected cash flows plus the discounted
    Gordon-growth terminal value, which is also the [total_value] of
    [relief_from_royalty] on the projected cash flows at a royalty of 100%
    without tax; the equity value adds cash and subtracts debt, and the
    value per share is the equity value over the shares, or 0 when no
    positive share count is reported. *)
Theorem dcf_valuation_value (fd : FairValue.FinancialData) (fcf gr tg w : Q) :
  free_cash_flow fd = Some fcf -> 0 < fcf ->
  powers_in_range gr 5 = true -> powers_in_range w 5 = true -> ~ w == tg ->
  exists ev pv pt fv,
    FairValue._dcf_valuation fd gr tg w
    = Ok (FairValue.DCF ev
            (ev - fst (fst (latest_balance fd)) + snd (fst (latest_balance fd)))
            fv pv pt
            (map (fun year => fcf * (1 + gr) ^ year) [1; 2; 3; 4; 5]%Z))
    /\ ev = pv + pt
    /\ ev == dcf_enterprise_value fcf gr tg w
    /\ (exists res,
          relief_from_royalty
            (map (fun year => fcf * (1 + gr) ^ year) [1; 2; 3; 4; 5]%Z) 1 0 w 1 tg
          = Ok res
          /\ total_value res == ev)
    /\ (0 < snd (latest_balance fd) ->
        fv = (ev - fst (fst (latest_balance fd)) + snd (fst (latest_balance fd)))
             / snd (latest_balance fd))
    /\ (snd (latest_balance fd) <= 0 -> fv = 0).
Proof.
  intros Hfcf Hpos Hgr Hw Hwg.
  pose proof (dcf_valuation_run fd fcf gr tg w Hfcf Hpos) as Hrun.
  destruct (FairValue._dcf_valuation fd gr tg w)
    as [[m err|ev equity fv pv pt projected| | | ]|e]; try contradiction.
  2:{ exfalso. apply powers_in_range_finite in Hgr.
      pose proof (powers_in_range_finite w 5 Hw) as Hwf.
      destruct Hrun as [[_ [H|H]]|[_ [_ [H|H]]]]; congruence || contradiction. }
  destruct Hrun as (_ & _ & _ & -> & Hsum & Hval & Hshares & Hnone).
  destruct (Hval Hgr) as [-> Hev].
  exists ev, pv, pt, fv.
  split; [reflexivity|]. split; [exact Hsum|]. split; [exact Hev|].
  split; [|split; assumption].
  destruct (relief_from_royalty_returns
              (map (fun year => fcf * (1 + gr) ^ year) [1; 2; 3; 4; 5]%Z) 1 0 w 1 tg)
    as (res & acc & Hres & _ & Hacc & _ & Htot);
    [discriminate|intros E; apply Hwg; lra|exact Hw|].
  exists res. split; [exact Hres|].
  rewrite Htot, Hacc, Hev. unfold dcf_enterprise_value, len.
  cbn [map discounted last List.length sum_years Z.of_nat Pos.of_succ_nat Pos.succ
       Z.add Pos.add Pos.add_carry].
  assert (Hw1 : ~ 1 + w == 0) by (apply (powers_in_range_base w 5); [exact Hw|lia]).
  field. repeat split; try (now apply power_nonzero); try exact Hw1;
    intros E; apply Hwg; lra.
Qed.

Lemma dcf_valuation_value_witness :
  let fd := {| FairValue.income := EmptyDict;
               FairValue.balance :=
                 WithKey [ {| FairValue.total_debt := Some 100;
                              FairValue.cash_and_equivalents := Some 40;
                              FairValue.outstanding_shares := Some 10 |} ];
               FairValue.cashflow :=
                 WithKey [ {| FairValue.operating_cash_flow := Some 120;
                              FairValue.capital_expenditures := Some (-20) |} ];
               FairValue.metrics := EmptyDict |} in
  (free_cash_flow fd = Some (120 + -20) /\ 0 < 120 + -20
   /\ powers_in_range 0.05 5 = true /\ powers_in_range 0.10 5 = true
   /\ ~ 0.10 == 0.025)
  /\ exists ev pv pt fv,
       FairValue._dcf_valuation fd 0.05 0.025 0.10
       = Ok (FairValue.DCF ev
               (ev - fst (fst (latest_balance fd)) + snd (fst (latest_balance fd)))
               fv pv pt
               (map (fun year => (120 + -20) * (1 + 0.05) ^ year) [1; 2; 3; 4; 5]%Z))
       /\ ev = pv + pt
       /\ ev == dcf_enterprise_value (120 + -20) 0.05 0.025 0.10
       /\ (exists res,
             relief_from_royalty
               (map (fun year => (120 + -20) * (1 + 0.05) ^ year) [1; 2; 3; 4; 5]%Z)
               1 0 0.10 1 0.025 = Ok res
             /\ total_value res == ev)
       /\ (0 < snd (latest_balance fd) ->
           fv = (ev - fst (fst (latest_balance fd)) + snd (fst (latest_balance fd)))
                / snd (latest_balance fd))
       /\ (snd (latest_balance fd) <= 0 -> fv = 0).
Proof.
  intros fd.
  split; [split; [reflexivity|]; split; [reflexivity|];
          split; [vm_compute; reflexivity|]; split; [vm_compute; reflexivity|discriminate]|].
  apply (dcf_valuation_value fd (120 + -20) 0.05 0.025 0.10);
    [reflexivity|reflexivity|vm_compute; reflexivity|vm_compute; reflexivity|discriminate].
Defined.

(** A WACC and a growth rate of 1e200 on the data of the example above. *)
Example dcf_valuation_overflows :
  let fd := {| FairValue.income := EmptyDict;
               FairValue.balance :=
                 WithKey [ {| FairValue.total_debt := Some 100;
                              FairValue.cash_and_equivalents := Some 40;
                              FairValue.outstanding_shares := Some 10 |} ];
               FairValue.cashflow :=
                 WithKey [ {| FairValue.operating_cash_flow := Some 120;
                              FairValue.capital_expenditures := Some (-20) |} ];
               FairValue.metrics := EmptyDict |} in
  FairValue._dcf_valuation fd 0.05 0.025 (10 ^ 200) = Raise OverflowError
  /\ FairValue._dcf_valuation fd (10 ^ 200) 0.025 0.10 = Raise OverflowError
  /\ FairValue._dcf_valuation fd 0.05 0.10 0.10 = Raise ZeroDivisionError.
Proof. repeat split; vm_compute; reflexivity. Qed.

Lemma dcf_valuation_cases (fd : FairValue.FinancialData) (gr tg w : Q) :
  match FairValue._dcf_valuation fd gr tg w with
  | Ok (FairValue.Failed method error) =>
      method = "DCF"
      /\ (error = "Insufficient data" /\ free_cash_flow fd = None
          \/ error = "Negative free cash flow"
             /\ exists fcf, free_cash_flow fd = Some fcf /\ fcf <= 0)
  | Ok (FairValue.DCF _ _ _ _ _ _) =>
      exists fcf,
        free_cash_flow fd = Some fcf /\ 0 < fcf
        /\ powers_finite gr 5 = true /\ powers_in_range w 5 = true /\ ~ w == tg
  | Ok _ => False
  | Raise e =>
      exists fcf,
        free_cash_flow fd = Some fcf /\ 0 < fcf
        /\ (e = OverflowError
            /\ (powers_finite gr 5 = false \/ powers_finite w 5 = false)
            \/ e = ZeroDivisionError
               /\ powers_finite gr 5 = true
               /\ (powers_in_range w 5 = false \/ w == tg))
  end.
Proof.
  pose proof (dcf_valuation_without_cash_flow fd gr tg w) as Hnone.
  destruct (free_cash_flow fd) as [fcf|] eqn:Efcf.
  - destruct (Qlt_le_dec 0 fcf) as [Hpos|Hle].
    + pose proof (dcf_valuation_run fd fcf gr tg w Efcf Hpos) as Hrun.
      destruct (FairValue._dcf_valuation fd gr tg w)
        as [[m err|ev equity fv pv pt projected| | | ]|e]; try contradiction.
      * destruct Hrun as (Hgr & Hw & Hwg & _). now exists fcf.
      * now exists fcf.
    + rewrite (Hnone Hle). split; [reflexivity|]. right. split; [reflexivity|].
      now exists fcf.
  - rewrite Hnone. split; [reflexivity|]. now left.
Qed.

Lemma dcf_valuation_raises (fd : FairValue.FinancialData) (gr tg w : Q) (e : PyError) :
  FairValue._dcf_valuation fd gr tg w = Raise e ->
  e = ZeroDivisionError \/ e = OverflowError.
Proof.
  intros E. pose proof (dcf_valuation_cases fd gr tg w) as H. rewrite E in H.
  destruct H as (fcf & _ & _ & [[-> _]|[-> _]]); auto.
Qed.

(** X21: [_dcf_valuation] reports "Insufficient data" exactly when the
    cash-flow statements or the balance sheets are missing or empty, and
    "Negative free cash flow" exactly when the free cash flow is not
    positive.  With a positive free cash flow it validates neither rate: it
    returns a valuation exactly when no growth factor
    [(1 + growth_rate) ** year] of the years 1 to 5 overflows, every discount
    factor [(1 + WACC) ** year] of these years is a finite non-zero binary64
    number and the WACC differs from the terminal growth; otherwise it
    raises, [OverflowError] only when a growth or discount factor overflows,
    [ZeroDivisionError] only when a discount factor is zero or the WACC
    equals the terminal growth. *)
Theorem dcf_valuation_failures (fd : FairValue.FinancialData) (gr tg w : Q) :
  match FairValue._dcf_valuation fd gr tg w with
  | Ok (FairValue.Failed method error) =>
      method = "DCF"
      /\ (error = "Insufficient data" /\ free_cash_flow fd = None
          \/ error = "Negative free cash flow"
             /\ exists fcf, free_cash_flow fd = Some fcf /\ fcf <= 0)
  | Ok (FairValue.DCF _ _ _ _ _ _) =>
      exists fcf,
        free_cash_flow fd = Some fcf /\ 0 < fcf
        /\ powers_finite gr 5 = true /\ powers_in_range w 5 = true /\ ~ w == tg
  | Ok _ => False
  | Raise e =>
      exists fcf,
        free_cash_flow fd = Some fcf /\ 0 < fcf
        /\ (e = OverflowError
            /\ (powers_finite gr 5 = false \/ powers_finite w 5 = false)
            \/ e = ZeroDivisionError
               /\ powers_finite gr 5 = true
               /\ (powers_in_range w 5 = false \/ w == tg))
  end.
Proof. apply dcf_valuation_cases. Qed.

Lemma Qle_bool_false (x y : Q) : Qle_bool x y = false <-> y < x.
Proof.
  split.
  - intros E. apply Qnot_le_lt. intros H. apply Qle_bool_iff in H. congruence.
  - intros H. destruct (Qle_bool x y) eqn:E; [|reflexivity].
    apply Qle_bool_iff in E. lra.
Qed.

Lemma pe_valuation_outcome (fd : FairValue.FinancialData) (ticker : string) :
  exists v,
    FairValue._pe_valuation fd ticker = Ok v
    /\ (is_failed v = true
        \/ exists eps pe,
             v = FairValue.PEMultiple eps pe (eps * pe)
             /\ 0 < eps /\ 0 < pe /\ pe <= 100).
Proof.
  unfold FairValue._pe_valuation.
  destruct (get_list (FairValue.income fd)) as [|latest_income incs];
    [eexists; split; [reflexivity|now left]|].
  destruct (get_list (FairValue.balance fd)) as [|latest_bs bss];
    [eexists; split; [reflexivity|now left]|].
  destruct (Qle_bool (get (FairValue.outstanding_shares latest_bs) 0) 0) eqn:Es;
    cbn [orb]; [eexists; split; [reflexivity|now left]|].
  destruct (Qle_bool (get (FairValue.net_income latest_income) 0) 0) eqn:En;
    [eexists; split; [reflexivity|now left]|].
  apply Qle_bool_false in Es. apply Qle_bool_false in En.
  rewrite pydiv_ok by lra. cbn [bind].
  eexists. split; [reflexivity|]. right.
  eexists. eexists. split; [reflexivity|].
  split; [now apply div_pos|].
  destruct (match FairValue.metrics fd with
            | WithKey snapshot => FairValue.price_to_earnings_ratio snapshot
            | _ => None
            end) as [pe|]; [|split; [reflexivity|discriminate]].
  destruct (negb (Qeq_bool pe 0)); cbn [andb]; [|split; [reflexivity|discriminate]].
  destruct (Qltb 0 pe) eqn:E0; cbn [andb]; [|split; [reflexivity|discriminate]].
  destruct (Qltb pe 100) eqn:E1; [|split; [reflexivity|discriminate]].
  apply Qltb_true in E0. apply Qltb_true in E1. split; lra.
Qed.

Lemma ps_valuation_outcome (fd : FairValue.FinancialData) (ticker : string) :
  exists v,
    FairValue._ps_valuation fd ticker = Ok v
    /\ (is_failed v = true
        \/ exists rps, v = FairValue.PSMultiple rps 3.0 (rps * 3.0) /\ 0 < rps).
Proof.
  unfold FairValue._ps_valuation.
  destruct (get_list (FairValue.income fd)) as [|latest_income incs];
    [eexists; split; [reflexivity|now left]|].
  destruct (get_list (FairValue.balance fd)) as [|latest_bs bss];
    [eexists; split; [reflexivity|now left]|].
  destruct (Qle_bool (get (FairValue.outstanding_shares latest_bs) 0) 0) eqn:Es;
    cbn [orb]; [eexists; split; [reflexivity|now left]|].
  destruct (Qle_bool (get (FairValue.revenue latest_income) 0) 0) eqn:En;
    [eexists; split; [reflexivity|now left]|].
  apply Qle_bool_false in Es. apply Qle_bool_false in En.
  rewrite pydiv_ok by lra. cbn [bind].
  eexists. split; [reflexivity|]. right.
  eexists. split; [reflexivity|]. now apply div_pos.
Qed.

Lemma ev_ebitda_valuation_outcome (fd : FairValue.FinancialData) (ticker : string) :
  exists v,
    FairValue._ev_ebitda_valuation fd ticker = Ok v
    /\ (is_failed v = true
        \/ exists ebitda fv,
             v = FairValue.EVEBITDA ebitda 12 (ebitda * 12) fv /\ 0 < ebitda).
Proof.
  unfold FairValue._ev_ebitda_valuation.
  destruct (get_list (FairValue.income fd)) as [|latest_income incs];
    [eexists; split; [reflexivity|now left]|].
  destruct (get_list (FairValue.balance fd)) as [|latest_bs bss];
    [eexists; split; [reflexivity|now left]|].
  destruct (Qle_bool (get (FairValue.operating_income latest_income) 0) 0) eqn:Ee;
    [eexists; split; [reflexivity|now left]|].
  apply Qle_bool_false in Ee.
  destruct (Qgtb (get (FairValue.outstanding_shares latest_bs) 0) 0) eqn:Es.
  - apply Qgtb_true in Es. rewrite pydiv_ok by lra. cbn [bind].
    eexists. split; [reflexivity|]. right. eexists. eexists. now split.
  - cbn [bind]. eexists. split; [reflexivity|]. right. eexists. eexists. now split.
Qed.

(** X22: the three multiple-based valuations return on every input.  When
    they do not report an error, the P/E value per share is the earnings
    per share times a positive multiple of at most 100, the P/S value is
    three times the positive revenue per share (both values are positive),
    and the EV/EBITDA enterprise value is twelve times a positive EBITDA. *)
Theorem multiple_valuations_outcome (fd : FairValue.FinancialData) (ticker : string) :
  (exists v,
     FairValue._pe_valuation fd ticker = Ok v
     /\ (is_failed v = true
         \/ (0 < FairValue.fair_value_of v
             /\ exists eps pe,
                  v = FairValue.PEMultiple eps pe (eps * pe)
                  /\ 0 < eps /\ 0 < pe /\ pe <= 100)))
  /\ (exists v,
        FairValue._ps_valuation fd ticker = Ok v
        /\ (is_failed v = true
            \/ (0 < FairValue.fair_value_of v
                /\ exists rps, v = FairValue.PSMultiple rps 3.0 (rps * 3.0) /\ 0 < rps)))
  /\ (exists v,
        FairValue._ev_ebitda_valuation fd ticker = Ok v
        /\ (is_failed v = true
            \/ exists ebitda fv,
                 v = FairValue.EVEBITDA ebitda 12 (ebitda * 12) fv /\ 0 < ebitda)).
Proof.
  split; [|split].
  - destruct (pe_valuation_outcome fd ticker) as (v & Hrun & [Hf|(eps & pe & -> & H0 & H1 & H2)]).
    + exists v. split; [exact Hrun|now left].
    + eexists. split; [exact Hrun|]. right. split.
      * cbn. now apply Qmult_lt_0_compat.
      * now exists eps, pe.
  - destruct (ps_valuation_outcome fd ticker) as (v & Hrun & [Hf|(rps & -> & H0)]).
    + exists v. split; [exact Hrun|now left].
    + eexists. split; [exact Hrun|]. right. split.
      * cbn. apply Qmult_lt_0_compat; [exact H0|reflexivity].
      * now exists rps.
  - apply ev_ebitda_valuation_outcome.
Qed.

Lemma pysum_lower (lo : Q) (l : list Q) :
  Forall (fun x => lo <= x) l -> lo * inject_Z (len l) <= pysum l.
Proof.
  induction 1 as [|x l Hlo _ IH].
  - change (inject_Z (len (@nil Q))) with 0. change (pysum []) with 0. lra.
  - rewrite pysum_cons.
    assert (E : inject_Z (len (x :: l)) == 1 + inject_Z (len l)).
    { unfold len. cbn [List.length]. rewrite Nat2Z.inj_succ, <- Z.add_1_l.
      now rewrite inject_Z_plus. }
    rewrite E. lra.
Qed.

Lemma average_lower (lo : Q) (x : Q) (l : list Q) :
  Forall (fun y => lo <= y) (x :: l) ->
  lo <= pysum (x :: l) / inject_Z (len (x :: l)).
Proof.
  intros Hall.
  assert (Hlen : 0 < inject_Z (len (x :: l))).
  { rewrite <- (Zlt_Qlt 0). unfold len. cbn [List.length]. rewrite Nat2Z.inj_succ. lia. }
  apply Qle_shift_div_l; [exact Hlen|]. now apply pysum_lower.
Qed.

Lemma average_upper (hi : Q) (x : Q) (l : list Q) :
  Forall (fun y => y <= hi) (x :: l) ->
  pysum (x :: l) / inject_Z (len (x :: l)) <= hi.
Proof.
  intros Hall.
  assert (Hlen : 0 < inject_Z (len (x :: l))).
  { rewrite <- (Zlt_Qlt 0). unfold len. cbn [List.length]. rewrite Nat2Z.inj_succ. lia. }
  assert (Hneg : - hi * inject_Z (len (x :: l)) <= pysum (map Qopp (x :: l))).
  { rewrite <- (len_map Qopp (x :: l)). apply pysum_lower. apply Forall_forall. intros y Hy.
    apply in_map_iff in Hy. destruct Hy as (z & <- & Hz).
    rewrite Forall_forall in Hall. specialize (Hall z Hz). cbv beta in Hall. lra. }
  assert (Hopp : forall l' : list Q, pysum (map Qopp l') == - pysum l').
  { induction l' as [|y l' IH']; [reflexivity|].
    cbn [map]. rewrite !pysum_cons, IH'. ring. }
  rewrite Hopp in Hneg.
  apply Qle_shift_div_r; [exact Hlen|]. lra.
Qed.

Lemma valid_valuations_spec (vs : list FairValue.Valuation) :
  let valid := map FairValue.fair_value_of
                 (filter (fun v => Qgtb (FairValue.fair_value_of v) 0) vs) in
  Forall (fun x => 0 <= x) valid
  /\ (Forall (fun v => FairValue.fair_value_of v <= 0) vs -> valid = [])
  /\ (Exists (fun v => 0 < FairValue.fair_value_of v) vs -> valid <> [])
  /\ (forall lo hi,
         Forall (fun v => 0 < FairValue.fair_value_of v ->
                          lo <= FairValue.fair_value_of v
                          /\ FairValue.fair_value_of v <= hi) vs ->
         Forall (fun x => lo <= x) valid /\ Forall (fun x => x <= hi) valid).
Proof.
  cbn zeta. induction vs as [|v vs (IH0 & IHnone & IHsome & IHband)].
  - repeat split; try constructor. intros H. inversion H.
  - cbn [filter].
    destruct (Qgtb (FairValue.fair_value_of v) 0) eqn:E.
    + apply Qgtb_true in E. cbn [map].
      split; [constructor; [lra|exact IH0]|].
      split; [intros H; inversion H; subst; lra|].
      split; [discriminate|].
      intros lo hi H. inversion H as [|? ? Hv Hvs]; subst.
      destruct (IHband lo hi Hvs) as [Hlo Hhi]. destruct (Hv E) as [Hv0 Hv1].
      split; constructor; assumption.
    + apply Qgtb_false in E.
      split; [exact IH0|].
      split; [intros H; inversion H; subst; now apply IHnone|].
      split; [intros H; inversion H; subst; [lra|now apply IHsome]|].
      intros lo hi H. inversion H; subst. now apply IHband.
Qed.

(** X23: [calculate_fair_value] raises nothing but the [ZeroDivisionError]
    and the [OverflowError] of the DCF.  When it returns, it reports the four methods in their
    order; the average fair value is 0 when no method gives a positive value
    per share, and otherwise (in exact arithmetic) lies within any band that
    contains the positive values; without a positive price or a positive average the upside is 0
    and the recommendation is "Hold". *)
Theorem calculate_fair_value_outcome (fd : FairValue.FinancialData)
    (price_data : Response FairValue.Snapshot) (ticker : string)
    (growth_rate : option Q) (tg : Q) (wacc : option Q) :
  match FairValue.calculate_fair_value fd price_data ticker growth_rate tg wacc with
  | Ok r =>
      let methods := map snd (FairValue.valuation_methods r) in
      map fst (FairValue.valuation_methods r)
      = ["dcf"; "pe_multiple"; "ps_multiple"; "ev_ebitda"]
      /\ 0 <= FairValue.fair_value_average r
      /\ (Forall (fun v => FairValue.fair_value_of v <= 0) methods ->
          FairValue.fair_value_average r = 0)
      /\ (forall lo hi,
             Forall (fun v => 0 < FairValue.fair_value_of v ->
                              lo <= FairValue.fair_value_of v
                              /\ FairValue.fair_value_of v <= hi) methods ->
             Exists (fun v => 0 < FairValue.fair_value_of v) methods ->
             lo <= FairValue.fair_value_average r
             /\ FairValue.fair_value_average r <= hi)
      /\ (FairValue.current_price r <= 0 \/ FairValue.fair_value_average r <= 0 ->
          FairValue.upside_downside_pct r = 0
          /\ FairValue.recommendation r = "Hold - Fairly Valued")
      /\ (0 < FairValue.current_price r -> 0 < FairValue.fair_value_average r ->
          FairValue.upside_downside_pct r
          = (FairValue.fair_value_average r - FairValue.current_price r)
            / FairValue.current_price r * 100)
  | Raise e => e = ZeroDivisionError \/ e = OverflowError
  end.
Proof.
  unfold FairValue.calculate_fair_value.
  set (w := match wacc with
            | Some w0 => w0
            | None => FairValue._estimate_wacc ticker fd
            end).
  assert (Hgrowth : exists gr,
             match growth_rate with
             | Some g0 => Ok g0
             | None => FairValue._estimate_growth_rate fd
             end = Ok gr).
  { destruct growth_rate as [g0|]; [now exists g0|].
    destruct (estimate_growth_rate_outcome fd) as (rate & Hrate & _). now exists rate. }
  destruct Hgrowth as (gr & ->). cbn [bind].
  pose proof (dcf_valuation_raises fd gr tg w) as Hdcf.
  destruct (FairValue._dcf_valuation fd gr tg w) as [dcf|e]; cbn [bind];
    [clear Hdcf|now apply Hdcf].
  destruct (pe_valuation_outcome fd ticker) as (pe & -> & _). cbn [bind].
  destruct (ps_valuation_outcome fd ticker) as (ps & -> & _). cbn [bind].
  destruct (ev_ebitda_valuation_outcome fd ticker) as (ev & -> & _). cbn [bind].
  cbn [map snd].
  destruct (valid_valuations_spec [dcf; pe; ps; ev])
    as (Hnonneg & Hnone & Hsome & Hband).
  set (valid := map FairValue.fair_value_of
                  (filter (fun v => Qgtb (FairValue.fair_value_of v) 0)
                     [dcf; pe; ps; ev])) in *.
  set (price := match price_data with
                | WithKey snapshot => get (FairValue.price snapshot) 0
                | _ => 0
                end).
  assert (Havg : exists avg,
             match valid with
             | [] => Ok 0
             | _ :: _ => pydiv (pysum valid) (inject_Z (len valid))
             end = Ok avg
             /\ 0 <= avg
             /\ (valid = [] -> avg = 0)
             /\ (forall lo hi,
                    Forall (fun x => lo <= x) valid -> Forall (fun x => x <= hi) valid ->
                    valid <> [] -> lo <= avg /\ avg <= hi)).
  { destruct valid as [|x l].
    - exists 0. split; [reflexivity|]. split; [apply Qle_refl|].
      split; [reflexivity|]. intros lo hi _ _ H. congruence.
    - rewrite pydiv_ok by apply len_pos_cons.
      eexists. split; [reflexivity|].
      split; [now apply average_lower|]. split; [discriminate|].
      intros lo hi Hlo Hhi _. split; [now apply average_lower|now apply average_upper]. }
  destruct Havg as (avg & -> & Havg0 & Havg_none & Havg_band). cbn [bind].
  assert (Hup : exists up,
             (if Qgtb price 0 && Qgtb avg 0
              then q <- pydiv (avg - price) price ;; Ok (q * 100)
              else Ok 0) = Ok up
             /\ (price <= 0 \/ avg <= 0 -> up = 0)
             /\ (0 < price -> 0 < avg -> up = (avg - price) / price * 100)).
  { destruct (Qgtb price 0) eqn:Ep; cbn [andb].
    - apply Qgtb_true in Ep.
      destruct (Qgtb avg 0) eqn:Ea.
      + apply Qgtb_true in Ea. rewrite pydiv_ok by lra. cbn [bind].
        eexists. split; [reflexivity|]. split; [intros [H|H]; lra|reflexivity].
      + apply Qgtb_false in Ea. exists 0. split; [reflexivity|].
        split; [reflexivity|intros; lra].
    - apply Qgtb_false in Ep. exists 0. split; [reflexivity|].
      split; [reflexivity|intros; lra]. }
  destruct Hup as (up & -> & Hup0 & Hup1). cbn [bind].
  cbn [FairValue.valuation_methods FairValue.fair_value_average
       FairValue.current_price FairValue.upside_downside_pct
       FairValue.recommendation map fst snd].
  split; [reflexivity|]. split; [exact Havg0|].
  split; [intros H; apply Havg_none; now apply Hnone|].
  split.
  { intros lo hi Hb Hex. destruct (Hband lo hi Hb) as [Hlo Hhi].
    apply Havg_band; [exact Hlo|exact Hhi|now apply Hsome]. }
  split; [|exact Hup1].
  intros H. rewrite (Hup0 H). split; reflexivity.
Qed.

(** ** Demo mode *)

Lemma upper_ascii_idempotent (c : ascii) :
  Discovery.upper_ascii (Discovery.upper_ascii c) = Discovery.upper_ascii c.
Proof. destruct c as [[] [] [] [] [] [] [] []]; vm_compute; reflexivity. Qed.

Lemma upper_idempotent (s : string) : Discovery.upper (Discovery.upper s) = Discovery.upper s.
Proof.
  induction s as [|c s IH]; [reflexivity|].
  cbn [Discovery.upper]. now rewrite upper_ascii_idempotent, IH.
Qed.

(** X24: in demo mode the ticker is looked up without regard to case, and
    for a ticker without demo data the computation behind
    [prepare_segment_financials] fails with the [ValueError] "Unable to fetch
    data".  Every segment the demo data report resolves, under any spelling
    with the same normal form, to an allocation fraction in (0, 1], and the
    fractions of each demo company add up to at most 1. *)
Theorem demo_mode_lookup :
  (forall ticker segment years,
      Demo.get_demo_data (Discovery.upper ticker) = Demo.get_demo_data ticker
      /\ match Demo.get_demo_data ticker with
         | None =>
             compute_segment_financials Demo.demo_client ticker segment years
             = Raise (ValueError (UnableToFetch ticker))
         | Some demo =>
             get_segmented_revenues Demo.demo_client ticker years
             = WithKey (Demo.segmented_revenues demo)
             /\ get_income_statement Demo.demo_client ticker years
                = WithKey (Demo.income_statements demo)
         end)
  /\ forallb (fun ts => proper_fraction (demo_allocation (fst ts) (snd ts)))
       Demo.demo_segments = true
  /\ forallb (fun ts => proper_fraction
                          (demo_allocation (lower (fst ts)) (normalize (snd ts))))
       Demo.demo_segments = true
  /\ forallb fractions_within_total Demo.DEMO_COMPANIES = true.
Proof.
  split.
  - intros ticker segment years. split.
    + unfold Demo.get_demo_data. now rewrite upper_idempotent.
    + unfold compute_segment_financials, Demo.demo_client.
      cbn [get_segmented_revenues get_income_statement].
      destruct (Demo.get_demo_data ticker); [now split|reflexivity].
  - split; [vm_compute; reflexivity|]. split; vm_compute; reflexivity.
Qed.
